(** * Taxpayer authentication and secure transport (india_compliance)

    A shallow embedding of
    [india_compliance/gst_india/api_classes/taxpayer_base.py]: the
    decorator [otp_handler] and the classes [PublicCertificate],
    [FilesAPI], [TaxpayerAuthenticate] and [TaxpayerBaseAPI].

    Python objects are values of one inductive type, dictionaries are
    finite maps, and every method is a computation over an explicit
    [world] (attributes of [self], the "GST Credential" table, the GST
    Settings document, the cache, the running job, the clock and the log
    of requests handed to the gateway) that either returns or raises.

    Left out: of [TaxpayerBaseAPI] the methods [setup],
    [validate_auth_token], [get_filing_preference] and
    [initiate_otp_for_evc], which rest on attributes and helpers of
    [BaseAPI] and on the expiry of cache entries. *)

From Stdlib Require Import ZArith Ascii String List Bool Lia DecimalString.
From stdpp Require Import gmap strings list fin_maps.

Open Scope string_scope.
Open Scope Z_scope.

(** ** Python values *)

#[warnings="-register-all"]
Inductive value : Type :=
  | VNone
  | VBool (b : bool)
  | VInt (n : Z)
  | VStr (s : string)
  | VBytes (s : string)
  | VDatetime (t : Z)
  | VList (l : list value)
  | VDict (d : gmap string value).

(** A [frappe._dict] / JSON object. *)
Abbreviation pydict := (gmap string value).

(** [bool(v)] *)
Definition truthy (v : value) : bool :=
  match v with
  | VNone => false
  | VBool b => b
  | VInt n => negb (n =? 0)
  | VStr s => negb (String.eqb s "")
  | VBytes s => negb (String.eqb s "")
  | VDatetime _ => true
  | VList l => match l with [] => false | _ => true end
  | VDict d => negb (Nat.eqb (size d) 0)
  end.

(** [a == b]; booleans compare as the integers 0 and 1. *)
Fixpoint py_eq (a b : value) {struct a} : bool :=
  match a, b with
  | VNone, VNone => true
  | VBool x, VBool y => Bool.eqb x y
  | VBool x, VInt y => Z.b2z x =? y
  | VInt x, VBool y => x =? Z.b2z y
  | VInt x, VInt y => x =? y
  | VStr x, VStr y => String.eqb x y
  | VBytes x, VBytes y => String.eqb x y
  | VDatetime x, VDatetime y => x =? y
  | VList xs, VList ys =>
      (fix go (xs ys : list value) {struct xs} : bool :=
         match xs, ys with
         | [], [] => true
         | x :: xs', y :: ys' => py_eq x y && go xs' ys'
         | _, _ => false
         end) xs ys
  | VDict d, VDict e =>
      Nat.eqb (size d) (size e) &&
      map_fold (fun k v acc =>
                  acc && match e !! k with
                         | Some v' => py_eq v v'
                         | None => false
                         end) true d
  | _, _ => false
  end.

(** [a or b] *)
Definition py_or (a b : value) : value := if truthy a then a else b.

(** [d.get(k)], and attribute access on a [frappe._dict], which also
    yields [None] for a missing key. *)
Definition dict_get (d : pydict) (k : string) : value := default VNone (d !! k).

(** [d.get(k, {})] *)
Definition dict_get_or_empty (d : pydict) (k : string) : value :=
  default (VDict ∅) (d !! k).

(** [x in [a, b, ...]] for string literals. *)
Definition in_strs (v : value) (l : list string) : bool :=
  existsb (fun s => py_eq v (VStr s)) l.

(** ** Exceptions *)

Inductive exn : Type :=
  | OTPRequestedError (response : pydict)
  | InvalidOTPError (response : pydict)
  | InvalidAuthTokenError
  | ValidationError (message : value) (title : option string) (* frappe.throw *)
  | AttributeError
  | TypeError
  | OverflowError
  | ExternalError (what : string). (* raised inside a collaborator *)

Inductive outcome (A : Type) : Type :=
  | Ok (a : A)
  | Raise (e : exn).
Arguments Ok {A} a.
Arguments Raise {A} e.

(** ** Requests, callbacks and the world *)

(** The arguments of one call of the transport, after [before_request]. *)
Record request : Type := Request {
  base_path : string;
  method : string;
  endpoint : string;
  params : option pydict;
  headers : option pydict;
  json : option pydict
}.

(** What [frappe.local.job.after_job] holds: bound methods. *)
Inductive callback : Type :=
  | bound_reset_auth_token (gstin username : string).

Record world : Type := World {
  (* attributes of self *)
  company_gstin : string;
  username : string;
  app_key : value;
  auth_token : value;
  session_key : value;
  session_expiry : option Z;
  (* frappe *)
  db : list pydict;                    (* rows of "GST Credential" *)
  db_commits : nat;                    (* frappe.db.commit() *)
  gstn_public_certificate : value;     (* field of the GST Settings document *)
  cache : gmap string (value * Z);     (* frappe.cache: value, expires_in_sec *)
  cleared_document_cache : list string;
  job : option (list callback);        (* frappe.local.job, its after_job *)
  in_test : bool;                      (* frappe.flags.in_test *)
  now : Z;                             (* now_datetime(), in seconds since
                                          datetime.min *)
  sent : list request                  (* requests sent so far, oldest first *)
}.

Definition set_app_key (v : value) (w : world) : world :=
  World (company_gstin w) (username w) v (auth_token w) (session_key w)
        (session_expiry w) (db w) (db_commits w) (gstn_public_certificate w)
        (cache w) (cleared_document_cache w) (job w) (in_test w) (now w) (sent w).

Definition set_auth_token (v : value) (w : world) : world :=
  World (company_gstin w) (username w) (app_key w) v (session_key w)
        (session_expiry w) (db w) (db_commits w) (gstn_public_certificate w)
        (cache w) (cleared_document_cache w) (job w) (in_test w) (now w) (sent w).

Definition set_session_key (v : value) (w : world) : world :=
  World (company_gstin w) (username w) (app_key w) (auth_token w) v
        (session_expiry w) (db w) (db_commits w) (gstn_public_certificate w)
        (cache w) (cleared_document_cache w) (job w) (in_test w) (now w) (sent w).

Definition set_session_expiry (t : option Z) (w : world) : world :=
  World (company_gstin w) (username w) (app_key w) (auth_token w) (session_key w)
        t (db w) (db_commits w) (gstn_public_certificate w)
        (cache w) (cleared_document_cache w) (job w) (in_test w) (now w) (sent w).

Definition set_db (d : list pydict) (w : world) : world :=
  World (company_gstin w) (username w) (app_key w) (auth_token w) (session_key w)
        (session_expiry w) d (db_commits w) (gstn_public_certificate w)
        (cache w) (cleared_document_cache w) (job w) (in_test w) (now w) (sent w).

Definition set_db_commits (n : nat) (w : world) : world :=
  World (company_gstin w) (username w) (app_key w) (auth_token w) (session_key w)
        (session_expiry w) (db w) n (gstn_public_certificate w)
        (cache w) (cleared_document_cache w) (job w) (in_test w) (now w) (sent w).

Definition set_gstn_public_certificate (v : value) (w : world) : world :=
  World (company_gstin w) (username w) (app_key w) (auth_token w) (session_key w)
        (session_expiry w) (db w) (db_commits w) v
        (cache w) (cleared_document_cache w) (job w) (in_test w) (now w) (sent w).

Definition set_cache (c : gmap string (value * Z)) (w : world) : world :=
  World (company_gstin w) (username w) (app_key w) (auth_token w) (session_key w)
        (session_expiry w) (db w) (db_commits w) (gstn_public_certificate w)
        c (cleared_document_cache w) (job w) (in_test w) (now w) (sent w).

Definition set_cleared_document_cache (l : list string) (w : world) : world :=
  World (company_gstin w) (username w) (app_key w) (auth_token w) (session_key w)
        (session_expiry w) (db w) (db_commits w) (gstn_public_certificate w)
        (cache w) l (job w) (in_test w) (now w) (sent w).

Definition set_job (j : option (list callback)) (w : world) : world :=
  World (company_gstin w) (username w) (app_key w) (auth_token w) (session_key w)
        (session_expiry w) (db w) (db_commits w) (gstn_public_certificate w)
        (cache w) (cleared_document_cache w) j (in_test w) (now w) (sent w).

Definition set_now_sent (t : Z) (l : list request) (w : world) : world :=
  World (company_gstin w) (username w) (app_key w) (auth_token w) (session_key w)
        (session_expiry w) (db w) (db_commits w) (gstn_public_certificate w)
        (cache w) (cleared_document_cache w) (job w) (in_test w) t l.

(** ** Computations: state that survives an exception *)

Definition M (A : Type) : Type := world -> outcome A * world.

Definition ret {A} (a : A) : M A := fun w => (Ok a, w).

Definition raise {A} (e : exn) : M A := fun w => (Raise e, w).

Definition bind {A B} (m : M A) (k : A -> M B) : M B :=
  fun w => match m w with
           | (Ok a, w') => k a w'
           | (Raise e, w') => (Raise e, w')
           end.

Definition gets {A} (f : world -> A) : M A := fun w => (Ok (f w), w).

Definition modify (f : world -> world) : M unit := fun w => (Ok tt, f w).

(** The result of a collaborator that may raise. *)
Definition lift {A} (o : outcome A) : M A := fun w => (o, w).

Declare Scope py_scope.
Delimit Scope py_scope with py.
Notation "x <- c1 ;; c2" := (bind c1 (fun x => c2))
  (at level 100, c1 at next level, right associativity) : py_scope.
Notation "c1 ;; c2" := (bind c1 (fun _ => c2))
  (at level 100, right associativity) : py_scope.
Open Scope py_scope.

(** ** Collaborators outside the module

    [india_compliance.gst_india.utils.cryptography], [base64], [frappe],
    [x509] and the gateway are not part of the module; the development is
    parametric in them.  Each may raise. *)

Class Collaborators : Type := {
  aes_encrypt_data : value -> value -> outcome value;
  aes_decrypt_data : value -> value -> outcome value;
  encrypt_using_public_key : value -> value -> outcome value;
  hmac_sha256 : value -> value -> outcome value;
  b64encode : value -> outcome value;
  b64decode : value -> outcome value;
  (* frappe.as_json(obj, indent) *)
  as_json : value -> nat -> value;
  (* frappe.parse_json *)
  parse_json : value -> outcome value;
  (* frappe.utils.cint *)
  cint : value -> Z;
  (* x509.load_pem_x509_certificate(pem, default_backend()).not_valid_after *)
  not_valid_after : value -> outcome Z;
  (* the gateway's parsed reply to a request, given the requests before
     it, and the seconds the exchange took *)
  gateway : list request -> request -> N * outcome pydict
}.

(** What [FilesAPI] and the loading of credentials use besides. *)
Class FileCollaborators : Type := {
  (* india_compliance.gst_india.utils.cryptography.hash_sha256 *)
  hash_sha256 : value -> outcome value;
  (* india_compliance.gst_india.utils.tar_gz_bytes_to_data *)
  tar_gz_bytes_to_data : value -> outcome value;
  (* india_compliance.gst_india.utils.merge_dicts(d1, d2): d1 after the
     merge, which happens in place *)
  merge_dicts : value -> value -> outcome value;
  (* json.loads(data, object_hook=frappe._dict) *)
  json_loads : value -> outcome value;
  (* str(obj), as "{0}".format(obj) prints it *)
  py_str : value -> string;
  (* the content the gateway serves for a file, and the seconds it took *)
  file_gateway : list request -> request -> N * outcome value;
  (* BaseAPI.generate_request_id(length), a fresh identifier *)
  generate_request_id : world -> nat -> string
}.

(** ** Python and frappe primitives *)

(** [obj.get(k)] and [obj.k] on an object that need not be a dict. *)
Definition value_get (obj : value) (k : string) : M value :=
  match obj with
  | VDict d => ret (dict_get d k)
  | _ => raise AttributeError
  end.

(** [s.encode()] *)
Definition py_encode (v : value) : M value :=
  match v with
  | VStr s => ret (VBytes s)
  | _ => raise AttributeError
  end.

(** [b.decode()] *)
Definition py_decode (v : value) : M value :=
  match v with
  | VBytes s => ret (VStr s)
  | _ => raise AttributeError
  end.

(** [code in table] followed by [table[code]], for a table keyed by
    strings: lists and dicts are unhashable. *)
Definition table_lookup (code : value) (table : gmap string string)
  : M (option string) :=
  match code with
  | VStr s => ret (table !! s)
  | VList _ | VDict _ => raise TypeError
  | _ => ret None
  end.

(** [for row in obj]: the items the loop visits.  A dict gives its keys
    (in an order that no method here depends on), a string its
    characters, bytes their codes. *)
Definition py_iter (obj : value) : M (list value) :=
  match obj with
  | VList l => ret l
  | VDict d => ret ((fun kv => VStr (fst kv)) <$> map_to_list d)
  | VStr s => ret ((fun c => VStr (String c "")) <$> list_ascii_of_string s)
  | VBytes s =>
      ret ((fun c => VInt (Z.of_nat (nat_of_ascii c))) <$> list_ascii_of_string s)
  | _ => raise TypeError
  end.

(** A Datetime column of a row read from the table: a datetime or [None]. *)
Definition as_datetime (v : value) : option Z :=
  match v with
  | VDatetime t => Some t
  | _ => None
  end.

(** [str(n)] for an integer. *)
Definition py_str_int (n : Z) : string := NilZero.string_of_int (Z.to_int n).

(** [s[i:]] *)
Definition py_slice_from (i : nat) (s : string) : string :=
  String.substring i (String.length s - i) s.

(** A datetime is counted in seconds since [datetime.min], the first
    second of the year 1; [datetime_max] is the last second of the year
    9999. *)
Definition datetime_max : Z := 3652059 * 86400 - 1.

(** [add_to_date(None, minutes=m, as_datetime=True)] at time [t]: the
    sum, which Python refuses to form outside the range of datetimes. *)
Definition add_to_date (t minutes : Z) : outcome Z :=
  let sum := t + 60 * minutes in
  if (0 <=? sum) && (sum <=? datetime_max) then Ok sum else Raise OverflowError.

Definition row_matches (filters : list (string * string)) (row : pydict) : bool :=
  forallb (fun f => py_eq (dict_get row (fst f)) (VStr (snd f))) filters.

(** [frappe.db.set_value("GST Credential", filters, values)]: every row
    that meets the filters takes the given values, its other fields stay. *)
Definition db_set_value (filters : list (string * string)) (values : pydict)
  : M unit :=
  modify (fun w =>
    set_db ((fun row => if row_matches filters row then values ∪ row else row)
              <$> db w) w).

(** The filters of [self]'s credential row. *)
Definition credential_filters (gstin user : string) : list (string * string) :=
  [("gstin", gstin); ("username", user); ("service", "Returns")].

Definition self_filters (w : world) : list (string * string) :=
  credential_filters (company_gstin w) (username w).

(** [frappe.cache.set_value(key, value, expires_in_sec=n)] *)
Definition cache_set_value (key : string) (v : value) (expires_in_sec : Z)
  : M unit :=
  modify (fun w => set_cache (<[key := (v, expires_in_sec)]> (cache w)) w).

(** [frappe.clear_document_cache(doctype)] *)
Definition clear_document_cache (doctype : string) : M unit :=
  modify (fun w =>
    set_cleared_document_cache (cleared_document_cache w ++ [doctype]) w).

(** [frappe.db.commit()] *)
Definition db_commit : M unit :=
  modify (fun w => set_db_commits (S (db_commits w)) w).

Section Transport.
Context `{Collaborators}.

(** The request goes to the gateway; it is logged and the clock moves. *)
Definition transport (q : request) : M pydict :=
  fun w =>
    let r := gateway (sent w) q in
    (snd r, set_now_sent (now w + Z.of_N (fst r)) (sent w ++ [q]) w).

(** Modelled from the spec: [BaseAPI.get/post/put] of
    [api_classes/base.py], which is not among the sources.  Sections 4.5
    (steps 3 to 5) and 6: the payload is encrypted by the class's
    [before_request], the request is sent, and the parsed response goes
    through the class's [process_response], whose result is returned. *)
Definition BaseAPI_make_request
    (before_request : option pydict -> M (option pydict))
    (process_response : pydict -> M pydict)
    (base method endpoint : string)
    (params headers json : option pydict) : M pydict :=
  json <- before_request json ;;
  response <- transport (Request base method endpoint params headers json) ;;
  process_response response.

End Transport.

(** ** class PublicCertificate(BaseAPI) *)

Module PublicCertificate.
Section Methods.
Context `{Collaborators}.

Definition BASE_PATH : string := "static".

(** [BaseAPI.get] with the hooks of the base class, which do nothing. *)
Definition get (endpoint : string) : M pydict :=
  BaseAPI_make_request ret ret BASE_PATH "get" endpoint None None None.

(** [self.settings] is the cached GST Settings document, shared by every
    API object. *)
Definition get_gstn_public_certificate (error_message : value) : M value :=
  response <- get "gstn_g2b_prod_public" ;;
  current <- gets gstn_public_certificate ;;
  if py_eq (dict_get response "certificate") current
  then raise (ValidationError
                (py_or error_message
                       (VStr "Public Certificate is already up to date"))
                None)
  else
    modify (set_gstn_public_certificate (dict_get response "certificate")) ;;
    ret (dict_get response "certificate").

End Methods.
End PublicCertificate.

(** ** class FilesAPI(BaseAPI)

    [self.encryption_key], [self.hash] and [self.ul] are set by [get_all]
    before each [self.get] and read by the hooks that [self.get] runs;
    they are passed along as arguments. *)

Module FilesAPI.
Section Methods.
Context `{Collaborators} `{FileCollaborators}.

Definition BASE_PATH : string := "standard/gstn/files".

Definition decrypt_data (encryption_key encrypted_json : value) : M value :=
  data <- lift (aes_decrypt_data encrypted_json encryption_key) ;;
  decoded <- lift (b64decode data) ;;
  py_decode decoded.

Definition process_response (encryption_key hash ul response : value) : M value :=
  computed_hash <- lift (hash_sha256 response) ;;
  if negb (py_eq computed_hash hash) then
    raise (ValidationError
             (VStr ("Hash of file doesn't match for " ++ py_str ul
                    ++ ". File may be corrupted or tampered."))
             None)
  else
    encrypted_data <- lift (tar_gz_bytes_to_data response) ;;
    data <- decrypt_data encryption_key encrypted_data ;;
    lift (json_loads data).

(** The file request goes to the gateway; it is logged and the clock
    moves. *)
Definition file_transport (q : request) : M value :=
  fun w =>
    let r := file_gateway (sent w) q in
    (snd r, set_now_sent (now w + Z.of_N (fst r)) (sent w ++ [q]) w).

(** Modelled from the spec: [BaseAPI.get] of [api_classes/base.py], which
    is not among the sources, on a [FilesAPI] object.  Section 6: the URL
    is fetched and its content goes through [process_response]; the
    endpoint is the text of the URL, and another object makes it raise. *)
Definition get (encryption_key hash ul : value) : M value :=
  match ul with
  | VStr endpoint =>
      content <- file_transport (Request BASE_PATH "get" endpoint None None None) ;;
      process_response encryption_key hash ul content
  | _ => raise TypeError
  end.

(** The loop of [get_all] over the rows left, with the response so far. *)
Fixpoint get_rows (encryption_key : value) (rows : list value) (response : value)
  : M value :=
  match rows with
  | [] => ret response
  | row :: rest =>
      hash <- value_get row "hash" ;;
      ul <- value_get row "ul" ;;
      data <- get encryption_key hash ul ;;
      response <-
        (if negb (truthy response) then ret data
         else lift (merge_dicts response data)) ;;
      get_rows encryption_key rest response
  end.

Definition get_all (url_details : value) : M value :=
  let response := VDict ∅ in
  ek <- value_get url_details "ek" ;;
  encryption_key <- lift (b64decode ek) ;;
  urls <- value_get url_details "urls" ;;
  rows <- py_iter urls ;;
  get_rows encryption_key rows response.

End Methods.
End FilesAPI.

(** ** class TaxpayerAuthenticate(BaseAPI) *)

Module TaxpayerAuthenticate.

Definition IGNORED_ERROR_CODES : gmap string string :=
  list_to_map [
    ("RETOTPREQUEST", "otp_requested");
    ("EVCREQUEST", "otp_requested");
    ("AUTH158", "authorization_failed");
    ("AUTH4033", "invalid_otp");
    ("AUTH4038", "authorization_failed");
    ("TEC4002", "invalid_public_key");
    ("RET13506", "OTP is either expired or incorrect");
    ("RET00003", "Return Form already ready to be filed");
    ("RET09001",
     "Latest Summary is not available. Please generate summary and try again.")
  ].

Section Methods.
Context `{Collaborators}.

(** [super().post(json=..., endpoint=...)]: [BaseAPI.post] on [self],
    which runs the hooks of the class of [self]. *)
Variable super_post : option pydict -> string -> M pydict.

Definition request_otp : M value :=
  key <- gets app_key ;;
  user <- gets username ;;
  response <- super_post
    (Some (<["username" := VStr user]>
             (<["app_key" := key]> {["action" := VStr "OTPREQUEST"]})))
    "authenticate" ;;
  if negb (py_eq (dict_get response "status_cd") (VInt 1)) then ret VNone
  else
    gstin <- gets company_gstin ;;
    raise (OTPRequestedError
             (<["gstin" := VStr gstin]>
                (<["error_type" := VStr "otp_requested"]> response))).

Definition get_auth_token : M value :=
  token <- gets auth_token ;;
  if negb (truthy token) then ret VNone
  else
    expiry <- gets session_expiry ;;
    match expiry with
    | None => ret VNone
    | Some expiry =>
        t <- gets now ;;
        if expiry <=? t then ret VNone else ret token
    end.

(** [reset_auth_token] of the object with the given gstin and username;
    this is what a bound [self.reset_auth_token] runs later. *)
Definition reset_auth_token_of (gstin user : string) : M unit :=
  db_set_value (credential_filters gstin user) {["auth_token" := VNone]} ;;
  testing <- gets in_test ;;
  if negb testing then db_commit else ret tt.

Definition reset_auth_token : M unit :=
  gstin <- gets company_gstin ;;
  user <- gets username ;;
  reset_auth_token_of gstin user.

Definition autheticate_with_otp (otp : value) : M value :=
  if negb (truthy otp) then
    running <- gets job ;;
    match running with
    | Some after_job =>
        gstin <- gets company_gstin ;;
        user <- gets username ;;
        modify (set_job
                  (Some (after_job ++ [bound_reset_auth_token gstin user])%list)) ;;
        raise InvalidAuthTokenError
    | None =>
        filters <- gets self_filters ;;
        db_set_value filters {["auth_token" := VNone]} ;;
        modify (set_auth_token VNone) ;;
        request_otp
    end
  else
    key <- gets app_key ;;
    user <- gets username ;;
    response <- super_post
      (Some (<["otp" := otp]>
               (<["username" := VStr user]>
                  (<["app_key" := key]> {["action" := VStr "AUTHTOKEN"]}))))
      "authenticate" ;;
    gstin <- gets company_gstin ;;
    cache_set_value ("authenticated_gstin:" ++ gstin) (VBool true) (60 * 15) ;;
    ret (VDict response).

Definition refresh_auth_token : M value :=
  token <- get_auth_token ;;
  if negb (truthy token) then ret VNone
  else
    key <- gets app_key ;;
    user <- gets username ;;
    response <- super_post
      (Some (<["auth_token" := token]>
               (<["username" := VStr user]>
                  (<["app_key" := key]> {["action" := VStr "REFRESHTOKEN"]}))))
      "authenticate" ;;
    ret (VDict response).

Definition decrypt_response (response : pydict) : M pydict :=
  let values : pydict := ∅ in
  values <-
    (if truthy (dict_get response "auth_token") then
       modify (set_auth_token (dict_get response "auth_token")) ;;
       ret (<["auth_token" := dict_get response "auth_token"]> values)
     else ret values) ;;
  values <-
    (if truthy (dict_get response "expiry") then
       t <- gets now ;;
       expiry <- lift (add_to_date t (cint (dict_get response "expiry"))) ;;
       modify (set_session_expiry (Some expiry)) ;;
       ret (<["session_expiry" := VDatetime expiry]> values)
     else ret values) ;;
  values <-
    (if truthy (dict_get response "sek") then
       key <- gets app_key ;;
       skey <- lift (aes_decrypt_data (dict_get response "sek") key) ;;
       modify (set_session_key skey) ;;
       encoded <- lift (b64encode skey) ;;
       text <- py_decode encoded ;;
       ret (<["session_key" := text]> values)
     else ret values) ;;
  (if truthy (VDict values) then
     filters <- gets self_filters ;;
     db_set_value filters values ;;
     clear_document_cache "GST Settings"
   else ret tt) ;;
  ret response.

Definition get_public_certificate : M value :=
  certificate <- gets gstn_public_certificate ;;
  certificate <-
    (if negb (truthy certificate)
     then PublicCertificate.get_gstn_public_certificate VNone
     else ret certificate) ;;
  pem <- py_encode certificate ;;
  valid_up_to <- lift (not_valid_after pem) ;;
  t <- gets now ;;
  certificate <-
    (if valid_up_to <? t
     then PublicCertificate.get_gstn_public_certificate VNone
     else ret certificate) ;;
  py_encode certificate.

(** The dict is changed in place; the result is the dict after the call. *)
Definition encrypt_request (json : option pydict) : M (option pydict) :=
  match json with
  | None => ret json
  | Some j =>
      if negb (truthy (VDict j)) then ret json
      else
        j <-
          (if truthy (dict_get j "app_key") then
             cipher <-
               (if py_eq (dict_get j "action") (VStr "REFRESHTOKEN") then
                  key <- gets app_key ;;
                  skey <- gets session_key ;;
                  lift (aes_encrypt_data key skey)
                else
                  key <- gets app_key ;;
                  certificate <- get_public_certificate ;;
                  lift (encrypt_using_public_key key certificate)) ;;
             ret (<["app_key" := cipher]> j)
           else ret j) ;;
        j <-
          (if truthy (dict_get j "otp") then
             key <- gets app_key ;;
             cipher <- lift (aes_encrypt_data (dict_get j "otp") key) ;;
             ret (<["otp" := cipher]> j)
           else ret j) ;;
        ret (Some j)
  end.

End Methods.
End TaxpayerAuthenticate.

(** ** class TaxpayerBaseAPI(TaxpayerAuthenticate) *)

Module TaxpayerBaseAPI.

Definition BASE_PATH : string := "standard/gstn".

Definition IGNORED_ERROR_CODES : gmap string string :=
  <["RT-R1R3BAV-1007" := "authorization_failed"]>
    TaxpayerAuthenticate.IGNORED_ERROR_CODES.

Section Methods.
Context `{Collaborators}.

(** The response is changed in place; it is returned next to the flag
    ([None] counts as [False]). *)
Definition is_ignored_error (response : pydict) : M (bool * pydict) :=
  error_code <- value_get (dict_get_or_empty response "error") "error_cd" ;;
  found <- table_lookup error_code IGNORED_ERROR_CODES ;;
  match found with
  | Some error_type =>
      gstin <- gets company_gstin ;;
      let response :=
        <["gstin" := VStr gstin]> (<["error_type" := VStr error_type]> response) in
      if String.eqb error_type "otp_requested" then
        raise (OTPRequestedError response)
      else if String.eqb error_type "invalid_otp" then
        raise (InvalidOTPError response)
      else ret (true, response)
  | None => ret (false, response)
  end.

Definition handle_error_response (response : pydict) : M pydict :=
  let success_value := negb (py_eq (dict_get response "status_cd") (VInt 0)) in
  response <-
    (if negb success_value then
       ignored <- is_ignored_error response ;;
       if negb (fst ignored) then
         message <- value_get (dict_get_or_empty response "error") "message" ;;
         raise (ValidationError
                  (* Fallback to response body if message is not present *)
                  (py_or message (as_json (VDict response) 4))
                  (Some "API Request Failed"))
       else ret (snd ignored)
     else ret response) ;;
  (* Handle invalid public key *)
  (if py_eq (dict_get response "error_type") (VStr "invalid_public_key") then
     PublicCertificate.get_gstn_public_certificate
       (VStr "Looks like Public Key of GSTN used for encryption is Invalid") ;;
     ret tt
   else ret tt) ;;
  ret response.

Definition decrypt_response (response : pydict) : M pydict :=
  if truthy (dict_get response "auth_token") then
    TaxpayerAuthenticate.decrypt_response response
  else
    decrypted_rek <-
      (if truthy (dict_get response "rek") then
         skey <- gets session_key ;;
         lift (aes_decrypt_data (dict_get response "rek") skey)
       else ret VNone) ;;
    if truthy (dict_get response "data") then
      let data := dict_get response "data" in
      let response := delete "data" response in
      decrypted_data <- lift (aes_decrypt_data data decrypted_rek) ;;
      (if truthy (dict_get response "hmac") then
         hmac <- lift (hmac_sha256 decrypted_data decrypted_rek) ;;
         if negb (py_eq hmac (dict_get response "hmac")) then
           raise (ValidationError (VStr "HMAC mismatch") None)
         else ret tt
       else ret tt) ;;
      decoded <- lift (b64decode decrypted_data) ;;
      text <- py_decode decoded ;;
      result <- lift (parse_json text) ;;
      ret (<["result" := result]> response)
    else ret response.

Definition encrypt_request (json : option pydict) : M (option pydict) :=
  match json with
  | None => ret json
  | Some j =>
      if negb (truthy (VDict j)) then ret json
      else
        json <- TaxpayerAuthenticate.encrypt_request json ;;
        match json with
        | None => ret json
        | Some j =>
            if truthy (dict_get j "data") then
              encoded <- py_encode (as_json (dict_get j "data") 1) ;;
              b64_data <- lift (b64encode encoded) ;;
              text <- py_decode b64_data ;;
              skey <- gets session_key ;;
              cipher <- lift (aes_encrypt_data text skey) ;;
              let j := <["data" := cipher]> j in
              if py_eq (dict_get j "st") (VStr "EVC") then
                sid_key <- py_encode (dict_get j "sid") ;;
                sign <- lift (hmac_sha256 b64_data sid_key) ;;
                ret (Some (<["sign" := sign]> j))
              else
                skey <- gets session_key ;;
                hmac <- lift (hmac_sha256 b64_data skey) ;;
                ret (Some (<["hmac" := hmac]> j))
            else ret json
        end
  end.

Definition before_request (json : option pydict) : M (option pydict) :=
  encrypt_request json.

(** [handle_error_response] changes the response in place, so
    [decrypt_response] receives the changed object. *)
Definition process_response (response : pydict) : M pydict :=
  response <- handle_error_response response ;;
  decrypt_response response.

(** [getattr(super(), method)(params=, headers=, json=, endpoint=)]:
    [BaseAPI.get], [BaseAPI.post] or [BaseAPI.put] on [self]. *)
Definition super_method (method : string) (params headers json : option pydict)
    (endpoint : string) : M pydict :=
  if existsb (String.eqb method) ["get"; "post"; "put"] then
    BaseAPI_make_request before_request process_response
      BASE_PATH method endpoint params headers json
  else raise AttributeError.

Definition super_post (json : option pydict) (endpoint : string) : M pydict :=
  super_method "post" None None json endpoint.

(** Methods inherited from [TaxpayerAuthenticate]. *)
Definition request_otp : M value :=
  TaxpayerAuthenticate.request_otp super_post.

Definition autheticate_with_otp (otp : value) : M value :=
  TaxpayerAuthenticate.autheticate_with_otp super_post otp.

Definition refresh_auth_token : M value :=
  TaxpayerAuthenticate.refresh_auth_token super_post.

Definition get_auth_token : M value := TaxpayerAuthenticate.get_auth_token.

Definition reset_auth_token : M unit := TaxpayerAuthenticate.reset_auth_token.

(** The headers of the business request. *)
Definition request_headers (auth_token return_type return_period : value)
  : pydict :=
  let headers : pydict := {["auth-token" := auth_token]} in
  let headers :=
    if truthy return_type
    then <["userrole" := return_type]> (<["rtn_typ" := return_type]> headers)
    else headers in
  if truthy return_period
  then <["ret_period" := return_period]> headers
  else headers.

(** The business request and what follows it in [_request]. *)
Definition send_request (method : string) (action : value)
    (params : option pydict) (headers : pydict) (endpoint : string)
    (json : option pydict) : M value :=
  response <- super_method method
    (Some (default ∅ params ∪ {["action" := action]}))
    (Some headers) json endpoint ;;
  if py_eq (dict_get response "error_type") (VStr "authorization_failed")
  then autheticate_with_otp VNone
  else ret (VDict response).

Definition _request (method : string) (action return_type return_period : value)
    (params : option pydict) (endpoint : string) (json : option pydict)
    (otp : value) : M value :=
  auth_token <- get_auth_token ;;
  if negb (truthy auth_token) || truthy otp then
    response <- autheticate_with_otp otp ;;
    error_type <- value_get response "error_type" ;;
    if in_strs error_type ["otp_requested"; "invalid_otp"] then ret response
    else
      send_request method action params
        (request_headers auth_token return_type return_period) endpoint json
  else
    send_request method action params
      (request_headers auth_token return_type return_period) endpoint json.

Definition get (action return_type return_period : value) (params : pydict)
    (endpoint : string) (json : option pydict) (otp : value) : M value :=
  gstin <- gets company_gstin ;;
  _request "get" action return_type return_period
    (Some (params ∪ {["gstin" := VStr gstin]})) endpoint json otp.

Definition post (action return_type return_period : value)
    (params : option pydict) (endpoint : string) (json : option pydict)
    (otp : value) : M value :=
  _request "post" action return_type return_period params endpoint json otp.

Definition put (action return_type return_period : value)
    (params : option pydict) (endpoint : string) (json : option pydict)
    (otp : value) : M value :=
  _request "put" action return_type return_period params endpoint json otp.

Context `{FileCollaborators}.

Definition generate_app_key : M value :=
  app_key <- gets (fun w => VStr (generate_request_id w 32)) ;;
  filters <- gets self_filters ;;
  db_set_value filters {["app_key" := app_key]} ;;
  ret app_key.

(** [row] is the credential row that [BaseAPI.fetch_credentials] has
    read; its [session_expiry] is a Datetime column. *)
Definition _fetch_credentials (row : pydict) : M unit :=
  app_key <-
    (if truthy (dict_get row "app_key") then ret (dict_get row "app_key")
     else generate_app_key) ;;
  modify (set_app_key app_key) ;;
  modify (set_auth_token (dict_get row "auth_token")) ;;
  session_key <- lift (b64decode (py_or (dict_get row "session_key") (VStr ""))) ;;
  modify (set_session_key session_key) ;;
  modify (set_session_expiry (as_datetime (dict_get row "session_expiry"))).

Definition get_files (return_period token action : value) (endpoint : string)
    (otp : value) : M value :=
  response <- get action VNone return_period
    (<["token" := token]> {["ret_period" := return_period]})
    endpoint None otp ;;
  error_type <- value_get response "error_type" ;;
  if py_eq error_type (VStr "queued") then ret response
  else FilesAPI.get_all response.

End Methods.

(** [frappe.utils.getdate()], of which [get_fy] reads the year and the
    month. *)
Record date : Type := Date { year : Z; month : Z; day : Z }.

(** [get_fy()] on the day [today]. *)
Definition get_fy (today : date) : string :=
  (* Standard for India as per GST *)
  if month today <? 4 then
    py_str_int (year today - 1) ++ "-" ++ py_slice_from 2 (py_str_int (year today))
  else
    py_str_int (year today) ++ "-" ++ py_slice_from 2 (py_str_int (year today + 1)).

End TaxpayerBaseAPI.

(** ** The decorator [otp_handler] *)

Definition otp_handler (func : M value) : M value :=
  fun w =>
    match func w with
    | (Raise (OTPRequestedError response), w') => (Ok (VDict response), w')
    | (Raise (InvalidOTPError response), w') => (Ok (VDict response), w')
    | r => r
    end.

(** ** The job runner

    Modelled from the spec: the runner of deferred jobs belongs to frappe
    and is not among the sources.  Section 9: the callbacks registered on
    the job's completion list are executed by the runner once the job is
    over, in the order of registration; a callback that raises stops the
    run. *)

Section JobRunner.
Context `{Collaborators}.

Definition run_callback (c : callback) : M unit :=
  match c with
  | bound_reset_auth_token gstin user =>
      TaxpayerAuthenticate.reset_auth_token_of gstin user
  end.

Fixpoint run_callbacks (l : list callback) : M unit :=
  match l with
  | [] => ret tt
  | c :: l' => run_callback c ;; run_callbacks l'
  end.

Definition run_after_job : M unit :=
  running <- gets job ;;
  match running with
  | Some after_job => modify (set_job None) ;; run_callbacks after_job
  | None => ret tt
  end.

End JobRunner.

(** ** A concrete gateway and symbolic cryptography, for examples

    A ciphertext is the list of a tag, the plaintext and the key, so that
    decryption under the right key gives the plaintext back. *)

Module Demo.

Definition sealed (tag : string) (plain key : value) : value :=
  VList [VStr tag; plain; key].

Definition unseal (tag : string) (cipher key : value) : outcome value :=
  match cipher with
  | VList [VStr t; plain; k] =>
      if String.eqb t tag && py_eq k key then Ok plain
      else Raise (ExternalError "decrypt")
  | _ => Raise (ExternalError "decrypt")
  end.

Definition b64 (v : value) : outcome value :=
  match v with
  | VBytes s => Ok (VBytes ("b64:" ++ s))
  | _ => Raise TypeError
  end.

Definition unb64 (v : value) : outcome value :=
  match v with
  | VBytes s | VStr s =>
      if String.prefix "b64:" s
      then Ok (VBytes (String.substring 4 (String.length s - 4) s))
      else Raise (ExternalError "b64decode")
  | _ => Raise (ExternalError "b64decode")
  end.

Definition authorization_failure : pydict :=
  <["error" := VDict (<["message" := VStr "Session Expired"]>
                        {["error_cd" := VStr "AUTH4038"]})]>
    {["status_cd" := VInt 0]}.

Definition unknown_failure : pydict :=
  <["error" := VDict (<["message" := VStr "Unknown failure"]>
                        {["error_cd" := VStr "XYZ999"]})]>
    {["status_cd" := VInt 0]}.

Definition token_grant : pydict :=
  <["sek" := sealed "aes" (VBytes "SESSION-2") (VStr "APPKEY")]>
    (<["expiry" := VInt 360]>
       (<["auth_token" := VStr "TOKEN-2"]> {["status_cd" := VInt 1]})).

Definition business_reply : pydict :=
  <["hmac" := sealed "hmac" (VBytes "b64:payload") (VBytes "REK")]>
    (<["data" := sealed "aes" (VBytes "b64:payload") (VBytes "REK")]>
       (<["rek" := sealed "aes" (VBytes "REK") (VBytes "SESSION-1")]>
          {["status_cd" := VInt 1]})).

(** The gateway: a new certificate on the static endpoint, an
    acknowledgement for OTPREQUEST, a token for AUTHTOKEN and
    REFRESHTOKEN, and business data only under the token TOKEN-1. *)
Definition reply (history : list request) (q : request) : N * outcome pydict :=
  if String.eqb (base_path q) "static" then
    (1%N, Ok {["certificate" := VStr "PEM-2"]})
  else if String.eqb (endpoint q) "authenticate" then
    let action := dict_get (default ∅ (json q)) "action" in
    if py_eq action (VStr "OTPREQUEST") then (2%N, Ok {["status_cd" := VInt 1]})
    else if in_strs action ["AUTHTOKEN"; "REFRESHTOKEN"] then (2%N, Ok token_grant)
    else (2%N, Ok unknown_failure)
  else if py_eq (dict_get (default ∅ (headers q)) "auth-token") (VStr "TOKEN-1")
  then (3%N, Ok business_reply)
  else (3%N, Ok authorization_failure).

#[local] Instance collaborators : Collaborators := {|
  aes_encrypt_data p k := Ok (sealed "aes" p k);
  aes_decrypt_data c k := unseal "aes" c k;
  encrypt_using_public_key p cert := Ok (sealed "rsa" p cert);
  hmac_sha256 d k := Ok (sealed "hmac" d k);
  b64encode := b64;
  b64decode := unb64;
  as_json v indent := VStr "<json>";
  parse_json v := Ok v;
  cint v := match v with VInt n => n | _ => 0 end;
  not_valid_after pem := Ok 1000000;
  gateway := reply
|}.

Definition credential (token : value) : pydict :=
  <["auth_token" := token]>
    (<["service" := VStr "Returns"]>
       (<["username" := VStr "user"]> {["gstin" := VStr "24AAAAA0000A1Z5"]})).

(** A taxpayer with the given token, expiry and job, at time 1000, with
    the certificate PEM-1 cached and another taxpayer's row in the table. *)
Definition taxpayer (token : value) (expiry : option Z)
    (running : option (list callback)) : world :=
  {| company_gstin := "24AAAAA0000A1Z5";
     username := "user";
     app_key := VStr "APPKEY";
     auth_token := token;
     session_key := VBytes "SESSION-1";
     session_expiry := expiry;
     db := [credential token;
            <["gstin" := VStr "27BBBBB1111B1Z6"]> (credential (VStr "OTHER"))];
     db_commits := 0;
     gstn_public_certificate := VStr "PEM-1";
     cache := ∅;
     cleared_document_cache := [];
     job := running;
     in_test := false;
     now := 1000;
     sent := [] |}.

(** The taxpayer with a live token, with a token at its expiry, without
    one, inside a job, and with a token that the gateway rejects. *)
Definition live : world := taxpayer (VStr "TOKEN-1") (Some 2000) None.
Definition expired : world := taxpayer (VStr "TOKEN-1") (Some 1000) None.
Definition fresh : world := taxpayer VNone None None.
Definition in_job : world := taxpayer (VStr "TOKEN-1") (Some 2000) (Some []).
Definition stale : world := taxpayer (VStr "STALE") (Some 2000) None.

(** Payloads before encryption. *)
Definition refresh_payload : pydict :=
  <["auth_token" := VStr "TOKEN-1"]>
    (<["username" := VStr "user"]>
       (<["app_key" := VStr "APPKEY"]> {["action" := VStr "REFRESHTOKEN"]})).

Definition otp_payload : pydict :=
  <["otp" := VStr "123456"]>
    (<["username" := VStr "user"]>
       (<["app_key" := VStr "APPKEY"]> {["action" := VStr "AUTHTOKEN"]})).

(** The business reply with a forged HMAC, alone and next to a token. *)
Definition forged_reply : pydict := <["hmac" := VStr "forged"]> business_reply.

Definition forged_grant : pydict := <["auth_token" := VStr "TOKEN-2"]> forged_reply.

(** Failures whose codes the table lists. *)
Definition otp_demand : pydict :=
  <["error" := VDict {["error_cd" := VStr "RETOTPREQUEST"]}]>
    {["status_cd" := VInt 0]}.

Definition key_failure : pydict :=
  <["error" := VDict {["error_cd" := VStr "TEC4002"]}]> {["status_cd" := VInt 0]}.

(** A payload with data to save. *)
Definition data_payload : pydict :=
  <["data" := VStr "invoices"]> {["action" := VStr "RETSAVE"]}.

(** The taxpayer after the certificate PEM-1 has expired, without a
    certificate in the settings, and with another app key. *)
Definition late : world := set_now_sent 2000000 [] live.
Definition no_certificate : world := set_gstn_public_certificate VNone fresh.
Definition other_key : world := set_app_key (VStr "OTHERKEY") fresh.

(** The taxpayer with the rejected token inside a job. *)
Definition stale_in_job : world := taxpayer (VStr "STALE") (Some 2000) (Some []).

(** A grant whose expiry is beyond the last datetime. *)
Definition endless_grant : pydict := <["expiry" := VInt 10000000000000]> token_grant.

(** The row of the other taxpayer in the table. *)
Definition other_row : pydict :=
  <["gstin" := VStr "27BBBBB1111B1Z6"]> (credential (VStr "OTHER")).

(** The row of the taxpayer as a rotation leaves it. *)
Definition stored_row : pydict :=
  <["session_expiry" := VDatetime 2000]>
    (<["session_key" := VStr "b64:SESSION-1"]>
       (<["app_key" := VStr "APPKEY"]> (credential (VStr "TOKEN-1")))).

(** Files: a content is the list of a tag and what the archive holds,
    its hash the list of a tag and the content. *)
Definition file_content (packed : value) : value := VList [VStr "tar.gz"; packed].

Definition sha256 (content : value) : value := VList [VStr "sha256"; content].

Definition untar (content : value) : outcome value :=
  match content with
  | VList [VStr "tar.gz"; packed] => Ok packed
  | _ => Raise (ExternalError "tar_gz_bytes_to_data")
  end.

Definition merge (a b : value) : outcome value :=
  match a, b with
  | VDict x, VDict y => Ok (VDict (x ∪ y))
  | _, _ => Raise TypeError
  end.

Definition loads (text : value) : outcome value :=
  match text with
  | VStr s => Ok (VDict {["text" := VStr s]})
  | _ => Raise TypeError
  end.

Definition file_one : value :=
  file_content (sealed "aes" (VBytes "b64:one") (VBytes "EK")).

(** The gateway of files serves one file, under any name. *)
Definition files (history : list request) (q : request) : N * outcome value :=
  (1%N, Ok file_one).

#[local] Instance file_collaborators : FileCollaborators := {|
  hash_sha256 content := Ok (sha256 content);
  tar_gz_bytes_to_data := untar;
  merge_dicts := merge;
  json_loads := loads;
  py_str v := match v with VStr s => s | _ => "?" end;
  file_gateway := files;
  generate_request_id w length := "GENERATED"
|}.

(** Rows of [url_details.urls]: one with the hash of the file, one with
    another hash. *)
Definition good_row (ul : string) : pydict :=
  <["ul" := VStr ul]> {["hash" := sha256 file_one]}.

Definition bad_row (ul : string) : pydict :=
  <["ul" := VStr ul]> {["hash" := VStr "tampered"]}.

(** The details of two files, the first with another hash. *)
Definition tampered_details : pydict :=
  <["urls" := VList [VDict (bad_row "file-2"); VDict (good_row "file-3")]]>
    {["ek" := VBytes "b64:EK"]}.

End Demo.

(** ** What a computation may change *)

(** Every step of [m] relates the world before to the world after,
    whether it returns or raises. *)
Definition preserves {A} (R : relation world) (m : M A) : Prop :=
  forall w, R w (snd (m w)).

Definition header_less (q : request) : Prop := headers q = None.

(** Only the clock, the settings' certificate and the log differ, and the
    log has grown by requests without headers. *)
Definition only_fetches (w w' : world) : Prop :=
  company_gstin w' = company_gstin w /\
  username w' = username w /\
  app_key w' = app_key w /\
  auth_token w' = auth_token w /\
  session_key w' = session_key w /\
  session_expiry w' = session_expiry w /\
  db w' = db w /\
  db_commits w' = db_commits w /\
  cache w' = cache w /\
  cleared_document_cache w' = cleared_document_cache w /\
  job w' = job w /\
  in_test w' = in_test w /\
  exists new, sent w' = (sent w ++ new)%list /\ Forall header_less new.

(** The taxpayer is the same and the log has grown by requests without
    headers. *)
Definition only_authenticates (w w' : world) : Prop :=
  company_gstin w' = company_gstin w /\
  username w' = username w /\
  app_key w' = app_key w /\
  exists new, sent w' = (sent w ++ new)%list /\ Forall header_less new.

(** The taxpayer, the credential table and the token attribute are the
    same. *)
Definition keeps_credentials (w w' : world) : Prop :=
  company_gstin w' = company_gstin w /\
  username w' = username w /\
  db w' = db w /\
  auth_token w' = auth_token w.

(** The log has grown by requests that have no headers or the headers [h]. *)
Definition only_requests (h : pydict) (w w' : world) : Prop :=
  exists new,
    sent w' = (sent w ++ new)%list /\
    Forall (fun q => header_less q \/ headers q = Some h) new.

(** The taxpayer is the same and the credential rows of the others are
    as they were. *)
Definition keeps_other_rows (w w' : world) : Prop :=
  company_gstin w' = company_gstin w /\
  username w' = username w /\
  forall i row,
    db w !! i = Some row ->
    row_matches (self_filters w) row = false ->
    db w' !! i = Some row.

Definition keeps_cache (w w' : world) : Prop := cache w' = cache w.

(** ** Vocabulary of the properties *)

(** The world once [q] has been sent from [w]. *)
Definition after_sending `{Collaborators} (q : request) (w : world) : world :=
  set_now_sent (now w + Z.of_N (fst (gateway (sent w) q))) (sent w ++ [q]) w.

(** An error code the table of [TaxpayerBaseAPI] does not list; [None]
    stands for a response without a code.  Lists and dicts are not codes. *)
Definition unrecognized (code : value) : Prop :=
  match code with
  | VStr s => TaxpayerBaseAPI.IGNORED_ERROR_CODES !! s = None
  | VList _ | VDict _ => False
  | _ => True
  end.

(** The key under which the data of a response is decrypted: the
    decrypted [rek], or [None] without one. *)
Definition data_key `{Collaborators} (response : pydict) (w : world)
  : outcome value :=
  if truthy (dict_get response "rek")
  then aes_decrypt_data (dict_get response "rek") (session_key w)
  else Ok VNone.

(** The data key and the data decrypt, and the HMAC of the decrypted data
    under the data key is not the [hmac] of the response. *)
Definition hmac_differs `{Collaborators} (response : pydict) (w : world) : Prop :=
  exists key plain hmac,
    data_key response w = Ok key /\
    aes_decrypt_data (dict_get response "data") key = Ok plain /\
    hmac_sha256 plain key = Ok hmac /\
    py_eq hmac (dict_get response "hmac") = false.

(** [frappe.db.set_value(..., {"auth_token": None})] on one row. *)
Definition clear_token (filters : list (string * string)) (row : pydict) : pydict :=
  if row_matches filters row then {["auth_token" := VNone]} ∪ row else row.

(** The request that [FilesAPI.get] sends for the URL [ul], if any, and
    the one of a row of [url_details.urls]. *)
Definition ul_request (ul : value) : list request :=
  match ul with
  | VStr endpoint => [Request FilesAPI.BASE_PATH "get" endpoint None None None]
  | _ => []
  end.

Definition file_request (row : value) : list request :=
  match row with
  | VDict d => ul_request (dict_get d "ul")
  | _ => []
  end.

(** The decimal digits of a number below 100. *)
Definition two_digits (n : Z) : string :=
  py_str_int (n / 10) ++ py_str_int (n mod 10).

(** The payload of a request for an OTP, before its encryption. *)
Definition otp_request_payload (w : world) : pydict :=
  <["username" := VStr (username w)]>
    (<["app_key" := app_key w]> {["action" := VStr "OTPREQUEST"]}).

(** [_request] gets as far as the business request: the token resolved at
    the start is [token], and the authentication before the request, if
    one is due, returns a response that is neither [otp_requested] nor
    [invalid_otp], leaving the world [w1]. *)
Definition reaches_request `{Collaborators}
    (otp : value) (w : world) (token : value) (w1 : world) : Prop :=
  TaxpayerBaseAPI.get_auth_token w = (Ok token, w) /\
  if negb (truthy token) || truthy otp
  then exists response,
      TaxpayerBaseAPI.autheticate_with_otp otp w = (Ok (VDict response), w1) /\
      in_strs (dict_get response "error_type") ["otp_requested"; "invalid_otp"]
      = false
  else w1 = w.

(** * Properties *)

(** ** Running the model on the demo gateway *)

Section DemoRuns.
Import Demo.
#[local] Existing Instance Demo.collaborators.

(** A live token: the business data comes back decrypted and verified. *)
Example demo_business_call :
  fst (TaxpayerBaseAPI.post (VStr "RETSUM") VNone VNone None "returns" None VNone
         (taxpayer (VStr "TOKEN-1") (Some 2000) None))
  = Ok (VDict (<["result" := VStr "payload"]> (delete "data" business_reply))).
Proof. vm_compute. reflexivity. Qed.

(** No token and no OTP: the token is reset and an OTP is requested. *)
Example demo_no_token :
  otp_handler (TaxpayerBaseAPI.request_otp) (taxpayer VNone None None)
  = otp_handler (TaxpayerBaseAPI.post (VStr "RETSUM") VNone VNone None "returns"
                   None VNone) (taxpayer VNone None None).
Proof. vm_compute. reflexivity. Qed.

End DemoRuns.

(** ** Python equality and truth *)

Lemma py_eq_one_not_zero (v : value) :
  py_eq v (VInt 1) = true -> py_eq v (VInt 0) = false.
Proof.
  destruct v as [ |[]|n| | | | | ]; simpl; try discriminate; try reflexivity.
  intros E%Z.eqb_eq. subst n. reflexivity.
Qed.

(** A dict with a truthy entry is not empty. *)
Lemma truthy_entry_nonempty (d : pydict) (k : string) :
  truthy (dict_get d k) = true -> truthy (VDict d) = true.
Proof.
  unfold dict_get. destruct (d !! k) as [v|] eqn:E; simpl; [intros _ | discriminate].
  destruct (size d) eqn:S0; [ | reflexivity].
  apply map_size_empty_inv in S0. subst d. rewrite lookup_empty in E. discriminate.
Qed.

Lemma insert_truthy (d : pydict) (k : string) (v : value) :
  truthy (VDict (<[k := v]> d)) = true.
Proof.
  simpl. destruct (size (<[k := v]> d)) eqn:E; [ | reflexivity].
  apply map_size_empty_inv in E. exfalso. exact (insert_non_empty _ _ _ E).
Qed.

Ltac run := unfold bind, ret, raise, gets, modify, lift in *; simpl in *.

(** ** Frame rules *)

Lemma only_fetches_refl (w : world) : only_fetches w w.
Proof.
  unfold only_fetches. repeat (split; [reflexivity | ]).
  exists []. rewrite app_nil_r. split; [reflexivity | constructor].
Qed.

Lemma only_fetches_trans (w1 w2 w3 : world) :
  only_fetches w1 w2 -> only_fetches w2 w3 -> only_fetches w1 w3.
Proof.
  unfold only_fetches.
  intros (?&?&?&?&?&?&?&?&?&?&?&?&n1&E1&F1) (?&?&?&?&?&?&?&?&?&?&?&?&n2&E2&F2).
  repeat (split; [congruence | ]).
  exists (n1 ++ n2)%list. split.
  - rewrite E2, E1, <- app_assoc. reflexivity.
  - apply Forall_app. split; assumption.
Qed.

Lemma only_authenticates_refl (w : world) : only_authenticates w w.
Proof.
  unfold only_authenticates. repeat (split; [reflexivity | ]).
  exists []. rewrite app_nil_r. split; [reflexivity | constructor].
Qed.

Lemma only_authenticates_trans (w1 w2 w3 : world) :
  only_authenticates w1 w2 -> only_authenticates w2 w3 -> only_authenticates w1 w3.
Proof.
  unfold only_authenticates.
  intros (?&?&?&n1&E1&F1) (?&?&?&n2&E2&F2).
  repeat (split; [congruence | ]).
  exists (n1 ++ n2)%list. split.
  - rewrite E2, E1, <- app_assoc. reflexivity.
  - apply Forall_app. split; assumption.
Qed.

Lemma only_fetches_authenticates (w w' : world) :
  only_fetches w w' -> only_authenticates w w'.
Proof.
  unfold only_fetches, only_authenticates.
  intros (?&?&?&?&?&?&?&?&?&?&?&?&Hlog). auto.
Qed.

#[local] Instance only_fetches_preorder : PreOrder only_fetches.
Proof. split; [exact only_fetches_refl | exact only_fetches_trans]. Qed.

#[local] Instance only_authenticates_preorder : PreOrder only_authenticates.
Proof. split; [exact only_authenticates_refl | exact only_authenticates_trans]. Qed.

Lemma only_fetches_keeps_credentials (w w' : world) :
  only_fetches w w' -> keeps_credentials w w'.
Proof.
  unfold only_fetches, keeps_credentials.
  intros (?&?&?&?&?&?&?&_). auto.
Qed.

#[local] Instance keeps_credentials_preorder : PreOrder keeps_credentials.
Proof.
  split.
  - intros w. unfold keeps_credentials. auto.
  - intros w1 w2 w3 (?&?&?&?) (?&?&?&?). unfold keeps_credentials.
    repeat split; congruence.
Qed.

#[local] Instance only_requests_preorder (h : pydict) : PreOrder (only_requests h).
Proof.
  split.
  - intros w. exists []. rewrite app_nil_r. split; [reflexivity | constructor].
  - intros w1 w2 w3 (n1 & E1 & F1) (n2 & E2 & F2). exists (n1 ++ n2)%list. split.
    + rewrite E2, E1, <- app_assoc. reflexivity.
    + apply Forall_app. split; assumption.
Qed.


Section FrameRules.
Context {R : relation world} `{!PreOrder R}.

Lemma preserves_ret {A} (a : A) : preserves R (ret a).
Proof. intros w. reflexivity. Qed.

Lemma preserves_raise {A} (e : exn) : preserves R (raise (A := A) e).
Proof. intros w. reflexivity. Qed.

Lemma preserves_gets {A} (f : world -> A) : preserves R (gets f).
Proof. intros w. reflexivity. Qed.

Lemma preserves_lift {A} (o : outcome A) : preserves R (lift o).
Proof. intros w. reflexivity. Qed.

Lemma preserves_bind {A B} (m : M A) (k : A -> M B) :
  preserves R m -> (forall a, preserves R (k a)) -> preserves R (bind m k).
Proof.
  intros Hm Hk w. unfold bind. specialize (Hm w).
  destruct (m w) as [[a|e] w1]; simpl in *.
  - etransitivity; [exact Hm | apply Hk].
  - exact Hm.
Qed.

Lemma preserves_value_get (obj : value) (k : string) : preserves R (value_get obj k).
Proof. destruct obj; first [apply preserves_ret | apply preserves_raise]. Qed.

Lemma preserves_py_encode (v : value) : preserves R (py_encode v).
Proof. destruct v; first [apply preserves_ret | apply preserves_raise]. Qed.

Lemma preserves_py_decode (v : value) : preserves R (py_decode v).
Proof. destruct v; first [apply preserves_ret | apply preserves_raise]. Qed.

Lemma preserves_table_lookup (code : value) (table : gmap string string) :
  preserves R (table_lookup code table).
Proof. destruct code; first [apply preserves_ret | apply preserves_raise]. Qed.

End FrameRules.

Lemma preserves_weaken {A} (R S : relation world) (m : M A) :
  (forall w w', R w w' -> S w w') -> preserves R m -> preserves S m.
Proof. intros HRS Hm w. apply HRS, Hm. Qed.

Lemma authenticates_requests {A} (h : pydict) (m : M A) :
  preserves only_authenticates m -> preserves (only_requests h) m.
Proof.
  apply preserves_weaken. intros w w' (_&_&_& new & E & F).
  exists new. split; [exact E | ].
  eapply Forall_impl; [exact F | ]. intros q Hq. left. exact Hq.
Qed.

(** A change of one field, as seen by the relations. *)
Ltac field_change :=
  intros ?; simpl;
  first
    [ unfold only_fetches; simpl; repeat (split; [reflexivity | ]);
      exists []; rewrite app_nil_r; split; [reflexivity | constructor]
    | unfold only_authenticates; simpl; repeat (split; [reflexivity | ]);
      exists []; rewrite app_nil_r; split; [reflexivity | constructor]
    | unfold keeps_credentials; simpl; repeat split; reflexivity ].

Create HintDb frames.

Ltac frame_step :=
  first
    [ apply preserves_ret
    | apply preserves_raise
    | apply preserves_gets
    | apply preserves_lift
    | apply preserves_value_get
    | apply preserves_py_encode
    | apply preserves_py_decode
    | apply preserves_table_lookup
    | solve [eauto with frames]
    | apply preserves_bind; [ | intros ? ]
    | match goal with
      | |- preserves _ (if ?b then _ else _) => destruct b
      | |- preserves _ (match ?x with _ => _ end) => destruct x
      | |- preserves _ (let _ := _ in _) => cbv zeta
      end
    | unfold modify; field_change ].

Ltac frame := repeat frame_step.

(** ** Running a computation step by step *)

Lemma bind_Ok {A B} (m : M A) (k : A -> M B) (w w' : world) (a : A) :
  m w = (Ok a, w') -> bind m k w = k a w'.
Proof. intros E. unfold bind. rewrite E. reflexivity. Qed.

Lemma bind_Ok_inv {A B} (m : M A) (k : A -> M B) (w w' : world) (b : B) :
  bind m k w = (Ok b, w') ->
  exists a w1, m w = (Ok a, w1) /\ k a w1 = (Ok b, w').
Proof.
  unfold bind. destruct (m w) as [[a|e] w1]; [ | discriminate].
  intros E. exists a, w1. split; [reflexivity | exact E].
Qed.

Lemma bind_Raise {A B} (m : M A) (k : A -> M B) (w w' : world) (e : exn) :
  m w = (Raise e, w') -> bind m k w = (Raise e, w').
Proof. intros E. unfold bind. rewrite E. reflexivity. Qed.

Lemma bind_assoc {A B C} (m : M A) (k : A -> M B) (k' : B -> M C) (w : world) :
  bind (bind m k) k' w = bind m (fun a => bind (k a) k') w.
Proof. unfold bind. destruct (m w) as [[a|e] w1]; reflexivity. Qed.

Lemma bind_ret {A B} (a : A) (k : A -> M B) (w : world) : bind (ret a) k w = k a w.
Proof. reflexivity. Qed.

Lemma bind_gets {A B} (f : world -> A) (k : A -> M B) (w : world) :
  bind (gets f) k w = k (f w) w.
Proof. reflexivity. Qed.

Lemma bind_modify {B} (f : world -> world) (k : unit -> M B) (w : world) :
  bind (modify f) k w = k tt (f w).
Proof. reflexivity. Qed.

Lemma bind_lift {A B} (a : A) (k : A -> M B) (w : world) :
  bind (lift (Ok a)) k w = k a w.
Proof. reflexivity. Qed.

Lemma bind_raise {A B} (e : exn) (k : A -> M B) (w : world) :
  bind (raise e) k w = (Raise e, w).
Proof. reflexivity. Qed.

Lemma bind_lift_Raise {A B} (e : exn) (k : A -> M B) (w : world) :
  bind (lift (Raise e)) k w = (Raise e, w).
Proof. reflexivity. Qed.

(** One step of the computation at the head of the goal. *)
Ltac step :=
  first [ rewrite bind_assoc | rewrite bind_ret | rewrite bind_gets
        | rewrite bind_modify | rewrite bind_lift | rewrite bind_raise
        | rewrite bind_lift_Raise ];
  cbv beta.

Ltac steps := repeat step.

Section Properties.
Context `{Collaborators}.

(** ** What each method may change *)

Lemma transport_only_fetches (q : request) :
  header_less q -> preserves only_fetches (transport q).
Proof.
  intros Hq w. unfold transport, only_fetches. simpl.
  repeat (split; [reflexivity | ]).
  exists [q]. split; [reflexivity | ]. constructor; [exact Hq | constructor].
Qed.

Lemma get_only_fetches (endpoint : string) :
  preserves only_fetches (PublicCertificate.get endpoint).
Proof.
  unfold PublicCertificate.get, BaseAPI_make_request.
  apply preserves_bind; [apply preserves_ret | intros j].
  apply preserves_bind; [apply transport_only_fetches; reflexivity | intros r].
  apply preserves_ret.
Qed.
#[local] Hint Resolve get_only_fetches : frames.

Lemma get_gstn_public_certificate_only_fetches (error_message : value) :
  preserves only_fetches (PublicCertificate.get_gstn_public_certificate error_message).
Proof. unfold PublicCertificate.get_gstn_public_certificate. frame. Qed.
#[local] Hint Resolve get_gstn_public_certificate_only_fetches : frames.

Lemma get_public_certificate_only_fetches :
  preserves only_fetches TaxpayerAuthenticate.get_public_certificate.
Proof. unfold TaxpayerAuthenticate.get_public_certificate. frame. Qed.
#[local] Hint Resolve get_public_certificate_only_fetches : frames.

Lemma encrypt_request_only_fetches (json : option pydict) :
  preserves only_fetches (TaxpayerAuthenticate.encrypt_request json).
Proof. unfold TaxpayerAuthenticate.encrypt_request. frame. Qed.
#[local] Hint Resolve encrypt_request_only_fetches : frames.

Lemma before_request_only_fetches (json : option pydict) :
  preserves only_fetches (TaxpayerBaseAPI.before_request json).
Proof.
  unfold TaxpayerBaseAPI.before_request, TaxpayerBaseAPI.encrypt_request. frame.
Qed.
#[local] Hint Resolve before_request_only_fetches : frames.

Lemma fetches_authenticates {A} (m : M A) :
  preserves only_fetches m -> preserves only_authenticates m.
Proof. apply preserves_weaken. exact only_fetches_authenticates. Qed.

Lemma get_gstn_public_certificate_only_authenticates (error_message : value) :
  preserves only_authenticates
    (PublicCertificate.get_gstn_public_certificate error_message).
Proof. apply fetches_authenticates. auto with frames. Qed.
#[local] Hint Resolve get_gstn_public_certificate_only_authenticates : frames.

Lemma before_request_only_authenticates (json : option pydict) :
  preserves only_authenticates (TaxpayerBaseAPI.before_request json).
Proof. apply fetches_authenticates. auto with frames. Qed.
#[local] Hint Resolve before_request_only_authenticates : frames.

Lemma transport_only_authenticates (q : request) :
  header_less q -> preserves only_authenticates (transport q).
Proof. intros Hq. apply fetches_authenticates, transport_only_fetches, Hq. Qed.

Lemma db_set_value_only_authenticates filters values :
  preserves only_authenticates (db_set_value filters values).
Proof. unfold db_set_value, modify. field_change. Qed.
#[local] Hint Resolve db_set_value_only_authenticates : frames.

Lemma cache_set_value_only_authenticates key v n :
  preserves only_authenticates (cache_set_value key v n).
Proof. unfold cache_set_value, modify. field_change. Qed.
#[local] Hint Resolve cache_set_value_only_authenticates : frames.

Lemma clear_document_cache_only_authenticates doctype :
  preserves only_authenticates (clear_document_cache doctype).
Proof. unfold clear_document_cache, modify. field_change. Qed.
#[local] Hint Resolve clear_document_cache_only_authenticates : frames.

Lemma is_ignored_error_only_authenticates (response : pydict) :
  preserves only_authenticates (TaxpayerBaseAPI.is_ignored_error response).
Proof. unfold TaxpayerBaseAPI.is_ignored_error. frame. Qed.
#[local] Hint Resolve is_ignored_error_only_authenticates : frames.

Lemma handle_error_response_only_authenticates (response : pydict) :
  preserves only_authenticates (TaxpayerBaseAPI.handle_error_response response).
Proof. unfold TaxpayerBaseAPI.handle_error_response. frame. Qed.
#[local] Hint Resolve handle_error_response_only_authenticates : frames.

Lemma rotation_only_authenticates (response : pydict) :
  preserves only_authenticates (TaxpayerAuthenticate.decrypt_response response).
Proof. unfold TaxpayerAuthenticate.decrypt_response. frame. Qed.
#[local] Hint Resolve rotation_only_authenticates : frames.

Lemma decrypt_response_only_authenticates (response : pydict) :
  preserves only_authenticates (TaxpayerBaseAPI.decrypt_response response).
Proof. unfold TaxpayerBaseAPI.decrypt_response. frame. Qed.
#[local] Hint Resolve decrypt_response_only_authenticates : frames.

Lemma process_response_only_authenticates (response : pydict) :
  preserves only_authenticates (TaxpayerBaseAPI.process_response response).
Proof. unfold TaxpayerBaseAPI.process_response. frame. Qed.
#[local] Hint Resolve process_response_only_authenticates : frames.

Lemma super_post_only_authenticates (json : option pydict) (endpoint : string) :
  preserves only_authenticates (TaxpayerBaseAPI.super_post json endpoint).
Proof.
  unfold TaxpayerBaseAPI.super_post, TaxpayerBaseAPI.super_method. simpl.
  unfold BaseAPI_make_request.
  apply preserves_bind; [auto with frames | intros json'].
  apply preserves_bind; [apply transport_only_authenticates; reflexivity | intros r].
  auto with frames.
Qed.
#[local] Hint Resolve super_post_only_authenticates : frames.

Lemma request_otp_only_authenticates :
  preserves only_authenticates TaxpayerBaseAPI.request_otp.
Proof.
  unfold TaxpayerBaseAPI.request_otp, TaxpayerAuthenticate.request_otp. frame.
Qed.
#[local] Hint Resolve request_otp_only_authenticates : frames.

Lemma autheticate_with_otp_only_authenticates (otp : value) :
  preserves only_authenticates (TaxpayerBaseAPI.autheticate_with_otp otp).
Proof.
  unfold TaxpayerBaseAPI.autheticate_with_otp,
    TaxpayerAuthenticate.autheticate_with_otp.
  fold TaxpayerBaseAPI.request_otp. frame.
Qed.

Lemma fetches_keep {A} (m : M A) :
  preserves only_fetches m -> preserves keeps_credentials m.
Proof. apply preserves_weaken. exact only_fetches_keeps_credentials. Qed.

Lemma get_gstn_public_certificate_keeps_credentials (error_message : value) :
  preserves keeps_credentials
    (PublicCertificate.get_gstn_public_certificate error_message).
Proof. apply fetches_keep. auto with frames. Qed.
#[local] Hint Resolve get_gstn_public_certificate_keeps_credentials : frames.

Lemma before_request_keeps_credentials (json : option pydict) :
  preserves keeps_credentials (TaxpayerBaseAPI.before_request json).
Proof. apply fetches_keep. auto with frames. Qed.

Lemma transport_keeps_credentials (q : request) :
  preserves keeps_credentials (transport q).
Proof. intros w. unfold transport, keeps_credentials. simpl. auto. Qed.

Lemma is_ignored_error_keeps_credentials (response : pydict) :
  preserves keeps_credentials (TaxpayerBaseAPI.is_ignored_error response).
Proof. unfold TaxpayerBaseAPI.is_ignored_error. frame. Qed.
#[local] Hint Resolve is_ignored_error_keeps_credentials : frames.

Lemma handle_error_response_keeps_credentials (response : pydict) :
  preserves keeps_credentials (TaxpayerBaseAPI.handle_error_response response).
Proof. unfold TaxpayerBaseAPI.handle_error_response. frame. Qed.

(** Without a token in the response nothing is persisted. *)
Lemma decrypt_response_keeps_credentials (response : pydict) :
  truthy (dict_get response "auth_token") = false ->
  preserves keeps_credentials (TaxpayerBaseAPI.decrypt_response response).
Proof.
  intros Htok. unfold TaxpayerBaseAPI.decrypt_response. rewrite Htok. frame.
Qed.

(** A rotation returns the response it was given. *)
Lemma rotation_returns_response (response r : pydict) (w w' : world) :
  TaxpayerAuthenticate.decrypt_response response w = (Ok r, w') -> r = response.
Proof.
  unfold TaxpayerAuthenticate.decrypt_response. intros E.
  apply bind_Ok_inv in E as (v1 & w1 & _ & E).
  apply bind_Ok_inv in E as (v2 & w2 & _ & E).
  apply bind_Ok_inv in E as (v3 & w3 & _ & E).
  apply bind_Ok_inv in E as (u & w4 & _ & E).
  unfold ret in E. congruence.
Qed.

(** What [decrypt_response] returns has the [auth_token] it was given. *)
Lemma decrypt_response_auth_token (response r : pydict) (w w' : world) :
  TaxpayerBaseAPI.decrypt_response response w = (Ok r, w') ->
  dict_get r "auth_token" = dict_get response "auth_token".
Proof.
  unfold TaxpayerBaseAPI.decrypt_response.
  destruct (truthy (dict_get response "auth_token")).
  - intros E. apply rotation_returns_response in E. subst r. reflexivity.
  - intros E. apply bind_Ok_inv in E as (key & w1 & _ & E).
    destruct (truthy (dict_get response "data")).
    + cbv zeta in E.
      apply bind_Ok_inv in E as (plain & w2 & _ & E).
      apply bind_Ok_inv in E as (u & w3 & _ & E).
      apply bind_Ok_inv in E as (decoded & w4 & _ & E).
      apply bind_Ok_inv in E as (text & w5 & _ & E).
      apply bind_Ok_inv in E as (result & w6 & _ & E).
      unfold ret in E. injection E as <- _. unfold dict_get.
      rewrite lookup_insert_ne by discriminate.
      rewrite lookup_delete_ne by discriminate. reflexivity.
    + unfold ret in E. injection E as <- _. reflexivity.
Qed.

(** ** The transport on [self] *)

Lemma super_method_run (method endpoint : string)
    (params headers json json' : option pydict) (w w1 : world) (raw : pydict) :
  existsb (String.eqb method) ["get"; "post"; "put"] = true ->
  TaxpayerBaseAPI.before_request json w = (Ok json', w1) ->
  let q := Request TaxpayerBaseAPI.BASE_PATH method endpoint params headers json' in
  snd (gateway (sent w1) q) = Ok raw ->
  TaxpayerBaseAPI.super_method method params headers json endpoint w
  = TaxpayerBaseAPI.process_response raw (after_sending q w1).
Proof.
  intros Hmethod Hbefore q Hreply.
  unfold TaxpayerBaseAPI.super_method, BaseAPI_make_request. rewrite Hmethod.
  rewrite (bind_Ok _ _ _ _ _ Hbefore).
  apply bind_Ok. unfold transport. fold q. rewrite Hreply. reflexivity.
Qed.

Lemma handle_error_response_success (response : pydict) (w : world) :
  py_eq (dict_get response "status_cd") (VInt 0) = false ->
  py_eq (dict_get response "error_type") (VStr "invalid_public_key") = false ->
  TaxpayerBaseAPI.handle_error_response response w = (Ok response, w).
Proof.
  intros Hstatus Hkey. unfold TaxpayerBaseAPI.handle_error_response.
  rewrite Hstatus. run. rewrite Hkey. reflexivity.
Qed.

Lemma decrypt_response_plain (response : pydict) (w : world) :
  truthy (dict_get response "auth_token") = false ->
  truthy (dict_get response "rek") = false ->
  truthy (dict_get response "data") = false ->
  TaxpayerBaseAPI.decrypt_response response w = (Ok response, w).
Proof.
  intros Htok Hrek Hdata. unfold TaxpayerBaseAPI.decrypt_response.
  rewrite Htok, Hrek. run. rewrite Hdata. reflexivity.
Qed.

(** ** What the gateway's replies become *)

(** An acknowledgement without token or data comes back as it is. *)
Lemma acknowledgement_is_returned (json json' : option pydict)
    (endpoint : string) (w w1 : world) (ack : pydict) :
  TaxpayerBaseAPI.before_request json w = (Ok json', w1) ->
  let q := Request TaxpayerBaseAPI.BASE_PATH "post" endpoint None None json' in
  snd (gateway (sent w1) q) = Ok ack ->
  py_eq (dict_get ack "status_cd") (VInt 1) = true ->
  py_eq (dict_get ack "error_type") (VStr "invalid_public_key") = false ->
  truthy (dict_get ack "auth_token") = false ->
  truthy (dict_get ack "rek") = false ->
  truthy (dict_get ack "data") = false ->
  TaxpayerBaseAPI.super_post json endpoint w = (Ok ack, after_sending q w1).
Proof.
  intros Hbefore q Hreply Hstatus Hkey Htok Hrek Hdata.
  unfold TaxpayerBaseAPI.super_post.
  rewrite (super_method_run "post" endpoint None None json json' w w1 ack
             eq_refl Hbefore Hreply).
  unfold TaxpayerBaseAPI.process_response.
  rewrite (bind_Ok _ _ _ _ _
             (handle_error_response_success ack _
                (py_eq_one_not_zero _ Hstatus) Hkey)).
  apply decrypt_response_plain; assumption.
Qed.

(** A failure whose code the table maps to [authorization_failed] comes
    back marked so, with the gstin of the taxpayer. *)
Lemma authorization_failure_is_classified (method endpoint : string)
    (params headers json json' : option pydict) (w w1 : world)
    (raw error : pydict) (code : string) :
  existsb (String.eqb method) ["get"; "post"; "put"] = true ->
  TaxpayerBaseAPI.before_request json w = (Ok json', w1) ->
  let q := Request TaxpayerBaseAPI.BASE_PATH method endpoint params headers json' in
  snd (gateway (sent w1) q) = Ok raw ->
  py_eq (dict_get raw "status_cd") (VInt 0) = true ->
  dict_get_or_empty raw "error" = VDict error ->
  dict_get error "error_cd" = VStr code ->
  TaxpayerBaseAPI.IGNORED_ERROR_CODES !! code = Some "authorization_failed" ->
  truthy (dict_get raw "auth_token") = false ->
  truthy (dict_get raw "rek") = false ->
  truthy (dict_get raw "data") = false ->
  TaxpayerBaseAPI.super_method method params headers json endpoint w
  = (Ok (<["gstin" := VStr (company_gstin w)]>
           (<["error_type" := VStr "authorization_failed"]> raw)),
     after_sending q w1).
Proof.
  intros Hmethod Hbefore q Hreply Hstatus Herror Hcode Htable Htok Hrek Hdata.
  pose proof (before_request_only_fetches json w) as Hf.
  rewrite Hbefore in Hf. destruct Hf as (Hgstin & _).
  rewrite (super_method_run method endpoint params headers json json' w w1 raw
             Hmethod Hbefore Hreply). fold q.
  set (marked := <["gstin" := VStr (company_gstin w)]>
                   (<["error_type" := VStr "authorization_failed"]> raw)).
  assert (Hget : forall k, k <> "gstin" -> k <> "error_type" ->
                           dict_get marked k = dict_get raw k).
  { intros k H1 H2. unfold marked, dict_get.
    rewrite !lookup_insert_ne by congruence. reflexivity. }
  assert (Hhandle : TaxpayerBaseAPI.handle_error_response raw (after_sending q w1)
                    = (Ok marked, after_sending q w1)).
  { unfold TaxpayerBaseAPI.handle_error_response, TaxpayerBaseAPI.is_ignored_error.
    rewrite Hstatus, Herror. simpl value_get. rewrite Hcode. run.
    rewrite Htable. simpl. rewrite Hgstin. fold marked.
    unfold dict_get at 1. unfold marked at 1.
    rewrite lookup_insert_ne by discriminate. rewrite lookup_insert_eq.
    reflexivity. }
  unfold TaxpayerBaseAPI.process_response.
  rewrite (bind_Ok _ _ _ _ _ Hhandle).
  apply decrypt_response_plain; rewrite Hget by discriminate; assumption.
Qed.

(** ** The auth token and its expiry *)

(** C3. [get_auth_token()] returns the stored token when the token is
    present, a session expiry is present and the current time is strictly
    before it; when the token is absent, the expiry is absent, or the
    current time has reached the expiry, it returns [None].  The world is
    left as it was. *)
Theorem get_auth_token_live_or_absent (w : world) :
  (forall expiry,
      truthy (auth_token w) = true ->
      session_expiry w = Some expiry ->
      now w < expiry ->
      TaxpayerAuthenticate.get_auth_token w = (Ok (auth_token w), w)) /\
  (truthy (auth_token w) = false \/
   session_expiry w = None \/
   (exists expiry, session_expiry w = Some expiry /\ expiry <= now w) ->
   TaxpayerAuthenticate.get_auth_token w = (Ok VNone, w)).
Proof.
  unfold TaxpayerAuthenticate.get_auth_token. split.
  - intros expiry Htok Hexp Hlt. run. rewrite Htok. simpl. rewrite Hexp. simpl.
    destruct (Z.leb_spec expiry (now w)); [lia | reflexivity].
  - intros Hcases. run. destruct (truthy (auth_token w)) eqn:Htok; simpl; [ | reflexivity].
    destruct Hcases as [Hf | [Hnone | (expiry & Hexp & Hle)]].
    + discriminate.
    + rewrite Hnone. reflexivity.
    + rewrite Hexp. destruct (Z.leb_spec expiry (now w)); [reflexivity | lia].
Qed.

(** ** The public certificate *)

(** C9. A forced refetch of the public certificate sends one request to
    the static endpoint.  When the fetched certificate equals the one in
    the settings, the call raises the user-facing error (the given message,
    or "Public Certificate is already up to date") and the settings keep
    their certificate; nothing more is sent.  When it differs, the fetched
    certificate is stored in the settings and returned. *)
Theorem get_gstn_public_certificate_unchanged_or_stored
    (w : world) (error_message : value) (response : pydict) :
  let q := Request "static" "get" "gstn_g2b_prod_public" None None None in
  let fetched := dict_get response "certificate" in
  let w1 := after_sending q w in
  snd (gateway (sent w) q) = Ok response ->
  (py_eq fetched (gstn_public_certificate w) = true ->
   PublicCertificate.get_gstn_public_certificate error_message w
   = (Raise (ValidationError
               (py_or error_message
                      (VStr "Public Certificate is already up to date")) None),
      w1)) /\
  (py_eq fetched (gstn_public_certificate w) = false ->
   PublicCertificate.get_gstn_public_certificate error_message w
   = (Ok fetched, set_gstn_public_certificate fetched w1)).
Proof.
  intros q fetched w1 Hreply.
  unfold PublicCertificate.get_gstn_public_certificate, PublicCertificate.get,
    BaseAPI_make_request, transport, PublicCertificate.BASE_PATH.
  run. fold q. rewrite Hreply. simpl. fold fetched.
  split; intros Heq; rewrite Heq; reflexivity.
Qed.

(** ** Encrypting the app key of an outbound payload *)

(** C5. For a payload that carries an [app_key]: when the action is
    REFRESHTOKEN the field becomes the app key encrypted under the session
    key, and no certificate is consulted; for every other action it
    becomes the app key encrypted under the public certificate that
    [get_public_certificate] yields.  The other fields, [otp] apart, stay.
    Conversely the field that a returning call leaves is the session-key
    ciphertext only for REFRESHTOKEN, the public-key one otherwise. *)
Theorem encrypt_request_app_key (w : world) (j : pydict) :
  truthy (dict_get j "app_key") = true ->
  (truthy (dict_get j "otp") = true ->
   exists c, aes_encrypt_data (dict_get j "otp") (app_key w) = Ok c) ->
  (* total: the branch taken and its result *)
  (forall cipher,
      py_eq (dict_get j "action") (VStr "REFRESHTOKEN") = true ->
      aes_encrypt_data (app_key w) (session_key w) = Ok cipher ->
      exists j',
        TaxpayerAuthenticate.encrypt_request (Some j) w = (Ok (Some j'), w) /\
        dict_get j' "app_key" = cipher /\
        (forall k, k <> "app_key" -> k <> "otp" -> j' !! k = j !! k)) /\
  (forall certificate w1 cipher,
      py_eq (dict_get j "action") (VStr "REFRESHTOKEN") = false ->
      TaxpayerAuthenticate.get_public_certificate w = (Ok certificate, w1) ->
      encrypt_using_public_key (app_key w) certificate = Ok cipher ->
      exists j',
        TaxpayerAuthenticate.encrypt_request (Some j) w = (Ok (Some j'), w1) /\
        dict_get j' "app_key" = cipher /\
        (forall k, k <> "app_key" -> k <> "otp" -> j' !! k = j !! k)) /\
  (* conversely, for any call that returns *)
  (forall j' w',
      TaxpayerAuthenticate.encrypt_request (Some j) w = (Ok (Some j'), w') ->
      if py_eq (dict_get j "action") (VStr "REFRESHTOKEN")
      then aes_encrypt_data (app_key w) (session_key w) = Ok (dict_get j' "app_key")
      else exists certificate w1,
          TaxpayerAuthenticate.get_public_certificate w = (Ok certificate, w1) /\
          encrypt_using_public_key (app_key w) certificate
          = Ok (dict_get j' "app_key")).
Proof.
  intros Hkey Hotp.
  pose proof (truthy_entry_nonempty _ _ Hkey) as Hne. simpl in Hne.
  assert (Hotp_get : forall c : value,
             dict_get (<["app_key" := c]> j) "otp" = dict_get j "otp").
  { intros c. unfold dict_get. rewrite lookup_insert_ne by discriminate. reflexivity. }
  assert (Hkey_get : forall (c c2 : value),
             dict_get (<["otp" := c2]> (<["app_key" := c]> j)) "app_key" = c).
  { intros c c2. unfold dict_get. rewrite lookup_insert_ne by discriminate.
    rewrite lookup_insert_eq. reflexivity. }
  assert (Hkey_get' : forall c : value, dict_get (<["app_key" := c]> j) "app_key" = c).
  { intros c. unfold dict_get. rewrite lookup_insert_eq. reflexivity. }
  unfold TaxpayerAuthenticate.encrypt_request. simpl. rewrite Hne, Hkey. simpl.
  split; [ | split].
  - intros cipher Hact Hc. run. rewrite Hact, Hc. simpl. rewrite Hotp_get.
    destruct (truthy (dict_get j "otp")) eqn:Eotp.
    + destruct (Hotp eq_refl) as [c2 Hc2]. rewrite Hc2. simpl.
      eexists. split; [reflexivity | ]. split; [apply Hkey_get | ].
      intros k Hk1 Hk2. rewrite !lookup_insert_ne by congruence. reflexivity.
    + eexists. split; [reflexivity | ]. split; [apply Hkey_get' | ].
      intros k Hk1 Hk2. rewrite lookup_insert_ne by congruence. reflexivity.
  - intros certificate w1 cipher Hact Hcert Hc.
    assert (Hsame : app_key w1 = app_key w).
    { pose proof (get_public_certificate_only_fetches w) as Hf.
      rewrite Hcert in Hf. apply Hf. }
    run. rewrite Hact, Hcert, Hc. simpl. rewrite Hotp_get.
    destruct (truthy (dict_get j "otp")) eqn:Eotp.
    + destruct (Hotp eq_refl) as [c2 Hc2]. simpl. rewrite Hsame, Hc2. simpl.
      eexists. split; [reflexivity | ]. split; [apply Hkey_get | ].
      intros k Hk1 Hk2. rewrite !lookup_insert_ne by congruence. reflexivity.
    + eexists. split; [reflexivity | ]. split; [apply Hkey_get' | ].
      intros k Hk1 Hk2. rewrite lookup_insert_ne by congruence. reflexivity.
  - intros j' w'. run.
    destruct (py_eq (dict_get j "action") (VStr "REFRESHTOKEN")).
    + destruct (aes_encrypt_data (app_key w) (session_key w)) as [c|e] eqn:Ec;
        simpl; [ | discriminate].
      rewrite Hotp_get. destruct (truthy (dict_get j "otp")).
      * destruct (aes_encrypt_data (dict_get j "otp") (app_key w)); simpl;
          [ | discriminate].
        intros [= <- <-]. rewrite Hkey_get. reflexivity.
      * intros [= <- <-]. rewrite Hkey_get'. reflexivity.
    + destruct (TaxpayerAuthenticate.get_public_certificate w) as [[cert|e] w1];
        simpl; [ | discriminate].
      destruct (encrypt_using_public_key (app_key w) cert) as [c|e] eqn:Ec;
        simpl; [ | discriminate].
      rewrite Hotp_get. destruct (truthy (dict_get j "otp")).
      * destruct (aes_encrypt_data (dict_get j "otp") (app_key w1)); simpl;
          [ | discriminate].
        intros [= <- <-]. exists cert, w1. rewrite Hkey_get. split; [reflexivity | exact Ec].
      * intros [= <- <-]. exists cert, w1. rewrite Hkey_get'. split; [reflexivity | exact Ec].
Qed.

(** ** Persisting a token rotation *)

(** What [add_to_date] returns is the sum, a datetime. *)
Lemma add_to_date_Ok (t minutes sum : Z) :
  add_to_date t minutes = Ok sum ->
  sum = t + 60 * minutes /\ 0 <= sum <= datetime_max.
Proof.
  unfold add_to_date. cbv zeta.
  destruct (Z.leb_spec 0 (t + 60 * minutes));
    destruct (Z.leb_spec (t + 60 * minutes) datetime_max);
    cbn [andb]; intros [= <-]. lia.
Qed.

(** C4. When the expiry of the response can be added to the current
    time and its [sek] decrypts, [TaxpayerAuthenticate.decrypt_response]
    returns the response it was given, and in the world it returns in,
    every credential row of the taxpayer already holds: the response's
    [auth_token] when there is one; as [session_expiry], the current time
    plus the declared [expiry] in minutes when there is one; and, when
    there is a [sek], the session key that AES-decrypting it under the app
    key gives (stored base64-encoded).  The attributes of [self] hold the
    same values.  When the expiry cannot be added the call raises, and
    nothing is returned or written. *)
Theorem decrypt_response_persists_rotation
    (w : world) (response : pydict) :
  let token := dict_get response "auth_token" in
  let expiry := dict_get response "expiry" in
  let sek := dict_get response "sek" in
  (forall (deadline : Z) (skey : value) (text : string),
      (truthy expiry = true ->
       add_to_date (now w) (cint expiry) = Ok deadline) ->
      (truthy sek = true ->
       aes_decrypt_data sek (app_key w) = Ok skey /\
       b64encode skey = Ok (VBytes text)) ->
      exists w',
        TaxpayerAuthenticate.decrypt_response response w = (Ok response, w') /\
        (truthy token = true ->
         TaxpayerBaseAPI.decrypt_response response w = (Ok response, w')) /\
        (truthy token = true -> auth_token w' = token) /\
        (truthy expiry = true ->
         deadline = now w + 60 * cint expiry /\
         session_expiry w' = Some deadline) /\
        (truthy sek = true -> session_key w' = skey) /\
        forall i row,
          db w !! i = Some row ->
          row_matches (self_filters w) row = true ->
          exists row',
            db w' !! i = Some row' /\
            (truthy token = true -> row' !! "auth_token" = Some token) /\
            (truthy expiry = true ->
             row' !! "session_expiry" = Some (VDatetime deadline)) /\
            (truthy sek = true -> row' !! "session_key" = Some (VStr text))) /\
  (forall e,
      truthy expiry = true ->
      add_to_date (now w) (cint expiry) = Raise e ->
      exists w',
        TaxpayerAuthenticate.decrypt_response response w = (Raise e, w') /\
        db w' = db w /\
        session_expiry w' = session_expiry w /\
        session_key w' = session_key w).
Proof.
  intros token expiry sek. split.
  - intros deadline skey text Hexp Hsek.
    assert (Hover : truthy token = true ->
                    TaxpayerBaseAPI.decrypt_response response w
                    = TaxpayerAuthenticate.decrypt_response response w).
    { intros Ht. unfold TaxpayerBaseAPI.decrypt_response. fold token.
      rewrite Ht. reflexivity. }
    cut (exists w',
      TaxpayerAuthenticate.decrypt_response response w = (Ok response, w') /\
      (truthy token = true -> auth_token w' = token) /\
      (truthy expiry = true ->
       deadline = now w + 60 * cint expiry /\
       session_expiry w' = Some deadline) /\
      (truthy sek = true -> session_key w' = skey) /\
      forall i row,
        db w !! i = Some row ->
        row_matches (self_filters w) row = true ->
        exists row',
          db w' !! i = Some row' /\
          (truthy token = true -> row' !! "auth_token" = Some token) /\
          (truthy expiry = true ->
           row' !! "session_expiry" = Some (VDatetime deadline)) /\
          (truthy sek = true -> row' !! "session_key" = Some (VStr text))).
    { intros (w' & E & Hrest). exists w'. split; [exact E | ].
      split; [intros Ht; rewrite (Hover Ht); exact E | exact Hrest]. }
    clear Hover.
    unfold TaxpayerAuthenticate.decrypt_response.
    fold token expiry sek.
    destruct (truthy token) eqn:Etok, (truthy expiry) eqn:Eexp,
      (truthy sek) eqn:Esek;
      try (destruct (Hsek eq_refl) as [Hdec Henc]);
      try (pose proof (Hexp eq_refl) as Hadd;
           pose proof (proj1 (add_to_date_Ok _ _ _ Hadd)) as Hsum);
      steps; cbn [app_key set_auth_token set_session_expiry set_session_key now];
      rewrite ?Hadd; steps;
      cbn [app_key set_auth_token set_session_expiry set_session_key now];
      rewrite ?Hdec; steps; rewrite ?Henc; steps; cbn [py_decode]; steps;
      rewrite ?insert_truthy; cbn [truthy size negb]; steps;
      unfold db_set_value, clear_document_cache; steps;
      (eexists; split; [reflexivity | ]);
      cbn [auth_token session_expiry session_key db set_db set_auth_token
           set_session_expiry set_session_key set_cleared_document_cache
           self_filters company_gstin username];
      (split; [intros; first [reflexivity | discriminate] | ]);
      (split; [intros; first [split; [exact Hsum | reflexivity] | discriminate] | ]);
      (split; [intros; first [reflexivity | discriminate] | ]);
      intros i row Hrow Hmatch.
    all: unfold self_filters in *;
         cbn [company_gstin username set_auth_token set_session_expiry
              set_session_key].
    all: try (rewrite list_lookup_fmap, Hrow; cbn [fmap option_fmap option_map];
              rewrite Hmatch).
    all: eexists; (split; [first [reflexivity | exact Hrow] | ]).
    all: repeat split; intros; try discriminate;
         apply lookup_union_Some_l; simplify_map_eq; reflexivity.
  - intros e Hexp Hraise. unfold TaxpayerAuthenticate.decrypt_response.
    fold token expiry. rewrite Hexp.
    destruct (truthy token); steps; cbn [now set_auth_token]; rewrite Hraise;
      steps; eexists; (split; [reflexivity | ]); repeat split.
Qed.

(** ** Integrity of a decrypted response *)

(** C2, as amended.  For a response that carries no [auth_token] and
    carries [data] and a non-empty [hmac]: when the data key and the data
    decrypt and the HMAC of the decrypted data under the data key differs
    from the response's [hmac], [decrypt_response] raises "HMAC mismatch",
    changes nothing and returns no response. *)
Theorem decrypt_response_hmac_mismatch_is_fatal
    (w : world) (response : pydict) :
  truthy (dict_get response "auth_token") = false ->
  truthy (dict_get response "data") = true ->
  truthy (dict_get response "hmac") = true ->
  hmac_differs response w ->
  TaxpayerBaseAPI.decrypt_response response w
  = (Raise (ValidationError (VStr "HMAC mismatch") None), w) /\
  (forall r w', TaxpayerBaseAPI.decrypt_response response w <> (Ok r, w')).
Proof.
  intros Htok Hdata Hhmac (key & plain & hmac & Hkey & Hplain & Hmac & Hneq).
  assert (E : TaxpayerBaseAPI.decrypt_response response w
              = (Raise (ValidationError (VStr "HMAC mismatch") None), w)).
  { unfold TaxpayerBaseAPI.decrypt_response, data_key in *. rewrite Htok.
    assert (Hh : dict_get (delete "data" response) "hmac" = dict_get response "hmac").
    { unfold dict_get. rewrite lookup_delete_ne by discriminate. reflexivity. }
    run. destruct (truthy (dict_get response "rek")).
    - rewrite Hkey. simpl. rewrite Hdata, Hplain. simpl.
      rewrite Hh, Hhmac, Hmac. simpl. rewrite Hneq. reflexivity.
    - injection Hkey as <-. rewrite Hdata, Hplain. simpl.
      rewrite Hh, Hhmac, Hmac. simpl. rewrite Hneq. reflexivity. }
  split; [exact E | ]. intros r w'. rewrite E. discriminate.
Qed.

(** ** Unrecognized error codes *)

(** C7. For a response whose [status_cd] is 0 and whose error code is not
    in the table, [handle_error_response] raises the error titled "API
    Request Failed" with the gateway's message, or with the response body
    as JSON when there is no message; so does [process_response], and so
    does the business request of the pipeline, also under [otp_handler]. *)
Theorem unrecognized_error_is_fatal (response error : pydict) :
  py_eq (dict_get response "status_cd") (VInt 0) = true ->
  dict_get_or_empty response "error" = VDict error ->
  unrecognized (dict_get error "error_cd") ->
  let message :=
    if truthy (dict_get error "message")
    then dict_get error "message"
    else as_json (VDict response) 4 in
  let failure := ValidationError message (Some "API Request Failed") in
  (forall w, TaxpayerBaseAPI.handle_error_response response w = (Raise failure, w)) /\
  (forall w, TaxpayerBaseAPI.process_response response w = (Raise failure, w)) /\
  (forall method action params headers endpoint json json' w w1,
      existsb (String.eqb method) ["get"; "post"; "put"] = true ->
      TaxpayerBaseAPI.before_request json w = (Ok json', w1) ->
      let q := Request TaxpayerBaseAPI.BASE_PATH method endpoint
                 (Some (default ∅ params ∪ {["action" := action]}))
                 (Some headers) json' in
      snd (gateway (sent w1) q) = Ok response ->
      otp_handler
        (TaxpayerBaseAPI.send_request method action params headers endpoint json) w
      = (Raise failure, after_sending q w1)).
Proof.
  intros Hstatus Herror Hcode message failure.
  assert (Hhandle : forall w,
             TaxpayerBaseAPI.handle_error_response response w = (Raise failure, w)).
  { intros w. unfold TaxpayerBaseAPI.handle_error_response,
      TaxpayerBaseAPI.is_ignored_error.
    rewrite Hstatus, Herror. simpl.
    unfold failure, message, py_or.
    destruct (dict_get error "error_cd") eqn:Ecode; simpl in Hcode;
      try contradiction; run; rewrite ?Hcode; reflexivity. }
  assert (Hprocess : forall w,
             TaxpayerBaseAPI.process_response response w = (Raise failure, w)).
  { intros w. unfold TaxpayerBaseAPI.process_response, bind.
    rewrite Hhandle. reflexivity. }
  split; [exact Hhandle | ]. split; [exact Hprocess | ].
  intros method action params headers endpoint json json' w w1 Hmethod Hbefore q Hreply.
  unfold otp_handler, TaxpayerBaseAPI.send_request, TaxpayerBaseAPI.super_method.
  rewrite Hmethod. unfold BaseAPI_make_request, bind at 1 2.
  rewrite Hbefore. unfold bind at 1, transport at 1. fold q. rewrite Hreply.
  rewrite Hprocess. reflexivity.
Qed.

(** ** Requesting an OTP *)

(** A transport call without a token in what it returns has persisted
    nothing. *)
Lemma super_post_keeps_credentials (json : option pydict) (endpoint : string)
    (w w' : world) (response : pydict) :
  TaxpayerBaseAPI.super_post json endpoint w = (Ok response, w') ->
  truthy (dict_get response "auth_token") = false ->
  keeps_credentials w w'.
Proof.
  unfold TaxpayerBaseAPI.super_post, TaxpayerBaseAPI.super_method.
  cbn [existsb String.eqb Ascii.eqb Bool.eqb orb]. unfold BaseAPI_make_request.
  intros E Htok.
  apply bind_Ok_inv in E as (json' & w1 & Eb & E).
  apply bind_Ok_inv in E as (raw & wq & Et & E).
  unfold TaxpayerBaseAPI.process_response in E.
  apply bind_Ok_inv in E as (r1 & wa & Eh & Ed).
  pose proof (before_request_keeps_credentials json w) as F1.
  rewrite Eb in F1.
  pose proof (transport_keeps_credentials
                (Request TaxpayerBaseAPI.BASE_PATH "post" endpoint None None json')
                w1) as F2.
  rewrite Et in F2.
  pose proof (handle_error_response_keeps_credentials raw wq) as F3.
  rewrite Eh in F3.
  assert (Htok1 : truthy (dict_get r1 "auth_token") = false).
  { rewrite <- (decrypt_response_auth_token _ _ _ _ Ed). exact Htok. }
  pose proof (decrypt_response_keeps_credentials r1 Htok1 wa) as F4.
  rewrite Ed in F4. simpl in F1, F2, F3, F4.
  etransitivity; [exact F1 | ]. etransitivity; [exact F2 | ].
  etransitivity; [exact F3 | exact F4].
Qed.

(** C6. When the OTP request comes back acknowledged (the post returns a
    response with status 1 that carries no token), [request_otp] raises
    [OTPRequestedError] with that response marked [otp_requested] and
    carrying the gstin of the taxpayer; under [otp_handler] the caller
    gets that response as the returned value.  The credential table and
    the token attribute are as before the call. *)
Theorem request_otp_acknowledged (w : world) (ack : pydict) (w2 : world) :
  let payload :=
    Some (<["username" := VStr (username w)]>
            (<["app_key" := app_key w]> {["action" := VStr "OTPREQUEST"]})) in
  let outcome :=
    <["gstin" := VStr (company_gstin w)]>
      (<["error_type" := VStr "otp_requested"]> ack) in
  TaxpayerBaseAPI.super_post payload "authenticate" w = (Ok ack, w2) ->
  py_eq (dict_get ack "status_cd") (VInt 1) = true ->
  truthy (dict_get ack "auth_token") = false ->
  TaxpayerBaseAPI.request_otp w = (Raise (OTPRequestedError outcome), w2) /\
  otp_handler TaxpayerBaseAPI.request_otp w = (Ok (VDict outcome), w2) /\
  dict_get outcome "error_type" = VStr "otp_requested" /\
  dict_get outcome "gstin" = VStr (company_gstin w) /\
  db w2 = db w /\
  auth_token w2 = auth_token w.
Proof.
  intros payload outcome Hpost Hstatus Htok.
  destruct (super_post_keeps_credentials _ _ _ _ _ Hpost Htok)
    as (Hgstin & _ & Hdb & Htoken).
  assert (E : TaxpayerBaseAPI.request_otp w
              = (Raise (OTPRequestedError outcome), w2)).
  { unfold TaxpayerBaseAPI.request_otp, TaxpayerAuthenticate.request_otp.
    unfold bind at 1 2, gets at 1 2. fold payload.
    rewrite (bind_Ok _ _ _ _ _ Hpost), Hstatus. cbn [negb].
    unfold bind, gets, raise. rewrite Hgstin. reflexivity. }
  split; [exact E | ]. split; [unfold otp_handler; rewrite E; reflexivity | ].
  split; [ | split; [ | split]].
  - unfold outcome, dict_get. rewrite lookup_insert_ne by discriminate.
    rewrite lookup_insert_eq. reflexivity.
  - unfold outcome, dict_get. rewrite lookup_insert_eq. reflexivity.
  - exact Hdb.
  - exact Htoken.
Qed.

(** ** The pipeline *)

(** [post] and [put] are [_request]; [get] is [_request] with the gstin of
    the taxpayer among the parameters. *)
Lemma pipeline_wrappers (action return_type return_period : value)
    (endpoint : string) (json : option pydict) (otp : value) (w : world) :
  (forall params,
      TaxpayerBaseAPI.post action return_type return_period params endpoint json otp
      = TaxpayerBaseAPI._request "post" action return_type return_period params
          endpoint json otp) /\
  (forall params,
      TaxpayerBaseAPI.put action return_type return_period params endpoint json otp
      = TaxpayerBaseAPI._request "put" action return_type return_period params
          endpoint json otp) /\
  (forall params,
      TaxpayerBaseAPI.get action return_type return_period params endpoint json otp w
      = TaxpayerBaseAPI._request "get" action return_type return_period
          (Some (params ∪ {["gstin" := VStr (company_gstin w)]}))
          endpoint json otp w).
Proof. repeat split. Qed.

Lemma request_reaches (method : string) (action return_type return_period : value)
    (params : option pydict) (endpoint : string) (json : option pydict)
    (otp : value) (w : world) (token : value) (w1 : world) :
  reaches_request otp w token w1 ->
  TaxpayerBaseAPI._request method action return_type return_period params
    endpoint json otp w
  = TaxpayerBaseAPI.send_request method action params
      (TaxpayerBaseAPI.request_headers token return_type return_period)
      endpoint json w1.
Proof.
  intros [Htoken Hauth]. unfold TaxpayerBaseAPI._request.
  rewrite (bind_Ok _ _ _ _ _ Htoken).
  destruct (negb (truthy token) || truthy otp).
  - destruct Hauth as (response & Hrun & Htype).
    rewrite (bind_Ok _ _ _ _ _ Hrun). simpl value_get.
    unfold bind at 1, ret at 1. rewrite Htype. reflexivity.
  - subst w1. reflexivity.
Qed.

Lemma reaches_request_log (otp : value) (w : world) (token : value) (w1 : world) :
  reaches_request otp w token w1 -> only_authenticates w w1.
Proof.
  intros [_ Hauth]. destruct (negb (truthy token) || truthy otp).
  - destruct Hauth as (response & Hrun & _).
    pose proof (autheticate_with_otp_only_authenticates otp w) as Hf.
    rewrite Hrun in Hf. exact Hf.
  - subst w1. reflexivity.
Qed.

(** A transport call that returns has sent its request once, between
    certificate fetches. *)
Lemma super_method_log (method endpoint : string)
    (params headers json : option pydict) (w w' : world) (response : pydict) :
  TaxpayerBaseAPI.super_method method params headers json endpoint w
  = (Ok response, w') ->
  exists before json' after,
    sent w' = (sent w ++ before
               ++ [Request TaxpayerBaseAPI.BASE_PATH method endpoint params
                     headers json']
               ++ after)%list /\
    Forall header_less before /\ Forall header_less after.
Proof.
  unfold TaxpayerBaseAPI.super_method, BaseAPI_make_request.
  destruct (existsb (String.eqb method) ["get"; "post"; "put"]);
    [ | discriminate].
  pose proof (before_request_only_fetches json w) as Hb.
  unfold bind at 1.
  destruct (TaxpayerBaseAPI.before_request json w) as [[json'|e] w1];
    [ | discriminate].
  simpl in Hb. destruct Hb as (_&_&_&_&_&_&_&_&_&_&_&_& before & Eb & Fb).
  unfold bind at 1, transport at 1.
  set (q := Request TaxpayerBaseAPI.BASE_PATH method endpoint params headers json').
  destruct (snd (gateway (sent w1) q)) as [raw|e]; [ | discriminate].
  intros Hp.
  pose proof (process_response_only_authenticates raw
                (set_now_sent (now w1 + Z.of_N (fst (gateway (sent w1) q)))
                              (sent w1 ++ [q]) w1)) as Ha.
  rewrite Hp in Ha. destruct Ha as (_&_&_& after & Ea & Fa). simpl in Ea.
  exists before, json', after. split; [ | split; assumption].
  rewrite Ea, Eb, <- !app_assoc. reflexivity.
Qed.

Lemma send_request_only_requests (method : string) (action : value)
    (params : option pydict) (h : pydict) (endpoint : string)
    (json : option pydict) :
  preserves (only_requests h)
    (TaxpayerBaseAPI.send_request method action params h endpoint json).
Proof.
  unfold TaxpayerBaseAPI.send_request. apply preserves_bind.
  - unfold TaxpayerBaseAPI.super_method, BaseAPI_make_request.
    destruct (existsb (String.eqb method) ["get"; "post"; "put"]);
      [ | apply preserves_raise].
    apply preserves_bind;
      [apply authenticates_requests, before_request_only_authenticates
      | intros json'].
    apply preserves_bind;
      [ | intros raw;
          apply authenticates_requests, process_response_only_authenticates].
    intros w. exists [Request TaxpayerBaseAPI.BASE_PATH method endpoint
                        (Some (default ∅ params ∪ {["action" := action]}))
                        (Some h) json'].
    split; [reflexivity | ]. constructor; [right; reflexivity | constructor].
  - intros response.
    destruct (py_eq (dict_get response "error_type") (VStr "authorization_failed")).
    + apply authenticates_requests, autheticate_with_otp_only_authenticates.
    + apply preserves_ret.
Qed.

Lemma request_headers_auth_token (token return_type return_period : value) :
  dict_get (TaxpayerBaseAPI.request_headers token return_type return_period)
    "auth-token" = token.
Proof.
  unfold TaxpayerBaseAPI.request_headers, dict_get.
  destruct (truthy return_type), (truthy return_period);
    rewrite ?lookup_insert_ne by discriminate;
    rewrite lookup_singleton_eq; reflexivity.
Qed.

(** * Further properties *)

(** ** The cached certificate *)

Lemma py_eq_str (a b : string) : py_eq (VStr a) (VStr b) = String.eqb a b.
Proof. reflexivity. Qed.

Lemma truthy_str (s : string) : s <> "" -> truthy (VStr s) = true.
Proof.
  intros Hs. simpl. destruct (String.eqb_spec s ""); [contradiction | reflexivity].
Qed.

(** One run of the refetch. *)
Lemma refetch_run (w : world) (error_message : value) (response : pydict) :
  let q := Request "static" "get" "gstn_g2b_prod_public" None None None in
  let fetched := dict_get response "certificate" in
  snd (gateway (sent w) q) = Ok response ->
  PublicCertificate.get_gstn_public_certificate error_message w
  = if py_eq fetched (gstn_public_certificate w)
    then (Raise (ValidationError
                   (py_or error_message
                          (VStr "Public Certificate is already up to date")) None),
          after_sending q w)
    else (Ok fetched, set_gstn_public_certificate fetched (after_sending q w)).
Proof.
  intros q fetched Hreply.
  unfold PublicCertificate.get_gstn_public_certificate, PublicCertificate.get,
    BaseAPI_make_request, transport, PublicCertificate.BASE_PATH.
  run. fold q. rewrite Hreply. simpl. fold fetched.
  destruct (py_eq fetched (gstn_public_certificate w)); reflexivity.
Qed.

(** The certificate [pem] is in the settings and valid until [t]. *)
Ltac use_cached Hcert Hpem Hvalid :=
  unfold TaxpayerAuthenticate.get_public_certificate;
  unfold bind at 1, gets at 1; rewrite Hcert, (truthy_str _ Hpem); cbn [negb];
  unfold bind at 1, ret at 1; cbn [py_encode]; unfold bind at 1, ret at 1;
  rewrite Hvalid; unfold bind at 1, lift at 1; unfold bind at 1, gets at 1.

(** X1. A cached certificate that is still valid is returned, encoded,
    as it is: nothing is sent and nothing changes. *)
Theorem get_public_certificate_cached (w : world) (pem : string) (t : Z) :
  gstn_public_certificate w = VStr pem ->
  pem <> "" ->
  not_valid_after (VBytes pem) = Ok t ->
  now w <= t ->
  TaxpayerAuthenticate.get_public_certificate w = (Ok (VBytes pem), w).
Proof.
  intros Hcert Hpem Hvalid Hnow. use_cached Hcert Hpem Hvalid.
  destruct (Z.ltb_spec t (now w)); [lia | ]. reflexivity.
Qed.

(** X2. A cached certificate that has expired is never returned: it is
    refetched once.  If the gateway serves the same certificate the call
    fails with "Public Certificate is already up to date"; if it serves
    another text, that one is stored and returned without a look at its
    validity; a reply without a certificate text replaces the cached one
    and the call fails. *)
Theorem get_public_certificate_expired
    (w : world) (pem : string) (t : Z) (response : pydict) :
  let q := Request "static" "get" "gstn_g2b_prod_public" None None None in
  let fetched := dict_get response "certificate" in
  gstn_public_certificate w = VStr pem ->
  pem <> "" ->
  not_valid_after (VBytes pem) = Ok t ->
  t < now w ->
  snd (gateway (sent w) q) = Ok response ->
  (fetched = VStr pem ->
   TaxpayerAuthenticate.get_public_certificate w
   = (Raise (ValidationError (VStr "Public Certificate is already up to date")
               None),
      after_sending q w)) /\
  (forall c, fetched = VStr c -> c <> pem ->
   TaxpayerAuthenticate.get_public_certificate w
   = (Ok (VBytes c), set_gstn_public_certificate (VStr c) (after_sending q w))) /\
  (py_eq fetched (VStr pem) = false -> (forall c, fetched <> VStr c) ->
   TaxpayerAuthenticate.get_public_certificate w
   = (Raise AttributeError,
      set_gstn_public_certificate fetched (after_sending q w))).
Proof.
  intros q fetched Hcert Hpem Hvalid Hexpired Hreply.
  assert (Hrefetch :
    TaxpayerAuthenticate.get_public_certificate w
    = bind (PublicCertificate.get_gstn_public_certificate VNone) py_encode w).
  { use_cached Hcert Hpem Hvalid.
    destruct (Z.ltb_spec t (now w)); [ | lia]. reflexivity. }
  assert (Hfetch :
    PublicCertificate.get_gstn_public_certificate VNone w
    = if py_eq fetched (VStr pem)
      then (Raise (ValidationError
                     (VStr "Public Certificate is already up to date") None),
            after_sending q w)
      else (Ok fetched, set_gstn_public_certificate fetched (after_sending q w))).
  { rewrite (refetch_run w VNone response Hreply). fold fetched.
    rewrite Hcert. reflexivity. }
  rewrite Hrefetch. unfold bind. rewrite Hfetch. split; [ | split].
  - intros ->. rewrite py_eq_str, String.eqb_refl. reflexivity.
  - intros c -> Hc. rewrite py_eq_str.
    destruct (String.eqb_spec c pem); [contradiction | reflexivity].
  - intros Hneq Hnostr. rewrite Hneq.
    destruct fetched; try reflexivity. exfalso. eapply Hnostr. reflexivity.
Qed.

(** X3. Without a cached certificate the first call fetches one; if it is
    valid it is stored and returned after that single request, and the
    next call returns it from the settings without a request. *)
Theorem get_public_certificate_first_use
    (w : world) (c : string) (t : Z) (response : pydict) :
  let q := Request "static" "get" "gstn_g2b_prod_public" None None None in
  let w1 := set_gstn_public_certificate (VStr c) (after_sending q w) in
  truthy (gstn_public_certificate w) = false ->
  snd (gateway (sent w) q) = Ok response ->
  dict_get response "certificate" = VStr c ->
  c <> "" ->
  not_valid_after (VBytes c) = Ok t ->
  now w1 <= t ->
  TaxpayerAuthenticate.get_public_certificate w = (Ok (VBytes c), w1) /\
  TaxpayerAuthenticate.get_public_certificate w1 = (Ok (VBytes c), w1) /\
  sent w1 = (sent w ++ [q])%list.
Proof.
  intros q w1 Hnone Hreply Hfetched Hc Hvalid Hnow.
  assert (Hdiffer : py_eq (VStr c) (gstn_public_certificate w) = false).
  { destruct (gstn_public_certificate w) as [ | | |s| | | | ]; try reflexivity.
    simpl in Hnone. rewrite py_eq_str.
    destruct (String.eqb_spec s ""); [ | discriminate].
    subst s. destruct (String.eqb_spec c ""); [contradiction | reflexivity]. }
  assert (Hfetch :
    PublicCertificate.get_gstn_public_certificate VNone w = (Ok (VStr c), w1)).
  { rewrite (refetch_run w VNone response Hreply), Hfetched, Hdiffer.
    reflexivity. }
  split; [ | split].
  - unfold TaxpayerAuthenticate.get_public_certificate.
    unfold bind at 1, gets at 1. rewrite Hnone. cbn [negb].
    unfold bind at 1. rewrite Hfetch. cbn [py_encode].
    unfold bind at 1, ret at 1. rewrite Hvalid. unfold bind at 1, lift at 1.
    unfold bind at 1, gets at 1.
    destruct (Z.ltb_spec t (now w1)); [lia | ]. reflexivity.
  - assert (Hcert : gstn_public_certificate w1 = VStr c) by reflexivity.
    use_cached Hcert Hc Hvalid.
    destruct (Z.ltb_spec t (now w1)); [lia | ]. reflexivity.
  - reflexivity.
Qed.

(** ** What leaves in a payload *)

(** Lookups in dicts built by insertions under literal keys. *)
Ltac lookups :=
  unfold dict_get;
  repeat first
    [ rewrite lookup_insert_eq
    | rewrite lookup_insert_ne by discriminate
    | rewrite lookup_singleton_eq
    | rewrite lookup_singleton_ne by discriminate
    | rewrite lookup_delete_ne by discriminate
    | rewrite lookup_delete_eq
    | rewrite lookup_empty ];
  cbn [default from_option id].

(** X4. [refresh_auth_token] without a live token returns [None] and sends
    nothing.  With a live token it posts REFRESHTOKEN to [authenticate]
    at once, without a look at the certificate: the payload carries the
    token as it is and the app key encrypted under the session key. *)
Theorem refresh_auth_token_request (w : world) (token cipher : value) :
  (TaxpayerBaseAPI.get_auth_token w = (Ok VNone, w) ->
   TaxpayerBaseAPI.refresh_auth_token w = (Ok VNone, w)) /\
  (TaxpayerBaseAPI.get_auth_token w = (Ok token, w) ->
   truthy token = true ->
   truthy (app_key w) = true ->
   aes_encrypt_data (app_key w) (session_key w) = Ok cipher ->
   let payload : pydict :=
     <["auth_token" := token]>
       (<["username" := VStr (username w)]>
          (<["app_key" := cipher]> {["action" := VStr "REFRESHTOKEN"]})) in
   let q := Request TaxpayerBaseAPI.BASE_PATH "post" "authenticate" None None
              (Some payload) in
   TaxpayerBaseAPI.refresh_auth_token w
   = bind (transport q)
       (fun raw => bind (TaxpayerBaseAPI.process_response raw)
                     (fun response => ret (VDict response))) w).
Proof.
  unfold TaxpayerBaseAPI.refresh_auth_token, TaxpayerAuthenticate.refresh_auth_token.
  fold TaxpayerBaseAPI.get_auth_token. split.
  - intros Hnone. rewrite (bind_Ok _ _ _ _ _ Hnone). reflexivity.
  - intros Hlive Htoken Hkey Hcipher.
    set (payload := <["auth_token" := token]>
                      (<["username" := VStr (username w)]>
                         (<["app_key" := cipher]>
                            {["action" := VStr "REFRESHTOKEN"]}))).
    set (q := Request TaxpayerBaseAPI.BASE_PATH "post" "authenticate" None None
                (Some payload)).
    rewrite (bind_Ok _ _ _ _ _ Hlive), Htoken. cbn [negb]. steps.
    set (plain := <["auth_token" := token]>
                    (<["username" := VStr (username w)]>
                       (<["app_key" := app_key w]>
                          {["action" := VStr "REFRESHTOKEN"]}))).
    assert (E1 : dict_get plain "app_key" = app_key w)
      by (unfold plain; lookups; reflexivity).
    assert (E2 : dict_get plain "action" = VStr "REFRESHTOKEN")
      by (unfold plain; lookups; reflexivity).
    assert (E3 : dict_get (<["app_key" := cipher]> plain) "otp" = VNone)
      by (unfold plain; lookups; reflexivity).
    assert (E4 : dict_get (<["app_key" := cipher]> plain) "data" = VNone)
      by (unfold plain; lookups; reflexivity).
    assert (E5 : <["app_key" := cipher]> plain = payload).
    { unfold plain, payload. apply map_eq. intros k.
      destruct (decide (k = "auth_token")) as [->|]; [lookups; reflexivity | ].
      destruct (decide (k = "username")) as [->|]; [lookups; reflexivity | ].
      destruct (decide (k = "app_key")) as [->|]; [lookups; reflexivity | ].
      rewrite !lookup_insert_ne by congruence. reflexivity. }
    assert (Hbefore : TaxpayerBaseAPI.before_request (Some plain) w
                      = (Ok (Some payload), w)).
    { unfold TaxpayerBaseAPI.before_request, TaxpayerBaseAPI.encrypt_request,
        TaxpayerAuthenticate.encrypt_request.
      assert (Hplain : truthy (VDict plain) = true) by apply insert_truthy.
      rewrite !Hplain. cbn [negb].
      rewrite E1, Hkey, E2. cbn [py_eq String.eqb Ascii.eqb Bool.eqb].
      steps. rewrite Hcipher. steps. rewrite E3. cbn [truthy]. steps.
      rewrite E4, E5. reflexivity. }
    unfold TaxpayerBaseAPI.super_post, TaxpayerBaseAPI.super_method.
    cbn [existsb String.eqb Ascii.eqb Bool.eqb orb]. unfold BaseAPI_make_request.
    steps. rewrite (bind_Ok _ _ _ _ _ Hbefore). fold q.
    rewrite bind_assoc. reflexivity.
Qed.

(** What [TaxpayerAuthenticate.encrypt_request] leaves of a payload. *)
Lemma encrypt_request_fields (j : pydict) (r : option pydict) (w w' : world) :
  TaxpayerAuthenticate.encrypt_request (Some j) w = (Ok r, w') ->
  only_fetches w w' /\
  exists j', r = Some j' /\
    (forall k, k <> "app_key" -> k <> "otp" -> j' !! k = j !! k) /\
    (if truthy (dict_get j "otp")
     then aes_encrypt_data (dict_get j "otp") (app_key w) = Ok (dict_get j' "otp")
     else j' !! "otp" = j !! "otp").
Proof.
  intros E. split.
  { pose proof (encrypt_request_only_fetches (Some j) w) as Hf.
    rewrite E in Hf. exact Hf. }
  revert E. unfold TaxpayerAuthenticate.encrypt_request.
  destruct (truthy (VDict j)) eqn:Hne; cbn [negb].
  2:{ intros [= <- <-]. exists j. split; [reflexivity | ]. split; [reflexivity | ].
      destruct (truthy (dict_get j "otp")) eqn:Eo; [ | reflexivity].
      apply truthy_entry_nonempty in Eo. congruence. }
  intros E. apply bind_Ok_inv in E as (j1 & w1 & E1 & E).
  apply bind_Ok_inv in E as (j2 & w2 & E2 & E).
  unfold ret in E. injection E as <- <-.
  assert (Hkey : app_key w1 = app_key w).
  { match type of E1 with
    | ?m w = _ =>
        assert (P : preserves only_fetches m) by frame;
        pose proof (P w) as Hf; rewrite E1 in Hf; apply Hf
    end. }
  assert (H1 : forall k, k <> "app_key" -> j1 !! k = j !! k).
  { destruct (truthy (dict_get j "app_key")).
    - apply bind_Ok_inv in E1 as (c & w0 & _ & E1). unfold ret in E1.
      injection E1 as <- _. intros k Hk.
      rewrite lookup_insert_ne by congruence. reflexivity.
    - unfold ret in E1. injection E1 as <- _. reflexivity. }
  assert (Eo : dict_get j1 "otp" = dict_get j "otp").
  { unfold dict_get. rewrite H1 by discriminate. reflexivity. }
  rewrite Eo in E2. exists j2. split; [reflexivity | ].
  destruct (truthy (dict_get j "otp")).
  - apply bind_Ok_inv in E2 as (key & w3 & Ek & E2).
    unfold gets in Ek. injection Ek as <- <-.
    apply bind_Ok_inv in E2 as (c & w4 & Ec & E2).
    unfold ret in E2. injection E2 as <- _.
    unfold lift in Ec. injection Ec as Ec _. split.
    + intros k Hk1 Hk2. rewrite lookup_insert_ne by congruence. apply H1, Hk1.
    + rewrite <- Hkey, Ec. unfold dict_get. rewrite lookup_insert_eq. reflexivity.
  - unfold ret in E2. injection E2 as <- _. split.
    + intros k Hk1 Hk2. apply H1, Hk1.
    + apply H1. discriminate.
Qed.

(** The stages of [TaxpayerBaseAPI.encrypt_request]: the inherited
    encryption, then the data and its tag. *)
Lemma encrypt_request_stages (j : pydict) (r : option pydict) (w w' : world) :
  TaxpayerBaseAPI.encrypt_request (Some j) w = (Ok r, w') ->
  exists j1 j',
    TaxpayerAuthenticate.encrypt_request (Some j) w = (Ok (Some j1), w') /\
    r = Some j' /\
    if truthy (dict_get j1 "data") then
      exists text b64_data cipher,
        as_json (dict_get j1 "data") 1 = VStr text /\
        b64encode (VBytes text) = Ok (VBytes b64_data) /\
        aes_encrypt_data (VStr b64_data) (session_key w') = Ok cipher /\
        if py_eq (dict_get j1 "st") (VStr "EVC") then
          exists sid sign,
            dict_get j1 "sid" = VStr sid /\
            hmac_sha256 (VBytes b64_data) (VBytes sid) = Ok sign /\
            j' = <["sign" := sign]> (<["data" := cipher]> j1)
        else
          exists hmac,
            hmac_sha256 (VBytes b64_data) (session_key w') = Ok hmac /\
            j' = <["hmac" := hmac]> (<["data" := cipher]> j1)
    else j' = j1.
Proof.
  unfold TaxpayerBaseAPI.encrypt_request.
  destruct (truthy (VDict j)) eqn:Hne; cbn [negb].
  2:{ intros [= <- <-]. exists j, j.
      unfold TaxpayerAuthenticate.encrypt_request. rewrite Hne.
      split; [reflexivity | ]. split; [reflexivity | ].
      destruct (truthy (dict_get j "data")) eqn:Ed; [ | reflexivity].
      apply truthy_entry_nonempty in Ed. congruence. }
  intros E. apply bind_Ok_inv in E as (r1 & w1 & E1 & E).
  destruct (encrypt_request_fields _ _ _ _ E1) as (_ & j1 & -> & _).
  exists j1. destruct (truthy (dict_get j1 "data")).
  - apply bind_Ok_inv in E as (encoded & w2 & Ee & E).
    destruct (as_json (dict_get j1 "data") 1) as [ | | |text| | | | ] eqn:Ej;
      try discriminate Ee.
    injection Ee as <- <-.
    apply bind_Ok_inv in E as (b64_data & w2 & Eb & E).
    unfold lift in Eb. injection Eb as Eb <-.
    apply bind_Ok_inv in E as (text' & w2 & Et & E).
    destruct b64_data as [ | | | |b| | | ]; try discriminate Et.
    injection Et as <- <-.
    apply bind_Ok_inv in E as (skey & w2 & Es & E).
    unfold gets in Es. injection Es as <- <-.
    apply bind_Ok_inv in E as (cipher & w2 & Ec & E).
    unfold lift in Ec. injection Ec as Ec <-.
    assert (Est : dict_get (<["data" := cipher]> j1) "st" = dict_get j1 "st")
      by (unfold dict_get; rewrite lookup_insert_ne by discriminate; reflexivity).
    assert (Esid : dict_get (<["data" := cipher]> j1) "sid" = dict_get j1 "sid")
      by (unfold dict_get; rewrite lookup_insert_ne by discriminate; reflexivity).
    cbv zeta in E. rewrite Est, Esid in E.
    destruct (py_eq (dict_get j1 "st") (VStr "EVC")).
    + apply bind_Ok_inv in E as (sid_key & w2 & Ek & E).
      destruct (dict_get j1 "sid") as [ | | |sid| | | | ]; try discriminate Ek.
      injection Ek as <- <-.
      apply bind_Ok_inv in E as (sign & w2 & Eh & E).
      unfold lift in Eh. injection Eh as Eh <-.
      unfold ret in E. injection E as <- <-.
      eexists. split; [exact E1 | ]. split; [reflexivity | ].
      exists text, b, cipher.
      repeat (split; [first [assumption | reflexivity] | ]).
      exists sid, sign. repeat split; first [assumption | reflexivity].
    + apply bind_Ok_inv in E as (skey & w2 & Es & E).
      unfold gets in Es. injection Es as <- <-.
      apply bind_Ok_inv in E as (hmac & w2 & Eh & E).
      unfold lift in Eh. injection Eh as Eh <-.
      unfold ret in E. injection E as <- <-.
      eexists. split; [exact E1 | ]. split; [reflexivity | ].
      exists text, b, cipher.
      repeat (split; [first [assumption | reflexivity] | ]).
      exists hmac. split; [assumption | reflexivity].
  - unfold ret in E. injection E as <- <-.
    exists j1. repeat split. exact E1.
Qed.

(** X5. An OTP never leaves in clear: in every payload that
    [before_request] lets through, the [otp] field of a payload that
    carried one is its encryption under the app key. *)
Theorem before_request_encrypts_otp
    (w w' : world) (j : pydict) (r : option pydict) :
  truthy (dict_get j "otp") = true ->
  TaxpayerBaseAPI.before_request (Some j) w = (Ok r, w') ->
  exists j',
    r = Some j' /\
    aes_encrypt_data (dict_get j "otp") (app_key w) = Ok (dict_get j' "otp").
Proof.
  intros Hotp E. unfold TaxpayerBaseAPI.before_request in E.
  destruct (encrypt_request_stages _ _ _ _ E) as (j1 & j' & E1 & -> & Hdata).
  destruct (encrypt_request_fields _ _ _ _ E1) as (_ & j0 & [= <-] & _ & Hfield).
  rewrite Hotp in Hfield. exists j'. split; [reflexivity | ].
  rewrite Hfield. f_equal.
  destruct (truthy (dict_get j1 "data")); [ | subst j'; reflexivity].
  destruct Hdata as (text & b64_data & cipher & _ & _ & _ & Htag).
  destruct (py_eq (dict_get j1 "st") (VStr "EVC")).
  - destruct Htag as (sid & sign & _ & _ & ->). lookups. reflexivity.
  - destruct Htag as (hmac & _ & ->). lookups. reflexivity.
Qed.

(** X6. The data of a payload leave encrypted and tagged: the JSON text
    of [data] is base64-encoded and the field becomes its encryption
    under the session key; when [st] is EVC the payload gains a [sign],
    the HMAC of the encoded data under the bytes of [sid], and no
    [hmac]; otherwise it gains an [hmac] under the session key, and no
    [sign]. *)
Theorem before_request_encrypts_data
    (w w' : world) (j : pydict) (r : option pydict) :
  truthy (dict_get j "data") = true ->
  TaxpayerBaseAPI.before_request (Some j) w = (Ok r, w') ->
  exists j' text b64_data,
    r = Some j' /\
    as_json (dict_get j "data") 1 = VStr text /\
    b64encode (VBytes text) = Ok (VBytes b64_data) /\
    aes_encrypt_data (VStr b64_data) (session_key w) = Ok (dict_get j' "data") /\
    if py_eq (dict_get j "st") (VStr "EVC") then
      (exists sid,
          dict_get j "sid" = VStr sid /\
          hmac_sha256 (VBytes b64_data) (VBytes sid) = Ok (dict_get j' "sign")) /\
      j' !! "hmac" = j !! "hmac"
    else
      hmac_sha256 (VBytes b64_data) (session_key w) = Ok (dict_get j' "hmac") /\
      j' !! "sign" = j !! "sign".
Proof.
  intros Hdata E. unfold TaxpayerBaseAPI.before_request in E.
  destruct (encrypt_request_stages _ _ _ _ E) as (j1 & j' & E1 & -> & Hstage).
  destruct (encrypt_request_fields _ _ _ _ E1)
    as (Hf & j0 & [= <-] & Hsame & _).
  assert (Hskey : session_key w' = session_key w) by apply Hf.
  assert (Hget : forall k, k <> "app_key" -> k <> "otp" ->
                           dict_get j1 k = dict_get j k).
  { intros k H1 H2. unfold dict_get. rewrite Hsame by assumption. reflexivity. }
  rewrite !Hget, Hdata, Hskey in Hstage by discriminate.
  destruct Hstage as (text & b64_data & cipher & Hjson & Hb64 & Hcipher & Htag).
  exists j', text, b64_data. split; [reflexivity | ].
  split; [exact Hjson | ]. split; [exact Hb64 | ].
  destruct (py_eq (dict_get j "st") (VStr "EVC")).
  - destruct Htag as (sid & sign & Hsid & Hsign & ->). split; [ | split].
    + rewrite Hcipher. lookups. reflexivity.
    + exists sid. split; [exact Hsid | ]. rewrite Hsign. lookups. reflexivity.
    + rewrite !lookup_insert_ne by discriminate. apply Hsame; discriminate.
  - destruct Htag as (hmac & Hhmac & ->). split; [ | split].
    + rewrite Hcipher. lookups. reflexivity.
    + rewrite Hhmac. lookups. reflexivity.
    + rewrite !lookup_insert_ne by discriminate. apply Hsame; discriminate.
Qed.

(** ** Error codes of the table *)

(** [is_ignored_error] on a failure whose code the table lists. *)
Lemma is_ignored_error_listed (response error : pydict) (code kind : string)
    (w : world) :
  dict_get_or_empty response "error" = VDict error ->
  dict_get error "error_cd" = VStr code ->
  TaxpayerBaseAPI.IGNORED_ERROR_CODES !! code = Some kind ->
  let marked := <["gstin" := VStr (company_gstin w)]>
                  (<["error_type" := VStr kind]> response) in
  TaxpayerBaseAPI.is_ignored_error response w
  = if String.eqb kind "otp_requested" then (Raise (OTPRequestedError marked), w)
    else if String.eqb kind "invalid_otp" then (Raise (InvalidOTPError marked), w)
    else (Ok (true, marked), w).
Proof.
  intros Herror Hcode Htable marked. unfold TaxpayerBaseAPI.is_ignored_error.
  rewrite Herror. cbn [value_get]. rewrite Hcode. steps. cbn [table_lookup].
  steps. rewrite Htable. steps. fold marked.
  destruct (String.eqb kind "otp_requested"); [reflexivity | ].
  destruct (String.eqb kind "invalid_otp"); reflexivity.
Qed.

Lemma marked_error_type (response : pydict) (gstin : string) (kind : string) :
  dict_get (<["gstin" := VStr gstin]> (<["error_type" := VStr kind]> response))
    "error_type" = VStr kind.
Proof. lookups. reflexivity. Qed.

(** X7. A failure whose code the table maps to [otp_requested] or
    [invalid_otp] leaves [process_response] as the typed error that
    carries the response, marked with the type and the gstin; the world
    is as it was.  A business request that gets such a reply raises it,
    and under [otp_handler] the call returns the marked response. *)
Theorem otp_errors_are_returned (response error : pydict) (code kind : string) :
  py_eq (dict_get response "status_cd") (VInt 0) = true ->
  dict_get_or_empty response "error" = VDict error ->
  dict_get error "error_cd" = VStr code ->
  TaxpayerBaseAPI.IGNORED_ERROR_CODES !! code = Some kind ->
  kind = "otp_requested" \/ kind = "invalid_otp" ->
  let marked w := <["gstin" := VStr (company_gstin w)]>
                    (<["error_type" := VStr kind]> response) in
  let failure w :=
    if String.eqb kind "otp_requested" then OTPRequestedError (marked w)
    else InvalidOTPError (marked w) in
  (forall w, TaxpayerBaseAPI.process_response response w = (Raise (failure w), w)) /\
  (forall method action params headers endpoint json json' w w1,
      existsb (String.eqb method) ["get"; "post"; "put"] = true ->
      TaxpayerBaseAPI.before_request json w = (Ok json', w1) ->
      let q := Request TaxpayerBaseAPI.BASE_PATH method endpoint
                 (Some (default ∅ params ∪ {["action" := action]}))
                 (Some headers) json' in
      snd (gateway (sent w1) q) = Ok response ->
      TaxpayerBaseAPI.send_request method action params headers endpoint json w
      = (Raise (failure w), after_sending q w1) /\
      otp_handler
        (TaxpayerBaseAPI.send_request method action params headers endpoint json) w
      = (Ok (VDict (marked w)), after_sending q w1)).
Proof.
  intros Hstatus Herror Hcode Htable Hkind marked failure.
  assert (Hprocess : forall w, TaxpayerBaseAPI.process_response response w
                               = (Raise (failure w), w)).
  { intros w. unfold TaxpayerBaseAPI.process_response,
      TaxpayerBaseAPI.handle_error_response.
    rewrite Hstatus. cbn [negb]. steps. unfold bind at 1.
    rewrite (is_ignored_error_listed response error code kind w Herror Hcode Htable).
    unfold failure, marked. destruct Hkind as [-> | ->]; reflexivity. }
  split; [exact Hprocess | ].
  intros method action params headers endpoint json json' w w1 Hmethod Hbefore q Hreply.
  assert (Hgstin : company_gstin (after_sending q w1) = company_gstin w).
  { pose proof (before_request_only_fetches json w) as Hf.
    rewrite Hbefore in Hf. apply Hf. }
  assert (Hsend :
    TaxpayerBaseAPI.send_request method action params headers endpoint json w
    = (Raise (failure w), after_sending q w1)).
  { unfold TaxpayerBaseAPI.send_request, bind.
    rewrite (super_method_run method endpoint _ _ json json' w w1 response
               Hmethod Hbefore Hreply).
    fold q. rewrite Hprocess. unfold failure, marked. rewrite Hgstin. reflexivity. }
  split; [exact Hsend | ].
  unfold otp_handler. rewrite Hsend. unfold failure.
  destruct (String.eqb kind "otp_requested"); reflexivity.
Qed.

(** X8. A failure whose code the table maps to anything but
    [otp_requested], [invalid_otp] and [invalid_public_key] is not an
    error of the call: [handle_error_response] marks the response with the
    mapped text and the gstin and lets it through, and nothing changes. *)
Theorem listed_error_is_absorbed
    (response error : pydict) (code kind : string) (w : world) :
  py_eq (dict_get response "status_cd") (VInt 0) = true ->
  dict_get_or_empty response "error" = VDict error ->
  dict_get error "error_cd" = VStr code ->
  TaxpayerBaseAPI.IGNORED_ERROR_CODES !! code = Some kind ->
  kind <> "otp_requested" ->
  kind <> "invalid_otp" ->
  kind <> "invalid_public_key" ->
  let marked := <["gstin" := VStr (company_gstin w)]>
                  (<["error_type" := VStr kind]> response) in
  TaxpayerBaseAPI.handle_error_response response w = (Ok marked, w) /\
  (truthy (dict_get response "auth_token") = false ->
   truthy (dict_get response "rek") = false ->
   truthy (dict_get response "data") = false ->
   TaxpayerBaseAPI.process_response response w = (Ok marked, w)).
Proof.
  intros Hstatus Herror Hcode Htable Hotp Hinvalid Hkey marked.
  assert (Hhandle : TaxpayerBaseAPI.handle_error_response response w
                    = (Ok marked, w)).
  { unfold TaxpayerBaseAPI.handle_error_response.
    rewrite Hstatus. cbn [negb]. steps. unfold bind at 1.
    rewrite (is_ignored_error_listed response error code kind w Herror Hcode Htable).
    destruct (String.eqb_spec kind "otp_requested"); [contradiction | ].
    destruct (String.eqb_spec kind "invalid_otp"); [contradiction | ].
    cbn [fst snd negb]. steps. fold marked.
    unfold marked at 1. rewrite marked_error_type, py_eq_str.
    destruct (String.eqb_spec kind "invalid_public_key"); [contradiction | ].
    reflexivity. }
  split; [exact Hhandle | ].
  intros Htok Hrek Hdata. unfold TaxpayerBaseAPI.process_response.
  rewrite (bind_Ok _ _ _ _ _ Hhandle).
  apply decrypt_response_plain; unfold marked, dict_get;
    rewrite !lookup_insert_ne by discriminate; assumption.
Qed.

(** X9. A failure whose code the table maps to [invalid_public_key] makes
    [handle_error_response] refetch the certificate, once.  If the gateway
    serves the certificate of the settings again the call fails with the
    message about the invalid public key; otherwise the new certificate
    is stored and the marked response is let through. *)
Theorem invalid_public_key_refetches
    (response error : pydict) (code : string) (w : world) (reply : pydict) :
  let q := Request "static" "get" "gstn_g2b_prod_public" None None None in
  let fetched := dict_get reply "certificate" in
  let marked := <["gstin" := VStr (company_gstin w)]>
                  (<["error_type" := VStr "invalid_public_key"]> response) in
  py_eq (dict_get response "status_cd") (VInt 0) = true ->
  dict_get_or_empty response "error" = VDict error ->
  dict_get error "error_cd" = VStr code ->
  TaxpayerBaseAPI.IGNORED_ERROR_CODES !! code = Some "invalid_public_key" ->
  snd (gateway (sent w) q) = Ok reply ->
  TaxpayerBaseAPI.handle_error_response response w
  = if py_eq fetched (gstn_public_certificate w)
    then (Raise (ValidationError
                   (VStr "Looks like Public Key of GSTN used for encryption is Invalid")
                   None),
          after_sending q w)
    else (Ok marked, set_gstn_public_certificate fetched (after_sending q w)).
Proof.
  intros q fetched marked Hstatus Herror Hcode Htable Hreply.
  unfold TaxpayerBaseAPI.handle_error_response.
  rewrite Hstatus. cbn [negb]. steps. unfold bind at 1.
  rewrite (is_ignored_error_listed response error code _ w Herror Hcode Htable).
  cbn [String.eqb Ascii.eqb Bool.eqb fst snd negb]. steps. fold marked.
  unfold marked at 1. rewrite marked_error_type.
  cbn [py_eq String.eqb Ascii.eqb Bool.eqb]. steps. unfold bind at 1.
  rewrite (refetch_run w _ reply Hreply). fold q fetched.
  destruct (py_eq fetched (gstn_public_certificate w)); reflexivity.
Qed.

(** ** What a decrypted response is *)

(** X10. Whatever [decrypt_response] returns for a response without an
    [auth_token] was checked: the world is as it was; a response without
    [data] comes back as it is; one with [data] has lost the field and
    gained [result], the parsed JSON of the decoded plaintext, and if it
    carries an [hmac], the HMAC of the plaintext under the data key is
    that [hmac]. *)
Theorem decrypt_response_result (response r : pydict) (w w' : world) :
  truthy (dict_get response "auth_token") = false ->
  TaxpayerBaseAPI.decrypt_response response w = (Ok r, w') ->
  w' = w /\
  if truthy (dict_get response "data") then
    exists key plain decoded result,
      data_key response w = Ok key /\
      aes_decrypt_data (dict_get response "data") key = Ok plain /\
      (truthy (dict_get response "hmac") = true ->
       exists hmac,
         hmac_sha256 plain key = Ok hmac /\
         py_eq hmac (dict_get response "hmac") = true) /\
      b64decode plain = Ok (VBytes decoded) /\
      parse_json (VStr decoded) = Ok result /\
      r = <["result" := result]> (delete "data" response)
  else r = response.
Proof.
  intros Htok. unfold TaxpayerBaseAPI.decrypt_response. rewrite Htok.
  intros E. apply bind_Ok_inv in E as (key & w1 & Ekey & E).
  assert (Hkey : data_key response w = Ok key /\ w1 = w).
  { unfold data_key. destruct (truthy (dict_get response "rek")).
    - apply bind_Ok_inv in Ekey as (skey & w2 & Es & Ekey).
      unfold gets in Es. injection Es as <- <-.
      unfold lift in Ekey. injection Ekey as -> ->. split; reflexivity.
    - unfold ret in Ekey. injection Ekey as <- <-. split; reflexivity. }
  destruct Hkey as [Hkey ->]. clear Ekey.
  destruct (truthy (dict_get response "data")).
  - cbv zeta in E.
    assert (Ehmac : dict_get (delete "data" response) "hmac"
                    = dict_get response "hmac")
      by (unfold dict_get; rewrite lookup_delete_ne by discriminate; reflexivity).
    rewrite Ehmac in E.
    apply bind_Ok_inv in E as (plain & w2 & Ep & E).
    unfold lift in Ep. injection Ep as Ep <-.
    apply bind_Ok_inv in E as (u & w2 & Eh & E).
    assert (Hhmac : w2 = w /\
                    (truthy (dict_get response "hmac") = true ->
                     exists hmac,
                       hmac_sha256 plain key = Ok hmac /\
                       py_eq hmac (dict_get response "hmac") = true)).
    { destruct (truthy (dict_get response "hmac")).
      - apply bind_Ok_inv in Eh as (hmac & w3 & Em & Eh).
        unfold lift in Em. injection Em as Em <-.
        destruct (py_eq hmac (dict_get response "hmac")) eqn:Eq;
          cbn [negb] in Eh; [ | discriminate Eh].
        unfold ret in Eh. injection Eh as _ <-.
        split; [reflexivity | ]. intros _. exists hmac. split; assumption.
      - unfold ret in Eh. injection Eh as _ <-.
        split; [reflexivity | discriminate]. }
    destruct Hhmac as [-> Hhmac]. clear Eh.
    apply bind_Ok_inv in E as (decoded & w2 & Ed & E).
    unfold lift in Ed. injection Ed as Ed <-.
    apply bind_Ok_inv in E as (text & w2 & Et & E).
    destruct decoded as [ | | | |s| | | ]; try discriminate Et.
    injection Et as <- <-.
    apply bind_Ok_inv in E as (result & w2 & Er & E).
    unfold lift in Er. injection Er as Er <-.
    unfold ret in E. injection E as <- <-.
    split; [reflexivity | ]. exists key, plain, s, result.
    repeat (split; [assumption | ]). reflexivity.
  - unfold ret in E. injection E as <- <-. split; reflexivity.
Qed.

(** ** What the pipeline keeps

    A relation between worlds that every primitive step of the pipeline
    respects is respected by the pipeline, whether it returns or raises. *)

Section PipelineFrame.
Context (R : relation world) `{!PreOrder R}.
Hypothesis R_auth_token : forall v w, R w (set_auth_token v w).
Hypothesis R_session_key : forall v w, R w (set_session_key v w).
Hypothesis R_session_expiry : forall t w, R w (set_session_expiry t w).
Hypothesis R_certificate : forall v w, R w (set_gstn_public_certificate v w).
Hypothesis R_cleared : forall l w, R w (set_cleared_document_cache l w).
Hypothesis R_sent : forall t l w, R w (set_now_sent t l w).
Hypothesis R_own_rows : forall values w,
  R w (set_db ((fun row => if row_matches (self_filters w) row
                           then values ∪ row else row) <$> db w) w).

Lemma modify_kept (f : world -> world) :
  (forall w, R w (f w)) -> preserves R (modify f).
Proof. intros Hf w. apply Hf. Qed.

(** [frappe.db.set_value] with the filters of [self]. *)
Lemma own_rows_kept {A} (values : pydict) (k : unit -> M A) :
  (forall u, preserves R (k u)) ->
  preserves R (bind (gets self_filters)
                 (fun filters => bind (db_set_value filters values) k)).
Proof.
  intros Hk w. rewrite bind_gets. unfold db_set_value. rewrite bind_modify.
  etransitivity; [apply (R_own_rows values w) | apply Hk].
Qed.

Ltac kept :=
  repeat first
    [ apply own_rows_kept; intros ?
    | frame_step
    | first [ apply modify_kept
            | unfold cache_set_value; apply modify_kept
            | unfold clear_document_cache; apply modify_kept ];
      intros ?; auto ].

Lemma transport_kept (q : request) : preserves R (transport q).
Proof. intros w. unfold transport. simpl. apply R_sent. Qed.
#[local] Hint Resolve transport_kept : frames.

Lemma get_gstn_public_certificate_kept (error_message : value) :
  preserves R (PublicCertificate.get_gstn_public_certificate error_message).
Proof.
  unfold PublicCertificate.get_gstn_public_certificate, PublicCertificate.get,
    BaseAPI_make_request.
  kept.
Qed.
#[local] Hint Resolve get_gstn_public_certificate_kept : frames.

Lemma before_request_kept (json : option pydict) :
  preserves R (TaxpayerBaseAPI.before_request json).
Proof.
  unfold TaxpayerBaseAPI.before_request, TaxpayerBaseAPI.encrypt_request,
    TaxpayerAuthenticate.encrypt_request,
    TaxpayerAuthenticate.get_public_certificate.
  kept.
Qed.
#[local] Hint Resolve before_request_kept : frames.

Lemma rotation_kept (response : pydict) :
  preserves R (TaxpayerAuthenticate.decrypt_response response).
Proof. unfold TaxpayerAuthenticate.decrypt_response. kept. Qed.
#[local] Hint Resolve rotation_kept : frames.

Lemma process_response_kept (response : pydict) :
  preserves R (TaxpayerBaseAPI.process_response response).
Proof.
  unfold TaxpayerBaseAPI.process_response, TaxpayerBaseAPI.handle_error_response,
    TaxpayerBaseAPI.is_ignored_error, TaxpayerBaseAPI.decrypt_response.
  kept.
Qed.
#[local] Hint Resolve process_response_kept : frames.

Lemma super_method_kept (method : string) (params headers json : option pydict)
    (endpoint : string) :
  preserves R (TaxpayerBaseAPI.super_method method params headers json endpoint).
Proof.
  unfold TaxpayerBaseAPI.super_method, BaseAPI_make_request. kept.
Qed.
#[local] Hint Resolve super_method_kept : frames.

Lemma super_post_kept (json : option pydict) (endpoint : string) :
  preserves R (TaxpayerBaseAPI.super_post json endpoint).
Proof. unfold TaxpayerBaseAPI.super_post. auto with frames. Qed.
#[local] Hint Resolve super_post_kept : frames.

Lemma request_otp_kept : preserves R TaxpayerBaseAPI.request_otp.
Proof.
  unfold TaxpayerBaseAPI.request_otp, TaxpayerAuthenticate.request_otp. kept.
Qed.
#[local] Hint Resolve request_otp_kept : frames.

Hypothesis R_job : forall j w, R w (set_job j w).
Hypothesis R_cache : forall c w, R w (set_cache c w).

Lemma autheticate_with_otp_kept (otp : value) :
  preserves R (TaxpayerBaseAPI.autheticate_with_otp otp).
Proof.
  unfold TaxpayerBaseAPI.autheticate_with_otp,
    TaxpayerAuthenticate.autheticate_with_otp.
  fold TaxpayerBaseAPI.request_otp. kept.
Qed.
#[local] Hint Resolve autheticate_with_otp_kept : frames.

Lemma request_kept (method : string) (action return_type return_period : value)
    (params : option pydict) (endpoint : string) (json : option pydict)
    (otp : value) :
  preserves R (TaxpayerBaseAPI._request method action return_type return_period
                 params endpoint json otp).
Proof.
  unfold TaxpayerBaseAPI._request, TaxpayerBaseAPI.send_request,
    TaxpayerBaseAPI.get_auth_token, TaxpayerAuthenticate.get_auth_token.
  kept.
Qed.

End PipelineFrame.

#[local] Instance keeps_other_rows_preorder : PreOrder keeps_other_rows.
Proof.
  split.
  - intros w. unfold keeps_other_rows. auto.
  - intros w1 w2 w3 (G1 & U1 & H1) (G2 & U2 & H2). unfold keeps_other_rows.
    split; [congruence | ]. split; [congruence | ].
    intros i row Hrow Hmatch. apply H2; [apply H1; assumption | ].
    unfold self_filters. rewrite G1, U1. exact Hmatch.
Qed.

#[local] Instance keeps_cache_preorder : PreOrder keeps_cache.
Proof.
  split.
  - intros w. reflexivity.
  - intros w1 w2 w3 H1 H2. unfold keeps_cache in *. congruence.
Qed.

(** A change of another field or of the rows of [self], as seen by
    [keeps_other_rows]. *)
Ltac other_rows :=
  intros; unfold keeps_other_rows;
  split; [reflexivity | ]; split; [reflexivity | ];
  let j := fresh "j" in
  let r := fresh "r" in
  let Hr := fresh "Hr" in
  let Hm := fresh "Hm" in
  intros j r Hr Hm;
  first [ exact Hr
        | simpl in Hm; simpl; rewrite list_lookup_fmap, Hr; simpl; rewrite Hm;
          reflexivity ].

(** X11. No call of the API touches the credential row of another
    taxpayer: whatever [_request] does, and whether it returns or raises,
    every row that does not meet the filters of [self] is at its place
    as it was. *)
Theorem request_keeps_other_rows
    (method : string) (action return_type return_period : value)
    (params : option pydict) (endpoint : string) (json : option pydict)
    (otp : value) (w : world) (i : nat) (row : pydict) :
  db w !! i = Some row ->
  row_matches (self_filters w) row = false ->
  db (snd (TaxpayerBaseAPI._request method action return_type return_period
             params endpoint json otp w)) !! i = Some row.
Proof.
  intros Hrow Hmatch.
  assert (Hkept : preserves keeps_other_rows
                    (TaxpayerBaseAPI._request method action return_type
                       return_period params endpoint json otp)).
  { apply request_kept; try apply keeps_other_rows_preorder; other_rows. }
  destruct (Hkept w) as (_ & _ & Hrows). apply Hrows; assumption.
Qed.

(** X12. The marker of a recent authentication: with an OTP,
    [autheticate_with_otp] sets [authenticated_gstin:<gstin>] in the
    cache, for 15 minutes, exactly when the AUTHTOKEN call has returned,
    and leaves the cache alone when it raises; without an OTP the cache
    is not touched. *)
Theorem autheticate_with_otp_marks (otp : value) (w : world) :
  let r := TaxpayerBaseAPI.autheticate_with_otp otp w in
  let marker := "authenticated_gstin:" ++ company_gstin w in
  cache (snd r)
  = match fst r with
    | Ok _ => if truthy otp
              then <[marker := (VBool true, 60 * 15)]> (cache w)
              else cache w
    | Raise _ => cache w
    end.
Proof.
  assert (Hpost : forall json endpoint,
             preserves keeps_cache (TaxpayerBaseAPI.super_post json endpoint)).
  { intros json endpoint. apply super_post_kept;
      try apply keeps_cache_preorder; intros; reflexivity. }
  assert (Hotp : preserves keeps_cache TaxpayerBaseAPI.request_otp).
  { apply request_otp_kept; try apply keeps_cache_preorder; intros; reflexivity. }
  intros r marker. subst r.
  unfold TaxpayerBaseAPI.autheticate_with_otp,
    TaxpayerAuthenticate.autheticate_with_otp.
  fold TaxpayerBaseAPI.request_otp.
  destruct (truthy otp); cbn [negb].
  - steps.
    pose proof (Hpost (Some (<["otp" := otp]>
                               (<["username" := VStr (username w)]>
                                  (<["app_key" := app_key w]>
                                     {["action" := VStr "AUTHTOKEN"]}))))
                  "authenticate" w) as Hc.
    pose proof (super_post_only_authenticates
                  (Some (<["otp" := otp]>
                           (<["username" := VStr (username w)]>
                              (<["app_key" := app_key w]>
                                 {["action" := VStr "AUTHTOKEN"]}))))
                  "authenticate" w) as (Hg & _).
    destruct (TaxpayerBaseAPI.super_post _ _ w) as [[response|e] w1] eqn:E;
      simpl in Hc, Hg.
    + rewrite !(bind_Ok _ _ _ _ _ E). steps. unfold cache_set_value. steps.
      simpl. unfold marker. rewrite Hc, Hg. reflexivity.
    + rewrite !(bind_Raise _ _ _ _ _ E). exact Hc.
  - steps. destruct (job w) as [after_job| ].
    + steps. reflexivity.
    + steps. unfold db_set_value. steps.
      match goal with
      | |- context [TaxpayerBaseAPI.request_otp ?w1] =>
          pose proof (Hotp w1) as Hc;
          destruct (TaxpayerBaseAPI.request_otp w1) as [[v|e] w2]
      end; exact Hc.
Qed.

(** ** Clearing the token *)

Lemma clear_token_matches (gstin user : string) (row : pydict) :
  row_matches (credential_filters gstin user)
    ({["auth_token" := VNone]} ∪ row)
  = row_matches (credential_filters gstin user) row.
Proof.
  unfold row_matches, credential_filters, dict_get. cbn [forallb fst snd].
  rewrite !lookup_union_r by (apply lookup_singleton_ne; discriminate).
  reflexivity.
Qed.

Lemma clear_token_idemp (gstin user : string) (row : pydict) :
  clear_token (credential_filters gstin user)
    (clear_token (credential_filters gstin user) row)
  = clear_token (credential_filters gstin user) row.
Proof.
  unfold clear_token.
  destruct (row_matches (credential_filters gstin user) row) eqn:E.
  - rewrite clear_token_matches, E.
    rewrite (assoc_L (∪)), (idemp_L (∪)). reflexivity.
  - rewrite E. reflexivity.
Qed.

Lemma reset_auth_token_run (w : world) :
  TaxpayerBaseAPI.reset_auth_token w
  = (Ok tt,
     let w1 := set_db (clear_token (self_filters w) <$> db w) w in
     if in_test w then w1 else set_db_commits (S (db_commits w)) w1).
Proof.
  unfold TaxpayerBaseAPI.reset_auth_token, TaxpayerAuthenticate.reset_auth_token,
    TaxpayerAuthenticate.reset_auth_token_of, db_set_value, db_commit.
  steps. cbn [in_test set_db]. destruct (in_test w); reflexivity.
Qed.

(** X13. [reset_auth_token] always returns.  It clears the [auth_token]
    of the rows of [self] in the table and leaves their other fields and
    the other rows; the token attribute of the object stays; it commits
    once unless a test runs; and a second reset changes no row. *)
Theorem reset_auth_token_clears_rows (w : world) :
  let w' := snd (TaxpayerBaseAPI.reset_auth_token w) in
  fst (TaxpayerBaseAPI.reset_auth_token w) = Ok tt /\
  (forall i row,
      db w !! i = Some row ->
      if row_matches (self_filters w) row
      then exists row',
          db w' !! i = Some row' /\
          row' !! "auth_token" = Some VNone /\
          forall k, k <> "auth_token" -> row' !! k = row !! k
      else db w' !! i = Some row) /\
  auth_token w' = auth_token w /\
  db_commits w' = (if in_test w then db_commits w else S (db_commits w)) /\
  db (snd (TaxpayerBaseAPI.reset_auth_token w')) = db w'.
Proof.
  intros w'. subst w'. rewrite !reset_auth_token_run. cbv zeta. cbn [fst snd].
  assert (Hdb : forall w0 : world,
             db (if in_test w then w0 else set_db_commits (S (db_commits w)) w0)
             = db w0) by (intros w0; destruct (in_test w); reflexivity).
  split; [reflexivity | ]. split; [ | split; [ | split]].
  - intros i row Hrow. rewrite Hdb. cbn [snd db set_db].
    rewrite list_lookup_fmap, Hrow. cbn [fmap option_fmap option_map].
    unfold clear_token.
    destruct (row_matches (self_filters w) row); [ | reflexivity].
    eexists. split; [reflexivity | ]. split.
    + apply lookup_union_Some_l, lookup_singleton_eq.
    + intros k Hk. apply lookup_union_r, lookup_singleton_ne. congruence.
  - destruct (in_test w); reflexivity.
  - destruct (in_test w); reflexivity.
  - destruct (in_test w) eqn:Et;
      cbn [in_test set_db set_db_commits db]; rewrite Et;
      cbn [in_test set_db set_db_commits db];
      rewrite <- list_fmap_compose; apply list_fmap_ext; intros i row _;
      unfold self_filters; cbn [company_gstin username set_db set_db_commits];
      apply clear_token_idemp.
Qed.

(** ** A rotation that fails *)

(** X14. A rotation that fails leaves the object ahead of the table.
    When the expiry cannot be added to the current time the call raises
    the error of the addition: the object holds the token of the
    response, its expiry and session key are as before, and the table has
    not been written.  When the expiry can be added and the session key
    cannot be decrypted the call raises the error of the decryption: by
    then the object holds the token and the expiry of the response too,
    and the table has still not been written. *)
Theorem rotation_fails_before_the_table
    (response : pydict) (w : world) (e : exn) :
  let token := dict_get response "auth_token" in
  let expiry := dict_get response "expiry" in
  let sek := dict_get response "sek" in
  (truthy expiry = true ->
   add_to_date (now w) (cint expiry) = Raise e ->
   exists w',
     TaxpayerAuthenticate.decrypt_response response w = (Raise e, w') /\
     db w' = db w /\
     session_key w' = session_key w /\
     session_expiry w' = session_expiry w /\
     auth_token w' = (if truthy token then token else auth_token w)) /\
  (forall deadline,
      (truthy expiry = true ->
       add_to_date (now w) (cint expiry) = Ok deadline) ->
      truthy sek = true ->
      aes_decrypt_data sek (app_key w) = Raise e ->
      exists w',
        TaxpayerAuthenticate.decrypt_response response w = (Raise e, w') /\
        db w' = db w /\
        session_key w' = session_key w /\
        auth_token w' = (if truthy token then token else auth_token w) /\
        session_expiry w'
        = (if truthy expiry then Some deadline else session_expiry w)).
Proof.
  intros token expiry sek.
  unfold TaxpayerAuthenticate.decrypt_response. fold token expiry sek. split.
  - intros Hexp Hraise. rewrite Hexp.
    destruct (truthy token); steps; cbn [now set_auth_token]; rewrite Hraise;
      steps; eexists; (split; [reflexivity | ]); repeat split.
  - intros deadline Hexp Hsek Hfail. rewrite Hsek.
    destruct (truthy token), (truthy expiry);
      try (pose proof (Hexp eq_refl) as Hadd);
      steps; cbn [app_key now set_auth_token set_session_expiry];
      rewrite ?Hadd; steps; cbn [app_key now set_auth_token set_session_expiry];
      rewrite Hfail; steps;
      eexists; (split; [reflexivity | ]); repeat split.
Qed.

(** ** A call without a token and without an OTP *)

(** X15. With no valid token and no OTP, [_request] never returns: it
    ends with the error of the OTP-less authentication, or, when the
    request for an OTP came back unacknowledged, with the attribute error
    of reading [error_type] on [None].  The business request is not sent:
    every request of the call is without headers. *)
Theorem request_without_token_never_returns
    (method : string) (action return_type return_period : value)
    (params : option pydict) (endpoint : string) (json : option pydict)
    (otp : value) (w : world) :
  let r := TaxpayerBaseAPI._request method action return_type return_period
             params endpoint json otp w in
  let a := TaxpayerBaseAPI.autheticate_with_otp otp w in
  TaxpayerBaseAPI.get_auth_token w = (Ok VNone, w) ->
  truthy otp = false ->
  (fst a = Ok VNone \/ exists e, fst a = Raise e) /\
  fst r = match fst a with
          | Ok _ => Raise AttributeError
          | Raise e => Raise e
          end /\
  snd r = snd a /\
  exists new, sent (snd r) = (sent w ++ new)%list /\ Forall header_less new.
Proof.
  intros r a Hnone Hotp.
  assert (Ha : fst a = Ok VNone \/ exists e, fst a = Raise e).
  { subst a. unfold TaxpayerBaseAPI.autheticate_with_otp,
      TaxpayerAuthenticate.autheticate_with_otp.
    rewrite Hotp. cbn [negb]. steps. destruct (job w) as [after_job| ].
    - steps. right. eexists. reflexivity.
    - steps. unfold db_set_value. steps.
      unfold TaxpayerAuthenticate.request_otp. steps.
      match goal with
      | |- context [bind (TaxpayerBaseAPI.super_post ?j ?e) ?k ?w1] =>
          destruct (TaxpayerBaseAPI.super_post j e w1) as [[ack|err] w2] eqn:E
      end.
      + rewrite !(bind_Ok _ _ _ _ _ E).
        destruct (py_eq (dict_get ack "status_cd") (VInt 1)); cbn [negb].
        * steps. right. eexists. reflexivity.
        * left. reflexivity.
      + rewrite !(bind_Raise _ _ _ _ _ E). right. eexists. reflexivity. }
  assert (Hr : r = match fst a with
                   | Ok _ => (Raise AttributeError, snd a)
                   | Raise e => (Raise e, snd a)
                   end).
  { subst r. unfold TaxpayerBaseAPI._request.
    rewrite (bind_Ok _ _ _ _ _ Hnone). cbn [truthy negb orb]. fold a.
    unfold bind. fold a. destruct a as [[v|e] w1]; cbn [fst snd] in *.
    - destruct Ha as [[= ->] | [e Hf]]; [reflexivity | discriminate Hf].
    - reflexivity. }
  split; [exact Ha | ]. rewrite Hr.
  split; [destruct (fst a); reflexivity | ].
  split; [destruct (fst a); reflexivity | ].
  destruct (autheticate_with_otp_only_authenticates otp w) as (_ & _ & _ & Hlog).
  fold a in Hlog. destruct (fst a); exact Hlog.
Qed.

(** ** The decorator *)

(** X16. A function under [otp_handler] never raises [OTPRequestedError]
    or [InvalidOTPError]: it returns the response that the error carried.
    Every other result, returned or raised, passes as it is; the world is
    the one the function left; and decorating twice is decorating once. *)
Theorem otp_handler_absorbs (func : M value) (w : world) :
  snd (otp_handler func w) = snd (func w) /\
  (forall response,
      fst (otp_handler func w) <> Raise (OTPRequestedError response) /\
      fst (otp_handler func w) <> Raise (InvalidOTPError response)) /\
  (forall response,
      fst (func w) = Raise (OTPRequestedError response) \/
      fst (func w) = Raise (InvalidOTPError response) ->
      fst (otp_handler func w) = Ok (VDict response)) /\
  ((forall response, fst (func w) <> Raise (OTPRequestedError response)) ->
   (forall response, fst (func w) <> Raise (InvalidOTPError response)) ->
   otp_handler func w = func w) /\
  otp_handler (otp_handler func) w = otp_handler func w.
Proof.
  unfold otp_handler.
  destruct (func w) as [[v|[r|r| | | | | | ]] w1]; cbn [fst snd];
    (split; [reflexivity | ]);
    (split; [intros response; split; discriminate | ]);
    (split; [intros response [E | E]; try discriminate E;
             injection E as ->; reflexivity | ]);
    (split; [ | reflexivity]); intros H1 H2; try reflexivity.
  - exfalso. exact (H1 r eq_refl).
  - exfalso. exact (H2 r eq_refl).
Qed.

(** ** Submitting an OTP *)

(** X22. With an OTP, [autheticate_with_otp] posts AUTHTOKEN to
    [authenticate]: the payload carries the app key encrypted under the
    public certificate and the OTP encrypted under the app key, neither
    in clear; the processed response is returned once the marker of the
    authentication is in the cache. *)
Theorem autheticate_with_otp_request
    (w w1 : world) (otp certificate key_cipher otp_cipher : value) :
  let payload : pydict :=
    <["otp" := otp_cipher]>
      (<["username" := VStr (username w)]>
         (<["app_key" := key_cipher]> {["action" := VStr "AUTHTOKEN"]})) in
  let q := Request TaxpayerBaseAPI.BASE_PATH "post" "authenticate" None None
             (Some payload) in
  truthy otp = true ->
  truthy (app_key w) = true ->
  TaxpayerAuthenticate.get_public_certificate w = (Ok certificate, w1) ->
  encrypt_using_public_key (app_key w) certificate = Ok key_cipher ->
  aes_encrypt_data otp (app_key w) = Ok otp_cipher ->
  TaxpayerBaseAPI.autheticate_with_otp otp w
  = (raw <- transport q ;;
     response <- TaxpayerBaseAPI.process_response raw ;;
     gstin <- gets company_gstin ;;
     cache_set_value ("authenticated_gstin:" ++ gstin) (VBool true) (60 * 15) ;;
     ret (VDict response)) w1.
Proof.
  intros payload q Hotp Hkey Hcert Hkc Hoc.
  assert (Hsame : app_key w1 = app_key w).
  { pose proof (get_public_certificate_only_fetches w) as Hf.
    rewrite Hcert in Hf. apply Hf. }
  unfold TaxpayerBaseAPI.autheticate_with_otp,
    TaxpayerAuthenticate.autheticate_with_otp.
  rewrite Hotp. cbn [negb]. steps.
  set (plain := <["otp" := otp]>
                  (<["username" := VStr (username w)]>
                     (<["app_key" := app_key w]>
                        {["action" := VStr "AUTHTOKEN"]}))).
  assert (E1 : dict_get plain "app_key" = app_key w)
    by (unfold plain; lookups; reflexivity).
  assert (E2 : dict_get plain "action" = VStr "AUTHTOKEN")
    by (unfold plain; lookups; reflexivity).
  assert (E3 : dict_get (<["app_key" := key_cipher]> plain) "otp" = otp)
    by (unfold plain; lookups; reflexivity).
  assert (E4 : dict_get (<["otp" := otp_cipher]> (<["app_key" := key_cipher]> plain))
                 "data" = VNone)
    by (unfold plain; lookups; reflexivity).
  assert (E5 : <["otp" := otp_cipher]> (<["app_key" := key_cipher]> plain) = payload).
  { unfold plain, payload. apply map_eq. intros k.
    destruct (decide (k = "otp")) as [->|]; [lookups; reflexivity | ].
    destruct (decide (k = "username")) as [->|]; [lookups; reflexivity | ].
    destruct (decide (k = "app_key")) as [->|]; [lookups; reflexivity | ].
    rewrite !lookup_insert_ne by congruence. reflexivity. }
  assert (Hbefore : TaxpayerBaseAPI.before_request (Some plain) w
                    = (Ok (Some payload), w1)).
  { unfold TaxpayerBaseAPI.before_request, TaxpayerBaseAPI.encrypt_request,
      TaxpayerAuthenticate.encrypt_request.
    assert (Hplain : truthy (VDict plain) = true) by apply insert_truthy.
    rewrite !Hplain. cbn [negb].
    rewrite E1, Hkey, E2. cbn [py_eq String.eqb Ascii.eqb Bool.eqb].
    steps. rewrite (bind_Ok _ _ _ _ _ Hcert). rewrite Hkc. steps.
    rewrite E3, Hotp. steps. rewrite Hsame, Hoc. steps.
    rewrite E4, E5. reflexivity. }
  unfold TaxpayerBaseAPI.super_post, TaxpayerBaseAPI.super_method.
  cbn [existsb String.eqb Ascii.eqb Bool.eqb orb]. unfold BaseAPI_make_request.
  steps. rewrite (bind_Ok _ _ _ _ _ Hbefore). fold q.
  rewrite bind_assoc. reflexivity.
Qed.

(** ** The pipeline, request by request *)

(** A request handed to the transport is in the log, whatever follows. *)
Lemma transport_log {A} (q : request) (k : pydict -> M A) (w : world) :
  (forall raw, preserves only_authenticates (k raw)) ->
  exists after,
    sent (snd (bind (transport q) k w)) = (sent w ++ [q] ++ after)%list /\
    Forall header_less after.
Proof.
  intros Hk. unfold bind, transport. cbv zeta.
  destruct (snd (gateway (sent w) q)) as [raw|e]; cbv beta iota.
  - match goal with
    | |- context [k raw ?w1] =>
        destruct (Hk raw w1) as (_ & _ & _ & after & E & F)
    end.
    cbn [sent set_now_sent] in E.
    exists after. split; [ | exact F]. rewrite E, <- app_assoc. reflexivity.
  - exists []. split; [reflexivity | constructor].
Qed.

(** A payload without data keeps its fields through [before_request],
    [app_key] and [otp] apart. *)
Lemma before_request_keeps_fields (j : pydict) (json' : option pydict)
    (w w1 : world) :
  TaxpayerBaseAPI.before_request (Some j) w = (Ok json', w1) ->
  truthy (dict_get j "data") = false ->
  exists j',
    json' = Some j' /\
    forall k, k <> "app_key" -> k <> "otp" -> j' !! k = j !! k.
Proof.
  intros E Hdata. unfold TaxpayerBaseAPI.before_request in E.
  destruct (encrypt_request_stages _ _ _ _ E) as (j1 & j' & E1 & -> & Hstage).
  destruct (encrypt_request_fields _ _ _ _ E1) as (_ & j0 & [= <-] & Hsame & _).
  assert (Hget : dict_get j1 "data" = dict_get j "data")
    by (unfold dict_get; rewrite Hsame by discriminate; reflexivity).
  rewrite Hget, Hdata in Hstage. subst j'.
  exists j1. split; [reflexivity | exact Hsame].
Qed.

(** Without an OTP, inside a job and outside it. *)
Lemma reauthentication_in_job (w : world) (otp : value)
    (after_job : list callback) :
  truthy otp = false ->
  job w = Some after_job ->
  TaxpayerBaseAPI.autheticate_with_otp otp w
  = (Raise InvalidAuthTokenError,
     set_job (Some (after_job
                    ++ [bound_reset_auth_token (company_gstin w) (username w)])%list)
       w).
Proof.
  intros Hotp Hjob.
  unfold TaxpayerBaseAPI.autheticate_with_otp,
    TaxpayerAuthenticate.autheticate_with_otp.
  rewrite Hotp. cbn [negb]. steps. rewrite Hjob. steps. reflexivity.
Qed.

Lemma reauthentication_outside_job (w : world) (otp : value) :
  truthy otp = false ->
  job w = None ->
  TaxpayerBaseAPI.autheticate_with_otp otp w
  = TaxpayerBaseAPI.request_otp
      (set_auth_token VNone (set_db (clear_token (self_filters w) <$> db w) w)).
Proof.
  intros Hotp Hjob.
  unfold TaxpayerBaseAPI.autheticate_with_otp,
    TaxpayerAuthenticate.autheticate_with_otp.
  rewrite Hotp. cbn [negb]. steps. rewrite Hjob. steps.
  unfold db_set_value. steps. reflexivity.
Qed.

(** Once its payload is encrypted, [request_otp] posts it to
    [authenticate]: the action is OTPREQUEST, the request is in the log,
    and what follows is the processing of the reply. *)
Lemma request_otp_posts (w w1 : world) (json' : option pydict) :
  TaxpayerBaseAPI.before_request (Some (otp_request_payload w)) w = (Ok json', w1) ->
  let q := Request TaxpayerBaseAPI.BASE_PATH "post" "authenticate" None None
             json' in
  TaxpayerBaseAPI.request_otp w
  = (raw <- transport q ;;
     response <- TaxpayerBaseAPI.process_response raw ;;
     if negb (py_eq (dict_get response "status_cd") (VInt 1)) then ret VNone
     else
       gstin <- gets company_gstin ;;
       raise (OTPRequestedError
                (<["gstin" := VStr gstin]>
                   (<["error_type" := VStr "otp_requested"]> response)))) w1 /\
  (exists j',
      json' = Some j' /\
      dict_get j' "action" = VStr "OTPREQUEST" /\
      dict_get j' "username" = VStr (username w)) /\
  exists before after,
    sent (snd (TaxpayerBaseAPI.request_otp w))
    = (sent w ++ before ++ [q] ++ after)%list /\
    Forall header_less before /\ Forall header_less after.
Proof.
  intros Hbefore q.
  assert (E : TaxpayerBaseAPI.request_otp w
              = (raw <- transport q ;;
                 response <- TaxpayerBaseAPI.process_response raw ;;
                 if negb (py_eq (dict_get response "status_cd") (VInt 1))
                 then ret VNone
                 else
                   gstin <- gets company_gstin ;;
                   raise (OTPRequestedError
                            (<["gstin" := VStr gstin]>
                               (<["error_type" := VStr "otp_requested"]>
                                  response)))) w1).
  { unfold TaxpayerBaseAPI.request_otp, TaxpayerAuthenticate.request_otp.
    steps. fold (otp_request_payload w).
    unfold TaxpayerBaseAPI.super_post, TaxpayerBaseAPI.super_method.
    cbn [existsb String.eqb Ascii.eqb Bool.eqb orb]. unfold BaseAPI_make_request.
    steps. rewrite (bind_Ok _ _ _ _ _ Hbefore). fold q.
    rewrite bind_assoc. reflexivity. }
  split; [exact E | ]. split.
  - destruct (before_request_keeps_fields _ _ _ _ Hbefore eq_refl)
      as (j' & -> & Hsame).
    exists j'. split; [reflexivity | ].
    unfold dict_get. rewrite !Hsame by discriminate.
    unfold otp_request_payload. split; lookups; reflexivity.
  - pose proof (before_request_only_fetches (Some (otp_request_payload w)) w) as Hf.
    rewrite Hbefore in Hf.
    destruct Hf as (_&_&_&_&_&_&_&_&_&_&_&_& before & Eb & Fb).
    cbn [snd] in Eb. rewrite E.
    match goal with
    | |- context [bind (transport q) ?k w1] =>
        destruct (transport_log q k w1) as (after & Ea & Fa)
    end.
    { intros raw. frame. }
    exists before, after. split; [ | split; assumption].
    rewrite Ea, Eb, <- !app_assoc. reflexivity.
Qed.

(** C8. Without an OTP, inside a job [autheticate_with_otp] only appends
    the bound [reset_auth_token] to the job's [after_job] and raises
    [InvalidAuthTokenError]: the stored token, the attribute and the log
    are as before, and the reset happens when the callback is run.
    Outside a job the token of the taxpayer's rows and the attribute are
    cleared at once and the call continues as [request_otp]: once the
    payload is encrypted, one OTPREQUEST is posted to [authenticate],
    and the outcome of the call is what becomes of its reply. *)
Theorem autheticate_without_otp (w : world) (otp : value) :
  truthy otp = false ->
  (forall after_job,
      job w = Some after_job ->
      let callback := bound_reset_auth_token (company_gstin w) (username w) in
      TaxpayerBaseAPI.autheticate_with_otp otp w
      = (Raise InvalidAuthTokenError,
         set_job (Some (after_job ++ [callback])%list) w) /\
      (forall w', db (snd (run_callback callback w'))
                  = clear_token (self_filters w) <$> db w')) /\
  (job w = None ->
   let w1 := set_auth_token VNone
               (set_db (clear_token (self_filters w) <$> db w) w) in
   TaxpayerBaseAPI.autheticate_with_otp otp w = TaxpayerBaseAPI.request_otp w1 /\
   auth_token w1 = VNone /\
   (forall i row,
       db w !! i = Some row ->
       row_matches (self_filters w) row = true ->
       exists row', db w1 !! i = Some row' /\ row' !! "auth_token" = Some VNone) /\
   forall json' w2,
     TaxpayerBaseAPI.before_request (Some (otp_request_payload w)) w1
     = (Ok json', w2) ->
     let q := Request TaxpayerBaseAPI.BASE_PATH "post" "authenticate" None None
                json' in
     TaxpayerBaseAPI.autheticate_with_otp otp w
     = (raw <- transport q ;;
        response <- TaxpayerBaseAPI.process_response raw ;;
        if negb (py_eq (dict_get response "status_cd") (VInt 1)) then ret VNone
        else
          gstin <- gets company_gstin ;;
          raise (OTPRequestedError
                   (<["gstin" := VStr gstin]>
                      (<["error_type" := VStr "otp_requested"]> response)))) w2 /\
     (exists j',
         json' = Some j' /\
         dict_get j' "action" = VStr "OTPREQUEST" /\
         dict_get j' "username" = VStr (username w)) /\
     exists before after,
       sent (snd (TaxpayerBaseAPI.autheticate_with_otp otp w))
       = (sent w ++ before ++ [q] ++ after)%list /\
       Forall header_less before /\ Forall header_less after).
Proof.
  intros Hotp. split.
  - intros after_job Hjob. split.
    + apply reauthentication_in_job; assumption.
    + intros w'. unfold run_callback,
        TaxpayerAuthenticate.reset_auth_token_of, db_set_value, db_commit.
      run. destruct (in_test w'); reflexivity.
  - intros Hjob. cbv zeta.
    pose proof (reauthentication_outside_job w otp Hotp Hjob) as E.
    split; [exact E | ]. split; [reflexivity | ]. split.
    + intros i row Hrow Hmatch. simpl.
      rewrite list_lookup_fmap, Hrow. simpl. unfold clear_token. rewrite Hmatch.
      eexists. split; [reflexivity | ].
      apply lookup_union_Some_l. apply lookup_singleton_eq.
    + intros json' w2 Hbefore. rewrite E.
      exact (request_otp_posts _ w2 json' Hbefore).
Qed.

(** C1, as amended.  When [_request] gets as far as the business request
    and the response to it is classified [authorization_failed], the rest
    of the call is one [autheticate_with_otp()] without an OTP, whose
    outcome (value or exception) is the outcome of the call, and during
    the whole call the business request was sent once: every other
    request of the call is without headers.  Inside a job nothing is
    sent after the business request: the reset of the token is queued and
    [InvalidAuthTokenError] is raised.  Outside a job the token is cleared
    and, once its payload is encrypted, one OTPREQUEST is posted to
    [authenticate]; the outcome of the call is what becomes of the reply
    to it. *)
Theorem authorization_failure_reauthenticates_once
    (method : string) (action return_type return_period : value)
    (params : option pydict) (endpoint : string) (json : option pydict)
    (otp : value) (w : world) (token : value) (w1 : world)
    (response : pydict) (w2 : world) :
  let request_params := Some (default ∅ params ∪ {["action" := action]}) in
  let request_headers :=
    TaxpayerBaseAPI.request_headers token return_type return_period in
  let call := TaxpayerBaseAPI._request method action return_type return_period
                params endpoint json otp w in
  reaches_request otp w token w1 ->
  TaxpayerBaseAPI.super_method method request_params (Some request_headers)
    json endpoint w1 = (Ok response, w2) ->
  py_eq (dict_get response "error_type") (VStr "authorization_failed") = true ->
  call = TaxpayerBaseAPI.autheticate_with_otp VNone w2 /\
  (exists before json' after,
      sent (snd call)
      = (sent w ++ before
         ++ [Request TaxpayerBaseAPI.BASE_PATH method endpoint request_params
               (Some request_headers) json']
         ++ after)%list /\
      Forall header_less before /\ Forall header_less after) /\
  (forall after_job,
      job w2 = Some after_job ->
      call = (Raise InvalidAuthTokenError,
              set_job (Some (after_job
                             ++ [bound_reset_auth_token (company_gstin w2)
                                   (username w2)])%list) w2) /\
      sent (snd call) = sent w2) /\
  (job w2 = None ->
   forall payload' w4,
     TaxpayerBaseAPI.before_request (Some (otp_request_payload w2))
       (set_auth_token VNone
          (set_db (clear_token (self_filters w2) <$> db w2) w2))
     = (Ok payload', w4) ->
     let q := Request TaxpayerBaseAPI.BASE_PATH "post" "authenticate" None None
                payload' in
     call
     = (raw <- transport q ;;
        response <- TaxpayerBaseAPI.process_response raw ;;
        if negb (py_eq (dict_get response "status_cd") (VInt 1)) then ret VNone
        else
          gstin <- gets company_gstin ;;
          raise (OTPRequestedError
                   (<["gstin" := VStr gstin]>
                      (<["error_type" := VStr "otp_requested"]> response)))) w4 /\
     (exists j',
         payload' = Some j' /\
         dict_get j' "action" = VStr "OTPREQUEST" /\
         dict_get j' "username" = VStr (username w2)) /\
     exists between after,
       sent (snd call) = (sent w2 ++ between ++ [q] ++ after)%list /\
       Forall header_less between /\ Forall header_less after).
Proof.
  intros request_params request_headers call Hreach Hsend Hfailed.
  assert (E : call = TaxpayerBaseAPI.autheticate_with_otp VNone w2).
  { unfold call. rewrite (request_reaches _ _ _ _ _ _ _ _ _ _ _ Hreach).
    unfold TaxpayerBaseAPI.send_request. fold request_params request_headers.
    rewrite (bind_Ok _ _ _ _ _ Hsend), Hfailed. reflexivity. }
  split; [exact E | ]. rewrite E. split; [ | split].
  - destruct (reaches_request_log _ _ _ _ Hreach) as (_&_&_& l0 & E0 & F0).
    destruct (super_method_log _ _ _ _ _ _ _ _ Hsend)
      as (l1 & json' & l2 & E1 & F1 & F2).
    destruct (autheticate_with_otp_only_authenticates VNone w2)
      as (_&_&_& l3 & E3 & F3).
    exists (l0 ++ l1)%list, json', (l2 ++ l3)%list. split.
    + rewrite E3, E1, E0, <- !app_assoc. reflexivity.
    + split; apply Forall_app; split; assumption.
  - intros after_job Hjob.
    rewrite (reauthentication_in_job w2 VNone after_job eq_refl Hjob).
    split; reflexivity.
  - intros Hjob payload' w4 Hbefore.
    rewrite (reauthentication_outside_job w2 VNone eq_refl Hjob).
    exact (request_otp_posts _ w4 payload' Hbefore).
Qed.

(** C10. With no valid token and an OTP supplied, once the in-line
    authentication has returned a response that is neither [otp_requested]
    nor [invalid_otp] and the payload is encrypted, the business request
    is sent, with the headers built from the token resolved before the
    authentication, which is [None]: its [auth-token] header is present,
    is [None] and is not the token of the authentication response.  It
    is the only request of the call that has headers. *)
Theorem request_after_otp_sends_no_token
    (method : string) (action return_type return_period : value)
    (params : option pydict) (endpoint : string) (json json' : option pydict)
    (otp : value) (w : world) (response : pydict) (w1 w2 : world) :
  let request_headers :=
    TaxpayerBaseAPI.request_headers VNone return_type return_period in
  let q := Request TaxpayerBaseAPI.BASE_PATH method endpoint
             (Some (default ∅ params ∪ {["action" := action]}))
             (Some request_headers) json' in
  let call := TaxpayerBaseAPI._request method action return_type return_period
                params endpoint json otp w in
  existsb (String.eqb method) ["get"; "post"; "put"] = true ->
  TaxpayerBaseAPI.get_auth_token w = (Ok VNone, w) ->
  truthy otp = true ->
  TaxpayerBaseAPI.autheticate_with_otp otp w = (Ok (VDict response), w1) ->
  in_strs (dict_get response "error_type") ["otp_requested"; "invalid_otp"]
  = false ->
  TaxpayerBaseAPI.before_request json w1 = (Ok json', w2) ->
  call = TaxpayerBaseAPI.send_request method action params request_headers
           endpoint json w1 /\
  call = (raw <- transport q ;;
          reply <- TaxpayerBaseAPI.process_response raw ;;
          if py_eq (dict_get reply "error_type") (VStr "authorization_failed")
          then TaxpayerBaseAPI.autheticate_with_otp VNone
          else ret (VDict reply)) w2 /\
  request_headers !! "auth-token" = Some VNone /\
  (truthy (dict_get response "auth_token") = true ->
   request_headers !! "auth-token" <> Some (dict_get response "auth_token")) /\
  exists before after,
    sent (snd call) = (sent w ++ before ++ [q] ++ after)%list /\
    Forall header_less before /\ Forall header_less after.
Proof.
  intros request_headers q call Hmethod Htoken Hotp Hauth Htype Hbefore.
  assert (Hreach : reaches_request otp w VNone w1).
  { split; [exact Htoken | ]. simpl. exists response. split; assumption. }
  assert (E := request_reaches method action return_type return_period params
                 endpoint json otp w VNone w1 Hreach).
  fold request_headers call in E.
  assert (Hheader : request_headers !! "auth-token" = Some VNone).
  { unfold request_headers, TaxpayerBaseAPI.request_headers.
    destruct (truthy return_type), (truthy return_period);
      rewrite ?lookup_insert_ne by discriminate;
      apply lookup_singleton_eq. }
  assert (Erun : call
                 = (raw <- transport q ;;
                    reply <- TaxpayerBaseAPI.process_response raw ;;
                    if py_eq (dict_get reply "error_type")
                         (VStr "authorization_failed")
                    then TaxpayerBaseAPI.autheticate_with_otp VNone
                    else ret (VDict reply)) w2).
  { rewrite E. unfold TaxpayerBaseAPI.send_request, TaxpayerBaseAPI.super_method.
    rewrite Hmethod. unfold BaseAPI_make_request. steps.
    rewrite (bind_Ok _ _ _ _ _ Hbefore). fold q. rewrite bind_assoc. reflexivity. }
  split; [exact E | ]. split; [exact Erun | ]. split; [exact Hheader | ]. split.
  { intros Hnew Hsame. rewrite Hheader in Hsame. injection Hsame as Hsame.
    rewrite <- Hsame in Hnew. discriminate Hnew. }
  destruct (reaches_request_log _ _ _ _ Hreach) as (_&_&_& l0 & E0 & F0).
  pose proof (before_request_only_fetches json w1) as Hf.
  rewrite Hbefore in Hf.
  destruct Hf as (_&_&_&_&_&_&_&_&_&_&_&_& l1 & E1 & F1). cbn [snd] in E1.
  rewrite Erun.
  match goal with
  | |- context [bind (transport q) ?k w2] =>
      destruct (transport_log q k w2) as (after & Ea & Fa)
  end.
  { intros raw. apply preserves_bind; [auto with frames | intros reply].
    destruct (py_eq (dict_get reply "error_type") (VStr "authorization_failed"));
      [apply autheticate_with_otp_only_authenticates | apply preserves_ret]. }
  exists (l0 ++ l1)%list, after. split.
  - rewrite Ea, E1, E0, <- !app_assoc. reflexivity.
  - split; [apply Forall_app; split; assumption | exact Fa].
Qed.

End Properties.

(** ** Files and stored credentials *)

Section FileProperties.
Context `{Collaborators} `{FileCollaborators}.

(** X18. A file is decrypted only after its hash has been checked: when
    the SHA-256 of the content is not the hash of the row,
    [process_response] fails with the message that names the URL, and
    whatever it returns is the parsed JSON of the decoded plaintext of a
    content whose hash matched.  The world is left as it was. *)
Theorem file_hash_is_checked_first
    (encryption_key hash ul response computed : value) (w : world) :
  hash_sha256 response = Ok computed ->
  (py_eq computed hash = false ->
   FilesAPI.process_response encryption_key hash ul response w
   = (Raise (ValidationError
               (VStr ("Hash of file doesn't match for " ++ py_str ul
                      ++ ". File may be corrupted or tampered."))
               None),
      w)) /\
  (forall data w',
      FilesAPI.process_response encryption_key hash ul response w = (Ok data, w') ->
      w' = w /\
      py_eq computed hash = true /\
      exists encrypted plain decoded,
        tar_gz_bytes_to_data response = Ok encrypted /\
        aes_decrypt_data encrypted encryption_key = Ok plain /\
        b64decode plain = Ok (VBytes decoded) /\
        json_loads (VStr decoded) = Ok data).
Proof.
  intros Hhash. unfold FilesAPI.process_response. rewrite Hhash. steps. split.
  - intros Hdiffer. rewrite Hdiffer. reflexivity.
  - intros data w'. destruct (py_eq computed hash); cbn [negb]; [ | discriminate].
    unfold FilesAPI.decrypt_data. intros E.
    apply bind_Ok_inv in E as (encrypted & w1 & Ee & E).
    unfold lift in Ee. injection Ee as Ee <-.
    apply bind_Ok_inv in E as (text & w1 & Ed & E).
    apply bind_Ok_inv in Ed as (plain & w2 & Ep & Ed).
    unfold lift in Ep. injection Ep as Ep <-.
    apply bind_Ok_inv in Ed as (decoded & w2 & Eb & Ed).
    unfold lift in Eb. injection Eb as Eb <-.
    destruct decoded as [ | | | |s| | | ]; try discriminate Ed.
    injection Ed as <- <-.
    unfold lift in E. injection E as E <-.
    split; [reflexivity | ]. split; [reflexivity | ].
    exists encrypted, plain, s. repeat split; assumption.
Qed.

Lemma file_process_response_pure (encryption_key hash ul response : value) :
  preserves eq (FilesAPI.process_response encryption_key hash ul response).
Proof. unfold FilesAPI.process_response, FilesAPI.decrypt_data. frame. Qed.

(** The log after one [FilesAPI.get], whatever its outcome. *)
Lemma file_get_log (encryption_key hash ul : value) (w : world) :
  sent (snd (FilesAPI.get encryption_key hash ul w))
  = (sent w ++ ul_request ul)%list.
Proof.
  unfold FilesAPI.get.
  destruct ul; try (cbn [raise snd ul_request]; rewrite app_nil_r; reflexivity).
  unfold bind, FilesAPI.file_transport. cbn [ul_request].
  destruct (snd (file_gateway _ _)) as [content|e]; [ | reflexivity].
  match goal with
  | |- context [FilesAPI.process_response ?k ?h ?u ?c ?w1] =>
      rewrite <- (file_process_response_pure k h u c w1)
  end.
  reflexivity.
Qed.

(** The loop of [get_all]: the requests sent are those of the first rows,
    of all of them when it returns; a hash that does not match stops it. *)
Lemma get_rows_log
    (encryption_key : value) (rows : list value) (response : value) (w : world) :
  let r := FilesAPI.get_rows encryption_key rows response w in
  (exists n,
      (n <= length rows)%nat /\
      sent (snd r) = (sent w ++ concat (file_request <$> take n rows))%list /\
      (forall v, fst r = Ok v -> n = length rows)) /\
  (forall d endpoint rest content computed,
      rows = VDict d :: rest ->
      dict_get d "ul" = VStr endpoint ->
      let q := Request FilesAPI.BASE_PATH "get" endpoint None None None in
      snd (file_gateway (sent w) q) = Ok content ->
      hash_sha256 content = Ok computed ->
      py_eq computed (dict_get d "hash") = false ->
      (exists e, fst r = Raise e) /\ sent (snd r) = (sent w ++ [q])%list).
Proof.
  cbv zeta. split.
  - revert response w. induction rows as [ | row rest IH]; intros response w.
    + exists 0%nat. cbn. rewrite app_nil_r. auto.
    + cbn [FilesAPI.get_rows].
      destruct row as [ | | | | | | |d];
        try (exists 0%nat; cbn; rewrite app_nil_r;
             repeat split; [lia | discriminate]).
      cbn [value_get]. steps.
      pose proof (file_get_log encryption_key (dict_get d "hash")
                    (dict_get d "ul") w) as Hlog.
      destruct (FilesAPI.get encryption_key (dict_get d "hash")
                  (dict_get d "ul") w) as [[data|e] w1] eqn:Eget;
        cbn [snd] in Hlog.
      2:{ rewrite (bind_Raise _ _ _ _ _ Eget). exists 1%nat.
          cbn [length take fmap list_fmap concat file_request snd fst].
          rewrite app_nil_r. repeat split; [lia | exact Hlog | discriminate]. }
      rewrite (bind_Ok _ _ _ _ _ Eget).
      assert (Hnext : forall response',
                 exists n,
                   (n <= length (VDict d :: rest))%nat /\
                   sent (snd (FilesAPI.get_rows encryption_key rest response' w1))
                   = (sent w ++ concat (file_request <$> take n (VDict d :: rest)))%list /\
                   (forall v,
                       fst (FilesAPI.get_rows encryption_key rest response' w1) = Ok v ->
                       n = length (VDict d :: rest))).
      { intros response'. destruct (IH response' w1) as (n & Hn & Hsent & Hall).
        exists (S n). cbn [length take fmap list_fmap concat file_request].
        split; [lia | ]. split.
        - rewrite Hsent, Hlog, <- app_assoc. reflexivity.
        - intros v Hv. rewrite (Hall v Hv). reflexivity. }
      destruct (truthy response); cbn [negb].
      * destruct (merge_dicts response data) as [merged|e] eqn:Em.
        -- steps. apply Hnext.
        -- steps. exists 1%nat.
           cbn [length take fmap list_fmap concat file_request snd fst].
           rewrite app_nil_r. repeat split; [lia | exact Hlog | discriminate].
      * steps. apply Hnext.
  - intros d endpoint rest content computed -> Hul Hreply Hhash Hdiffer.
    set (q := Request FilesAPI.BASE_PATH "get" endpoint None None None) in *.
    cbn [FilesAPI.get_rows value_get]. steps. rewrite Hul.
    assert (Eget : FilesAPI.get encryption_key (dict_get d "hash") (VStr endpoint) w
                   = (Raise (ValidationError
                               (VStr ("Hash of file doesn't match for "
                                      ++ py_str (VStr endpoint)
                                      ++ ". File may be corrupted or tampered."))
                               None),
                      set_now_sent (now w + Z.of_N (fst (file_gateway (sent w) q)))
                        (sent w ++ [q]) w)).
    { unfold FilesAPI.get, bind, FilesAPI.file_transport. fold q.
      rewrite Hreply. unfold FilesAPI.process_response.
      rewrite Hhash. steps. rewrite Hdiffer. reflexivity. }
    rewrite (bind_Raise _ _ _ _ _ Eget). split; [eexists | ]; reflexivity.
Qed.

(** X19. [get_all] decodes the key before anything is sent, then fetches
    the files in the order of the rows, one request each, and stops at
    the first row that fails: the requests it has sent are those of the
    first rows, and of all the rows when it returns.  A hash that does
    not match is such a failure: the rows after it are not fetched. *)
Theorem get_all_fetches_in_order
    (url_details : pydict) (rows : list value) (w : world) :
  let r := FilesAPI.get_all (VDict url_details) w in
  dict_get url_details "urls" = VList rows ->
  (forall e, b64decode (dict_get url_details "ek") = Raise e -> r = (Raise e, w)) /\
  (forall encryption_key,
      b64decode (dict_get url_details "ek") = Ok encryption_key ->
      (exists n,
          (n <= length rows)%nat /\
          sent (snd r) = (sent w ++ concat (file_request <$> take n rows))%list /\
          (forall v, fst r = Ok v -> n = length rows)) /\
      (forall d endpoint rest content computed,
          rows = VDict d :: rest ->
          dict_get d "ul" = VStr endpoint ->
          let q := Request FilesAPI.BASE_PATH "get" endpoint None None None in
          snd (file_gateway (sent w) q) = Ok content ->
          hash_sha256 content = Ok computed ->
          py_eq computed (dict_get d "hash") = false ->
          (exists e, fst r = Raise e) /\ sent (snd r) = (sent w ++ [q])%list)).
Proof.
  intros r Hurls. subst r. unfold FilesAPI.get_all. cbn [value_get]. steps. split.
  - intros e He. rewrite He. steps. reflexivity.
  - intros encryption_key Hkey. rewrite Hkey. steps. rewrite Hurls.
    cbn [py_iter]. steps. apply get_rows_log.
Qed.

(** [TaxpayerBaseAPI._fetch_credentials], run. *)
Lemma fetch_credentials_run (row : pydict) (w : world) (skey : value) :
  b64decode (py_or (dict_get row "session_key") (VStr "")) = Ok skey ->
  let loaded key w0 :=
    set_session_expiry (as_datetime (dict_get row "session_expiry"))
      (set_session_key skey
         (set_auth_token (dict_get row "auth_token") (set_app_key key w0))) in
  TaxpayerBaseAPI._fetch_credentials row w
  = (Ok tt,
     if truthy (dict_get row "app_key")
     then loaded (dict_get row "app_key") w
     else
       let key := VStr (generate_request_id w 32) in
       loaded key
         (set_db ((fun r => if row_matches (self_filters w) r
                            then {["app_key" := key]} ∪ r else r) <$> db w) w)).
Proof.
  intros Hkey loaded. unfold TaxpayerBaseAPI._fetch_credentials.
  destruct (truthy (dict_get row "app_key")).
  - steps. rewrite Hkey. steps. reflexivity.
  - unfold TaxpayerBaseAPI.generate_app_key, db_set_value. steps.
    rewrite Hkey. steps. reflexivity.
Qed.

(** X20. [_fetch_credentials] takes the token, the decoded session key
    and the expiry of the row.  The app key of the row is taken when
    there is one, and then the table is not written; otherwise a key is
    generated, taken, and stored in the rows of [self], whose other
    fields and the other rows stay. *)
Theorem fetch_credentials_loads_row (row : pydict) (w : world) (skey : value) :
  b64decode (py_or (dict_get row "session_key") (VStr "")) = Ok skey ->
  let r := TaxpayerBaseAPI._fetch_credentials row w in
  let w' := snd r in
  fst r = Ok tt /\
  auth_token w' = dict_get row "auth_token" /\
  session_key w' = skey /\
  session_expiry w' = as_datetime (dict_get row "session_expiry") /\
  if truthy (dict_get row "app_key")
  then app_key w' = dict_get row "app_key" /\ db w' = db w
  else
    app_key w' = VStr (generate_request_id w 32) /\
    forall i stored,
      db w !! i = Some stored ->
      db w' !! i
      = Some (if row_matches (self_filters w) stored
              then <["app_key" := app_key w']> stored else stored).
Proof.
  intros Hkey r w'. subst w' r.
  rewrite (fetch_credentials_run row w skey Hkey). cbv zeta. cbn [fst snd].
  destruct (truthy (dict_get row "app_key")).
  - repeat split.
  - repeat (split; [reflexivity | ]). intros i stored Hstored.
    cbn [db set_session_expiry set_session_key set_auth_token set_app_key set_db
           app_key].
    rewrite list_lookup_fmap, Hstored. cbn [fmap option_fmap option_map].
    destruct (row_matches (self_filters w) stored); [ | reflexivity].
    rewrite insert_union_singleton_l. reflexivity.
Qed.

(** X21. What a rotation stores is what the next object loads: after a
    response with a token, an expiry that can be added to the current
    time and a session key has been persisted, [_fetch_credentials] on
    the stored row of the taxpayer gives an object with the token, the
    session key and the expiry that the rotating object holds, provided
    base64 decodes what it encoded. *)
Theorem rotation_round_trip
    (response : pydict) (w w2 : world) (deadline : Z) (skey : value)
    (text : string) (i : nat) (row : pydict) :
  truthy (dict_get response "auth_token") = true ->
  truthy (dict_get response "expiry") = true ->
  truthy (dict_get response "sek") = true ->
  add_to_date (now w) (cint (dict_get response "expiry")) = Ok deadline ->
  aes_decrypt_data (dict_get response "sek") (app_key w) = Ok skey ->
  b64encode skey = Ok (VBytes text) ->
  b64decode (VStr text) = Ok skey ->
  db w !! i = Some row ->
  row_matches (self_filters w) row = true ->
  exists w1 row',
    TaxpayerAuthenticate.decrypt_response response w = (Ok response, w1) /\
    db w1 !! i = Some row' /\
    let r := TaxpayerBaseAPI._fetch_credentials row' w2 in
    fst r = Ok tt /\
    auth_token (snd r) = auth_token w1 /\
    session_key (snd r) = session_key w1 /\
    session_expiry (snd r) = session_expiry w1.
Proof.
  intros Htoken Hexpiry Hsek Hadd Hskey Hb64 Hround Hrow Hmatch.
  set (values := <["session_key" := VStr text]>
                   (<["session_expiry" := VDatetime deadline]>
                      (<["auth_token" := dict_get response "auth_token"]>
                         (∅ : pydict)))).
  eexists. exists (values ∪ row). split; [ | split].
  - unfold TaxpayerAuthenticate.decrypt_response.
    rewrite Htoken, Hexpiry, Hsek. steps.
    cbn [app_key now set_auth_token set_session_expiry]. rewrite Hadd. steps.
    cbn [app_key now set_auth_token set_session_expiry]. rewrite Hskey. steps.
    rewrite Hb64. steps. cbn [py_decode]. steps. fold values.
    assert (Hvalues : truthy (VDict values) = true) by apply insert_truthy.
    rewrite Hvalues. steps. unfold db_set_value. steps.
    unfold clear_document_cache. steps. reflexivity.
  - cbn [db set_cleared_document_cache set_db set_session_key
           set_session_expiry set_auth_token].
    rewrite list_lookup_fmap, Hrow. cbn [fmap option_fmap option_map].
    unfold self_filters in *.
    cbn [company_gstin username set_session_key set_session_expiry set_auth_token].
    rewrite Hmatch. reflexivity.
  - assert (Ekey : dict_get (values ∪ row) "session_key" = VStr text).
    { unfold dict_get. rewrite (lookup_union_Some_l _ _ _ (VStr text));
        [reflexivity | ]. unfold values. apply lookup_insert_eq. }
    assert (Etoken : dict_get (values ∪ row) "auth_token"
                     = dict_get response "auth_token").
    { unfold dict_get.
      rewrite (lookup_union_Some_l _ _ _ (dict_get response "auth_token"));
        [reflexivity | ].
      unfold values. rewrite !lookup_insert_ne by discriminate.
      apply lookup_insert_eq. }
    assert (Eexpiry : dict_get (values ∪ row) "session_expiry"
                      = VDatetime deadline).
    { unfold dict_get. erewrite lookup_union_Some_l; [reflexivity | ].
      unfold values. rewrite lookup_insert_ne by discriminate.
      apply lookup_insert_eq. }
    assert (Hload : b64decode (py_or (dict_get (values ∪ row) "session_key")
                                 (VStr "")) = Ok skey).
    { rewrite Ekey. unfold py_or. cbn [truthy].
      destruct (String.eqb_spec text ""); cbn [negb]; [subst text | ];
        exact Hround. }
    cbv zeta. rewrite (fetch_credentials_run _ w2 skey Hload). cbv zeta.
    cbn [fst snd]. rewrite Etoken, Eexpiry.
    destruct (truthy (dict_get (values ∪ row) "app_key")); repeat split.
Qed.

End FileProperties.

(** ** The financial year *)

Lemma get_fy_checked :
  forallb
    (fun n : nat =>
       let y := Z.of_nat n in
       String.eqb (TaxpayerBaseAPI.get_fy (TaxpayerBaseAPI.Date y 4 1))
         (py_str_int y ++ "-" ++ two_digits ((y + 1) mod 100))
       && Nat.eqb (String.length (TaxpayerBaseAPI.get_fy (TaxpayerBaseAPI.Date y 4 1))) 7)
    (seq (Z.to_nat 1000) (Z.to_nat 8999)) = true.
Proof. vm_compute. reflexivity. Qed.

(** X17. [get_fy] names the financial year that starts in April: the
    days from January to March belong to the year of the April before
    them.  For a year of four digits below 9999 the name is the year,
    a dash and the last two digits of the next year, seven characters. *)
Theorem get_fy_april_to_march (y m d : Z) :
  (forall m' d', m < 4 -> 4 <= m' ->
      TaxpayerBaseAPI.get_fy (TaxpayerBaseAPI.Date (y + 1) m d)
      = TaxpayerBaseAPI.get_fy (TaxpayerBaseAPI.Date y m' d')) /\
  (4 <= m -> 1000 <= y < 9999 ->
      TaxpayerBaseAPI.get_fy (TaxpayerBaseAPI.Date y m d)
      = py_str_int y ++ "-" ++ two_digits ((y + 1) mod 100) /\
      String.length (TaxpayerBaseAPI.get_fy (TaxpayerBaseAPI.Date y m d)) = 7%nat).
Proof.
  split.
  - intros m' d' Hm Hm'. unfold TaxpayerBaseAPI.get_fy.
    cbn [TaxpayerBaseAPI.month TaxpayerBaseAPI.year].
    destruct (Z.ltb_spec m 4); [ | lia]. destruct (Z.ltb_spec m' 4); [lia | ].
    replace (y + 1 - 1) with y by lia. reflexivity.
  - intros Hm Hy.
    assert (Hsame : TaxpayerBaseAPI.get_fy (TaxpayerBaseAPI.Date y m d)
                    = TaxpayerBaseAPI.get_fy (TaxpayerBaseAPI.Date y 4 1)).
    { unfold TaxpayerBaseAPI.get_fy.
      cbn [TaxpayerBaseAPI.month TaxpayerBaseAPI.year].
      destruct (Z.ltb_spec m 4); [lia | ]. reflexivity. }
    rewrite Hsame.
    pose proof get_fy_checked as Hall. rewrite forallb_forall in Hall.
    specialize (Hall (Z.to_nat y)).
    rewrite Z2Nat.id in Hall by lia.
    assert (Hin : In (Z.to_nat y) (seq (Z.to_nat 1000) (Z.to_nat 8999)))
      by (apply in_seq; lia).
    apply Hall in Hin. apply andb_prop in Hin as [E1 E2].
    apply String.eqb_eq in E1. apply Nat.eqb_eq in E2. split; assumption.
Qed.

(** * The properties at work on the demo gateway *)

(** Discharges the first hypothesis of [T] by evaluation. *)
Ltac by_evaluation T :=
  match type of T with
  | ?P -> _ =>
      let h := fresh "h" in
      assert (h : P) by (vm_compute; exact eq_refl);
      specialize (T h); clear h
  end.

Section Witnesses.
Import Demo.
#[local] Existing Instance Demo.collaborators.

(** A live token is returned, a token at its expiry is not. *)
Lemma get_auth_token_live_or_absent_witness :
  TaxpayerAuthenticate.get_auth_token live = (Ok (VStr "TOKEN-1"), live) /\
  TaxpayerAuthenticate.get_auth_token expired = (Ok VNone, expired).
Proof.
  split.
  - apply (proj1 (get_auth_token_live_or_absent live) 2000);
      [reflexivity | reflexivity | reflexivity].
  - apply (proj2 (get_auth_token_live_or_absent expired)).
    right. right. exists 1000. split; [reflexivity | discriminate].
Defined.

(** The gateway serves PEM-2: with PEM-1 cached it is stored, with PEM-2
    cached the refetch fails. *)
Lemma get_gstn_public_certificate_unchanged_or_stored_witness :
  fst (PublicCertificate.get_gstn_public_certificate VNone fresh)
  = Ok (VStr "PEM-2") /\
  fst (PublicCertificate.get_gstn_public_certificate VNone
         (set_gstn_public_certificate (VStr "PEM-2") fresh))
  = Raise (ValidationError (VStr "Public Certificate is already up to date") None).
Proof.
  split.
  - pose proof (get_gstn_public_certificate_unchanged_or_stored
                  (H := collaborators) fresh VNone
                  {["certificate" := VStr "PEM-2"]}) as T.
    cbv zeta in T. by_evaluation T. destruct T as [_ T]. by_evaluation T.
    rewrite T. reflexivity.
  - pose proof (get_gstn_public_certificate_unchanged_or_stored
                  (H := collaborators)
                  (set_gstn_public_certificate (VStr "PEM-2") fresh) VNone
                  {["certificate" := VStr "PEM-2"]}) as T.
    cbv zeta in T. by_evaluation T. destruct T as [T _]. by_evaluation T.
    rewrite T. reflexivity.
Defined.

(** A refresh is encrypted under the session key, an OTP submission
    under the certificate. *)
Lemma encrypt_request_app_key_witness :
  (exists j',
      TaxpayerAuthenticate.encrypt_request (Some refresh_payload) live
      = (Ok (Some j'), live) /\
      dict_get j' "app_key" = sealed "aes" (VStr "APPKEY") (VBytes "SESSION-1")) /\
  (exists j',
      TaxpayerAuthenticate.encrypt_request (Some otp_payload) live
      = (Ok (Some j'), live) /\
      dict_get j' "app_key" = sealed "rsa" (VStr "APPKEY") (VBytes "PEM-1")).
Proof.
  split.
  - pose proof (encrypt_request_app_key (H := collaborators) live refresh_payload) as T.
    by_evaluation T.
    assert (Hotp : truthy (dict_get refresh_payload "otp") = true ->
                   exists c, aes_encrypt_data (dict_get refresh_payload "otp")
                               (app_key live) = Ok c).
    { intros F. vm_compute in F. discriminate F. }
    destruct (T Hotp) as [T1 _].
    specialize (T1 (sealed "aes" (VStr "APPKEY") (VBytes "SESSION-1"))).
    by_evaluation T1. by_evaluation T1.
    destruct T1 as (j' & E & K & _). exists j'. split; assumption.
  - pose proof (encrypt_request_app_key (H := collaborators) live otp_payload) as T.
    by_evaluation T.
    assert (Hotp : truthy (dict_get otp_payload "otp") = true ->
                   exists c, aes_encrypt_data (dict_get otp_payload "otp")
                               (app_key live) = Ok c).
    { intros _. eexists. vm_compute. reflexivity. }
    destruct (T Hotp) as (_ & T2 & _).
    specialize (T2 (VBytes "PEM-1") live
                  (sealed "rsa" (VStr "APPKEY") (VBytes "PEM-1"))).
    by_evaluation T2. by_evaluation T2. by_evaluation T2.
    destruct T2 as (j' & E & K & _). exists j'. split; assumption.
Defined.

(** The token, the expiry and the session key of a grant reach the row
    of the taxpayer; a grant with an expiry beyond the last datetime
    raises and leaves the table. *)
Lemma decrypt_response_persists_rotation_witness :
  (exists w' row',
      TaxpayerAuthenticate.decrypt_response token_grant fresh = (Ok token_grant, w') /\
      db w' !! 0%nat = Some row' /\
      row' !! "auth_token" = Some (VStr "TOKEN-2") /\
      row' !! "session_expiry" = Some (VDatetime (1000 + 60 * 360)) /\
      row' !! "session_key" = Some (VStr "b64:SESSION-2")) /\
  (exists w',
      TaxpayerAuthenticate.decrypt_response endless_grant fresh
      = (Raise OverflowError, w') /\
      db w' = db fresh).
Proof.
  split.
  - pose proof (decrypt_response_persists_rotation (H := collaborators)
                  fresh token_grant) as T.
    cbv zeta in T. destruct T as [T _].
    specialize (T (1000 + 60 * 360) (VBytes "SESSION-2") "b64:SESSION-2").
    assert (Hexp : truthy (dict_get token_grant "expiry") = true ->
                   add_to_date (now fresh) (cint (dict_get token_grant "expiry"))
                   = Ok (1000 + 60 * 360)).
    { intros _. vm_compute. reflexivity. }
    assert (Hsek : truthy (dict_get token_grant "sek") = true ->
                   aes_decrypt_data (dict_get token_grant "sek") (app_key fresh)
                   = Ok (VBytes "SESSION-2") /\
                   b64encode (VBytes "SESSION-2") = Ok (VBytes "b64:SESSION-2")).
    { intros _. split; vm_compute; reflexivity. }
    destruct (T Hexp Hsek) as (w' & E & _ & _ & _ & _ & Hrows).
    specialize (Hrows 0%nat (credential VNone)).
    by_evaluation Hrows. by_evaluation Hrows.
    destruct Hrows as (row' & Hrow & Htok & Hdeadline & Hkey).
    by_evaluation Htok. by_evaluation Hdeadline. by_evaluation Hkey.
    exists w', row'. repeat split; assumption.
  - pose proof (decrypt_response_persists_rotation (H := collaborators)
                  fresh endless_grant) as T.
    cbv zeta in T. destruct T as [_ T]. specialize (T OverflowError).
    do 2 by_evaluation T. destruct T as (w' & E & Hdb & _).
    exists w'. split; assumption.
Defined.

Lemma forged_reply_differs : hmac_differs forged_reply live.
Proof.
  exists (VBytes "REK"), (VBytes "b64:payload"),
    (sealed "hmac" (VBytes "b64:payload") (VBytes "REK")).
  repeat split; vm_compute; reflexivity.
Defined.

Lemma forged_grant_differs : hmac_differs forged_grant live.
Proof.
  exists (VBytes "REK"), (VBytes "b64:payload"),
    (sealed "hmac" (VBytes "b64:payload") (VBytes "REK")).
  repeat split; vm_compute; reflexivity.
Qed.

(** A forged HMAC on business data is fatal. *)
Lemma decrypt_response_hmac_mismatch_is_fatal_witness :
  TaxpayerBaseAPI.decrypt_response forged_reply live
  = (Raise (ValidationError (VStr "HMAC mismatch") None), live).
Proof.
  pose proof (decrypt_response_hmac_mismatch_is_fatal (H := collaborators)
                live forged_reply) as T.
  do 3 by_evaluation T. exact (proj1 (T forged_reply_differs)).
Defined.

(** C2, the claim as stated, is false: "every response that carries data
    and an hmac whose recomputed HMAC differs makes [decrypt_response]
    fail".  The response [forged_grant] carries the data and the forged
    hmac of [forged_reply] and an [auth_token] too; its recomputed HMAC
    differs, and [decrypt_response] stores the token and returns the
    response without looking at the HMAC. *)
Lemma decrypt_response_token_skips_hmac :
  ~ (forall (C : Collaborators) (w : world) (response : pydict),
        truthy (dict_get response "data") = true ->
        truthy (dict_get response "hmac") = true ->
        hmac_differs response w ->
        exists e w', TaxpayerBaseAPI.decrypt_response response w = (Raise e, w')).
Proof.
  intros Hclaim.
  destruct (Hclaim collaborators live forged_grant eq_refl eq_refl
              forged_grant_differs) as (e & w' & E).
  assert (Hrun : fst (TaxpayerBaseAPI.decrypt_response forged_grant live)
                 = Ok forged_grant) by (vm_compute; reflexivity).
  rewrite E in Hrun. discriminate Hrun.
Qed.

(** The code XYZ999 is fatal, with the gateway's message. *)
Lemma unrecognized_error_is_fatal_witness :
  TaxpayerBaseAPI.process_response unknown_failure live
  = (Raise (ValidationError (VStr "Unknown failure") (Some "API Request Failed")),
     live).
Proof.
  pose proof (unrecognized_error_is_fatal (H := collaborators) unknown_failure
                (<["message" := VStr "Unknown failure"]>
                   {["error_cd" := VStr "XYZ999"]})) as T.
  do 3 by_evaluation T. cbv zeta in T.
  destruct T as (_ & T & _). rewrite T. vm_compute. reflexivity.
Defined.

(** In a job the reset is queued; outside it the row is cleared and an
    OTPREQUEST is posted. *)
Lemma autheticate_without_otp_witness :
  TaxpayerBaseAPI.autheticate_with_otp VNone in_job
  = (Raise InvalidAuthTokenError,
     set_job (Some [bound_reset_auth_token "24AAAAA0000A1Z5" "user"]) in_job) /\
  TaxpayerBaseAPI.autheticate_with_otp VNone live
  = TaxpayerBaseAPI.request_otp
      (set_auth_token VNone
         (set_db (clear_token (self_filters live) <$> db live) live)) /\
  exists j' before after,
    sent (snd (TaxpayerBaseAPI.autheticate_with_otp VNone live))
    = (sent live ++ before
       ++ [Request TaxpayerBaseAPI.BASE_PATH "post" "authenticate" None None
             (Some j')]
       ++ after)%list /\
    dict_get j' "action" = VStr "OTPREQUEST".
Proof.
  split; [ | split].
  - pose proof (autheticate_without_otp (H := collaborators) in_job VNone) as T.
    by_evaluation T. destruct T as [T _]. specialize (T []).
    by_evaluation T. exact (proj1 T).
  - pose proof (autheticate_without_otp (H := collaborators) live VNone) as T.
    by_evaluation T. destruct T as [_ T].
    by_evaluation T. exact (proj1 T).
  - pose proof (autheticate_without_otp (H := collaborators) live VNone) as T.
    by_evaluation T. destruct T as [_ T]. by_evaluation T.
    cbv zeta in T. destruct T as (_ & _ & _ & T).
    set (run := TaxpayerBaseAPI.before_request (Some (otp_request_payload live))
                  (set_auth_token VNone
                     (set_db (clear_token (self_filters live) <$> db live) live))).
    specialize (T (match fst run with Ok r => r | Raise _ => None end) (snd run)).
    by_evaluation T.
    destruct T as (_ & (j' & Ej & Haction & _) & before & after & Hlog & _).
    rewrite Ej in Hlog. exists j', before, after. split; assumption.
Defined.

(** A fresh taxpayer gets the acknowledgement back, marked and with the
    gstin, and the table is untouched. *)
Lemma request_otp_acknowledged_witness :
  exists w2,
    otp_handler TaxpayerBaseAPI.request_otp fresh
    = (Ok (VDict (<["gstin" := VStr "24AAAAA0000A1Z5"]>
                    (<["error_type" := VStr "otp_requested"]>
                       {["status_cd" := VInt 1]}))), w2) /\
    db w2 = db fresh /\
    length (sent w2) = 1%nat.
Proof.
  set (r := TaxpayerBaseAPI.super_post
              (Some (<["username" := VStr (username fresh)]>
                       (<["app_key" := app_key fresh]>
                          {["action" := VStr "OTPREQUEST"]})))
              "authenticate" fresh).
  pose proof (request_otp_acknowledged (H := collaborators) fresh
                {["status_cd" := VInt 1]} (snd r)) as T.
  cbv zeta in T. do 3 by_evaluation T.
  destruct T as (_ & E & _ & _ & D & _).
  exists (snd r). split; [exact E | ]. split; [exact D | ].
  vm_compute. reflexivity.
Defined.

(** A token that is live here and rejected by the gateway.  Outside a
    job the call ends as the OTP-less authentication, which posts an
    OTPREQUEST after the business request; inside a job it raises after
    that one request. *)
Lemma authorization_failure_reauthenticates_once_witness :
  (exists w2 j' between after,
      TaxpayerBaseAPI._request "get" (VStr "RETSUM") VNone VNone None "returns"
        None VNone stale
      = TaxpayerBaseAPI.autheticate_with_otp VNone w2 /\
      length (sent w2) = 1%nat /\
      sent (snd (TaxpayerBaseAPI._request "get" (VStr "RETSUM") VNone VNone None
                   "returns" None VNone stale))
      = (sent w2 ++ between
         ++ [Request TaxpayerBaseAPI.BASE_PATH "post" "authenticate" None None
               (Some j')]
         ++ after)%list /\
      dict_get j' "action" = VStr "OTPREQUEST") /\
  fst (TaxpayerBaseAPI._request "get" (VStr "RETSUM") VNone VNone None "returns"
         None VNone stale_in_job)
  = Raise InvalidAuthTokenError.
Proof.
  split.
  - set (r := TaxpayerBaseAPI.super_method "get"
                (Some (default ∅ None ∪ {["action" := VStr "RETSUM"]}))
                (Some (TaxpayerBaseAPI.request_headers (VStr "STALE") VNone VNone))
                None "returns" stale).
    pose proof (authorization_failure_reauthenticates_once (H := collaborators)
                  "get" (VStr "RETSUM") VNone VNone None "returns" None VNone
                  stale (VStr "STALE") stale
                  (<["gstin" := VStr "24AAAAA0000A1Z5"]>
                     (<["error_type" := VStr "authorization_failed"]>
                        authorization_failure))
                  (snd r)) as T.
    cbv zeta in T.
    assert (Hreach : reaches_request VNone stale (VStr "STALE") stale).
    { split; vm_compute; reflexivity. }
    specialize (T Hreach). do 2 by_evaluation T.
    destruct T as (E & _ & _ & T). by_evaluation T.
    set (run := TaxpayerBaseAPI.before_request
                  (Some (otp_request_payload (snd r)))
                  (set_auth_token VNone
                     (set_db (clear_token (self_filters (snd r)) <$> db (snd r))
                        (snd r)))).
    specialize (T (match fst run with Ok j => j | Raise _ => None end) (snd run)).
    by_evaluation T.
    destruct T as (_ & (j' & Ej & Haction & _) & between & after & Hlog & _).
    rewrite Ej in Hlog. exists (snd r), j', between, after.
    split; [exact E | ]. split; [vm_compute; reflexivity | ].
    split; assumption.
  - set (r := TaxpayerBaseAPI.super_method "get"
                (Some (default ∅ None ∪ {["action" := VStr "RETSUM"]}))
                (Some (TaxpayerBaseAPI.request_headers (VStr "STALE") VNone VNone))
                None "returns" stale_in_job).
    pose proof (authorization_failure_reauthenticates_once (H := collaborators)
                  "get" (VStr "RETSUM") VNone VNone None "returns" None VNone
                  stale_in_job (VStr "STALE") stale_in_job
                  (<["gstin" := VStr "24AAAAA0000A1Z5"]>
                     (<["error_type" := VStr "authorization_failed"]>
                        authorization_failure))
                  (snd r)) as T.
    cbv zeta in T.
    assert (Hreach : reaches_request VNone stale_in_job (VStr "STALE") stale_in_job).
    { split; vm_compute; reflexivity. }
    specialize (T Hreach). do 2 by_evaluation T.
    destruct T as (_ & _ & T & _). specialize (T []). by_evaluation T.
    destruct T as [T _]. rewrite T. reflexivity.
Defined.

(** C1, the claim as stated, is false: "for every pipeline request whose
    response is classified as authorization_failed, the pipeline performs
    one re-authentication attempt", read as: once the business request
    has been answered, a request goes to [authenticate].  Inside a job
    the call with the rejected token STALE sends the business request
    and nothing else: the reset of the token is queued and the call
    raises. *)
Lemma authorization_failure_in_job_sends_nothing :
  ~ (forall (C : Collaborators) (method : string)
            (action return_type return_period : value)
            (params : option pydict) (target : string) (json : option pydict)
            (otp : value) (w : world) (token : value) (w1 : world)
            (response : pydict) (w2 : world),
        reaches_request otp w token w1 ->
        TaxpayerBaseAPI.super_method method
          (Some (default ∅ params ∪ {["action" := action]}))
          (Some (TaxpayerBaseAPI.request_headers token return_type return_period))
          json target w1 = (Ok response, w2) ->
        py_eq (dict_get response "error_type") (VStr "authorization_failed")
        = true ->
        exists before q after,
          sent (snd (TaxpayerBaseAPI._request method action return_type
                       return_period params target json otp w))
          = (sent w2 ++ before ++ [q] ++ after)%list /\
          endpoint q = "authenticate").
Proof.
  intros Hclaim.
  set (r := TaxpayerBaseAPI.super_method "get"
              (Some (default ∅ None ∪ {["action" := VStr "RETSUM"]}))
              (Some (TaxpayerBaseAPI.request_headers (VStr "STALE") VNone VNone))
              None "returns" stale_in_job).
  assert (Hreach : reaches_request VNone stale_in_job (VStr "STALE") stale_in_job).
  { split; vm_compute; reflexivity. }
  assert (Hsend : r = (Ok (<["gstin" := VStr "24AAAAA0000A1Z5"]>
                             (<["error_type" := VStr "authorization_failed"]>
                                authorization_failure)),
                       snd r)) by (vm_compute; reflexivity).
  destruct (Hclaim collaborators "get" (VStr "RETSUM") VNone VNone None "returns"
              None VNone stale_in_job (VStr "STALE") stale_in_job _ (snd r)
              Hreach Hsend eq_refl) as (before & q & after & E & _).
  apply (f_equal (@length request)) in E.
  rewrite !length_app in E. cbn [length] in E.
  assert (H1 : length (sent (snd (TaxpayerBaseAPI._request "get" (VStr "RETSUM")
                                    VNone VNone None "returns" None VNone
                                    stale_in_job))) = 1%nat)
    by (vm_compute; reflexivity).
  assert (H2 : length (sent (snd r)) = 1%nat) by (vm_compute; reflexivity).
  rewrite H1, H2 in E. lia.
Qed.

(** The OTP is accepted and TOKEN-2 is stored on the object, yet the
    business request goes out, once, with the header [None]. *)
Lemma request_after_otp_sends_no_token_witness :
  exists w1 before after,
    auth_token w1 = VStr "TOKEN-2" /\
    TaxpayerBaseAPI._request "get" (VStr "RETSUM") VNone VNone None "returns"
      None (VStr "123456") fresh
    = TaxpayerBaseAPI.send_request "get" (VStr "RETSUM") None
        (TaxpayerBaseAPI.request_headers VNone VNone VNone) "returns" None w1 /\
    sent (snd (TaxpayerBaseAPI._request "get" (VStr "RETSUM") VNone VNone None
                 "returns" None (VStr "123456") fresh))
    = (sent fresh ++ before
       ++ [Request TaxpayerBaseAPI.BASE_PATH "get" "returns"
             (Some (default ∅ None ∪ {["action" := VStr "RETSUM"]}))
             (Some (TaxpayerBaseAPI.request_headers VNone VNone VNone)) None]
       ++ after)%list /\
    TaxpayerBaseAPI.request_headers VNone VNone VNone !! "auth-token" = Some VNone.
Proof.
  set (r := TaxpayerBaseAPI.autheticate_with_otp (VStr "123456") fresh).
  pose proof (request_after_otp_sends_no_token (H := collaborators)
                "get" (VStr "RETSUM") VNone VNone None "returns" None None
                (VStr "123456") fresh token_grant (snd r) (snd r)) as T.
  cbv zeta in T. do 6 by_evaluation T.
  destruct T as (E & _ & Hheader & _ & before & after & Hlog & _).
  exists (snd r), before, after.
  split; [vm_compute; reflexivity | ]. split; [exact E | ].
  split; [exact Hlog | exact Hheader].
Defined.

(** ** The further properties *)

#[local] Existing Instance Demo.file_collaborators.

(** The certificate PEM-1 of the settings is valid at time 1000. *)
Lemma get_public_certificate_cached_witness :
  TaxpayerAuthenticate.get_public_certificate live = (Ok (VBytes "PEM-1"), live).
Proof.
  pose proof (get_public_certificate_cached (H := collaborators) live "PEM-1"
                1000000) as T.
  by_evaluation T.
  assert (Hpem : "PEM-1" <> "") by discriminate.
  specialize (T Hpem). by_evaluation T. apply T. discriminate.
Defined.

(** Past its validity PEM-1 is replaced by PEM-2, which the gateway
    serves. *)
Lemma get_public_certificate_expired_witness :
  fst (TaxpayerAuthenticate.get_public_certificate late) = Ok (VBytes "PEM-2").
Proof.
  pose proof (get_public_certificate_expired (H := collaborators) late "PEM-1"
                1000000 {["certificate" := VStr "PEM-2"]}) as T.
  cbv zeta in T. by_evaluation T.
  assert (Hpem : "PEM-1" <> "") by discriminate.
  specialize (T Hpem). by_evaluation T.
  assert (Hlate : 1000000 < now late) by reflexivity.
  specialize (T Hlate). by_evaluation T.
  destruct T as (_ & T & _). specialize (T "PEM-2"). by_evaluation T.
  assert (Hnew : "PEM-2" <> "PEM-1") by discriminate.
  rewrite (T Hnew). reflexivity.
Defined.

(** Without a certificate in the settings PEM-2 is fetched with one
    request. *)
Lemma get_public_certificate_first_use_witness :
  fst (TaxpayerAuthenticate.get_public_certificate no_certificate)
  = Ok (VBytes "PEM-2") /\
  length (sent (snd (TaxpayerAuthenticate.get_public_certificate no_certificate)))
  = 1%nat.
Proof.
  pose proof (get_public_certificate_first_use (H := collaborators)
                no_certificate "PEM-2" 1000000
                {["certificate" := VStr "PEM-2"]}) as T.
  cbv zeta in T. do 3 by_evaluation T.
  assert (Hpem : "PEM-2" <> "") by discriminate.
  specialize (T Hpem). by_evaluation T.
  assert (Hvalid : now (set_gstn_public_certificate (VStr "PEM-2")
                          (after_sending
                             (Request "static" "get" "gstn_g2b_prod_public"
                                None None None) no_certificate)) <= 1000000)
    by (vm_compute; discriminate).
  destruct (T Hvalid) as (E & _ & _). rewrite E. split; reflexivity.
Defined.

(** With the live token TOKEN-1 the refresh is posted at once and brings
    the grant of the gateway. *)
Lemma refresh_auth_token_request_witness :
  fst (TaxpayerBaseAPI.refresh_auth_token live) = Ok (VDict token_grant) /\
  TaxpayerBaseAPI.refresh_auth_token expired = (Ok VNone, expired).
Proof.
  split.
  - pose proof (proj2 (refresh_auth_token_request (H := collaborators) live
                         (VStr "TOKEN-1")
                         (sealed "aes" (VStr "APPKEY") (VBytes "SESSION-1")))) as T.
    do 4 by_evaluation T. cbv zeta in T. rewrite T. vm_compute. reflexivity.
  - pose proof (proj1 (refresh_auth_token_request (H := collaborators) expired
                         VNone VNone)) as T.
    by_evaluation T. exact T.
Defined.

(** The OTP 123456 leaves as its encryption under APPKEY. *)
Lemma before_request_encrypts_otp_witness :
  exists j',
    fst (TaxpayerBaseAPI.before_request (Some otp_payload) live) = Ok (Some j') /\
    dict_get j' "otp" = sealed "aes" (VStr "123456") (VStr "APPKEY").
Proof.
  set (run := TaxpayerBaseAPI.before_request (Some otp_payload) live).
  pose proof (before_request_encrypts_otp (H := collaborators) live (snd run)
                otp_payload
                (match fst run with Ok r => r | Raise _ => None end)) as T.
  do 2 by_evaluation T. destruct T as (j' & Hr & Hotp).
  exists j'. split.
  - rewrite <- Hr. vm_compute. reflexivity.
  - assert (E : aes_encrypt_data (dict_get otp_payload "otp") (app_key live)
                = Ok (sealed "aes" (VStr "123456") (VStr "APPKEY")))
      by (vm_compute; reflexivity).
    rewrite E in Hotp. injection Hotp as Hotp. symmetry. exact Hotp.
Defined.

(** The data of a payload to save leave encrypted under SESSION-1, with
    an [hmac] under the same key. *)
Lemma before_request_encrypts_data_witness :
  exists j',
    fst (TaxpayerBaseAPI.before_request (Some data_payload) live) = Ok (Some j') /\
    dict_get j' "data" = sealed "aes" (VStr "b64:<json>") (VBytes "SESSION-1") /\
    dict_get j' "hmac" = sealed "hmac" (VBytes "b64:<json>") (VBytes "SESSION-1").
Proof.
  set (run := TaxpayerBaseAPI.before_request (Some data_payload) live).
  pose proof (before_request_encrypts_data (H := collaborators) live (snd run)
                data_payload
                (match fst run with Ok r => r | Raise _ => None end)) as T.
  do 2 by_evaluation T.
  destruct T as (j' & text & b64_data & Hr & Hjson & Hb64 & Hdata & Htag).
  assert (Est : py_eq (dict_get data_payload "st") (VStr "EVC") = false)
    by (vm_compute; reflexivity).
  rewrite Est in Htag. destruct Htag as [Hhmac _].
  assert (Ejson : as_json (dict_get data_payload "data") 1 = VStr "<json>")
    by reflexivity.
  rewrite Ejson in Hjson. injection Hjson as <-.
  assert (Eb64 : b64encode (VBytes "<json>") = Ok (VBytes "b64:<json>"))
    by reflexivity.
  rewrite Eb64 in Hb64. injection Hb64 as <-.
  assert (Edata : aes_encrypt_data (VStr "b64:<json>") (session_key live)
                  = Ok (sealed "aes" (VStr "b64:<json>") (VBytes "SESSION-1")))
    by reflexivity.
  rewrite Edata in Hdata. injection Hdata as Hdata.
  assert (Ehmac : hmac_sha256 (VBytes "b64:<json>") (session_key live)
                  = Ok (sealed "hmac" (VBytes "b64:<json>") (VBytes "SESSION-1")))
    by reflexivity.
  rewrite Ehmac in Hhmac. injection Hhmac as Hhmac.
  exists j'. split; [ | split].
  - rewrite <- Hr. vm_compute. reflexivity.
  - symmetry. exact Hdata.
  - symmetry. exact Hhmac.
Defined.

(** The code RETOTPREQUEST becomes the typed error with the marked
    response. *)
Lemma otp_errors_are_returned_witness :
  TaxpayerBaseAPI.process_response otp_demand live
  = (Raise (OTPRequestedError
              (<["gstin" := VStr "24AAAAA0000A1Z5"]>
                 (<["error_type" := VStr "otp_requested"]> otp_demand))),
     live).
Proof.
  pose proof (otp_errors_are_returned (H := collaborators) otp_demand
                {["error_cd" := VStr "RETOTPREQUEST"]} "RETOTPREQUEST"
                "otp_requested") as T.
  do 4 by_evaluation T. specialize (T (or_introl eq_refl)). cbv zeta in T.
  destruct T as [T _]. rewrite T. reflexivity.
Defined.

(** The code AUTH4038 is let through, marked. *)
Lemma listed_error_is_absorbed_witness :
  TaxpayerBaseAPI.handle_error_response authorization_failure live
  = (Ok (<["gstin" := VStr "24AAAAA0000A1Z5"]>
           (<["error_type" := VStr "authorization_failed"]> authorization_failure)),
     live).
Proof.
  pose proof (listed_error_is_absorbed (H := collaborators) authorization_failure
                (<["message" := VStr "Session Expired"]>
                   {["error_cd" := VStr "AUTH4038"]})
                "AUTH4038" "authorization_failed" live) as T.
  do 4 by_evaluation T.
  assert (H1 : "authorization_failed" <> "otp_requested") by discriminate.
  assert (H2 : "authorization_failed" <> "invalid_otp") by discriminate.
  assert (H3 : "authorization_failed" <> "invalid_public_key") by discriminate.
  exact (proj1 (T H1 H2 H3)).
Defined.

(** The code TEC4002 brings PEM-2 into the settings. *)
Lemma invalid_public_key_refetches_witness :
  fst (TaxpayerBaseAPI.handle_error_response key_failure live)
  = Ok (<["gstin" := VStr "24AAAAA0000A1Z5"]>
          (<["error_type" := VStr "invalid_public_key"]> key_failure)) /\
  gstn_public_certificate
    (snd (TaxpayerBaseAPI.handle_error_response key_failure live))
  = VStr "PEM-2".
Proof.
  pose proof (invalid_public_key_refetches (H := collaborators) key_failure
                {["error_cd" := VStr "TEC4002"]} "TEC4002" live
                {["certificate" := VStr "PEM-2"]}) as T.
  cbv zeta in T. do 5 by_evaluation T. rewrite T. split; reflexivity.
Defined.

(** The business reply was verified under the key REK. *)
Lemma decrypt_response_result_witness :
  exists key plain hmac,
    data_key business_reply live = Ok key /\
    aes_decrypt_data (dict_get business_reply "data") key = Ok plain /\
    hmac_sha256 plain key = Ok hmac /\
    py_eq hmac (dict_get business_reply "hmac") = true.
Proof.
  pose proof (decrypt_response_result (H := collaborators) business_reply
                (<["result" := VStr "payload"]> (delete "data" business_reply))
                live live) as T.
  do 2 by_evaluation T. destruct T as [_ T].
  assert (Edata : truthy (dict_get business_reply "data") = true)
    by (vm_compute; reflexivity).
  rewrite Edata in T.
  destruct T as (key & plain & decoded & result & Hkey & Hplain & Hhmac & _).
  by_evaluation Hhmac. destruct Hhmac as (hmac & Hh & Heq).
  exists key, plain, hmac. repeat split; assumption.
Defined.

(** A call of the taxpayer leaves the row of the other taxpayer. *)
Lemma request_keeps_other_rows_witness :
  db (snd (TaxpayerBaseAPI._request "get" (VStr "RETSUM") VNone VNone None
             "returns" None (VStr "123456") fresh)) !! 1%nat
  = Some other_row.
Proof.
  pose proof (request_keeps_other_rows (H := collaborators) "get" (VStr "RETSUM")
                VNone VNone None "returns" None (VStr "123456") fresh 1%nat
                other_row) as T.
  do 2 by_evaluation T. exact T.
Defined.

(** The reset clears the token of the row, commits once and leaves the
    attribute. *)
Lemma reset_auth_token_clears_rows_witness :
  auth_token (snd (TaxpayerBaseAPI.reset_auth_token live)) = VStr "TOKEN-1" /\
  exists row',
    db (snd (TaxpayerBaseAPI.reset_auth_token live)) !! 0%nat = Some row' /\
    row' !! "auth_token" = Some VNone.
Proof.
  pose proof (reset_auth_token_clears_rows live) as T.
  cbv zeta in T. destruct T as (_ & Hrows & Htoken & _).
  split; [exact Htoken | ].
  specialize (Hrows 0%nat (credential (VStr "TOKEN-1"))). by_evaluation Hrows.
  assert (Ematch : row_matches (self_filters live) (credential (VStr "TOKEN-1"))
                   = true) by (vm_compute; reflexivity).
  rewrite Ematch in Hrows. destruct Hrows as (row' & Hrow & Hcleared & _).
  exists row'. split; assumption.
Defined.

(** Under another app key the session key of the grant does not
    decrypt: the object holds TOKEN-2 and the table is as it was.  An
    expiry beyond the last datetime fails earlier, with the same effect. *)
Lemma rotation_fails_before_the_table_witness :
  (exists w',
      TaxpayerAuthenticate.decrypt_response token_grant other_key
      = (Raise (ExternalError "decrypt"), w') /\
      db w' = db other_key /\
      auth_token w' = VStr "TOKEN-2") /\
  (exists w',
      TaxpayerAuthenticate.decrypt_response endless_grant fresh
      = (Raise OverflowError, w') /\
      db w' = db fresh /\
      auth_token w' = VStr "TOKEN-2").
Proof.
  split.
  - pose proof (rotation_fails_before_the_table (H := collaborators) token_grant
                  other_key (ExternalError "decrypt")) as T.
    cbv zeta in T. destruct T as [_ T]. specialize (T (1000 + 60 * 360)).
    assert (Hexp : truthy (dict_get token_grant "expiry") = true ->
                   add_to_date (now other_key)
                     (cint (dict_get token_grant "expiry"))
                   = Ok (1000 + 60 * 360)).
    { intros _. vm_compute. reflexivity. }
    specialize (T Hexp). do 2 by_evaluation T.
    destruct T as (w' & E & Hdb & _ & Htoken & _).
    exists w'. split; [exact E | ]. split; [exact Hdb | ].
    rewrite Htoken. reflexivity.
  - pose proof (rotation_fails_before_the_table (H := collaborators) endless_grant
                  fresh OverflowError) as T.
    cbv zeta in T. destruct T as [T _]. do 2 by_evaluation T.
    destruct T as (w' & E & Hdb & _ & _ & Htoken).
    exists w'. split; [exact E | ]. split; [exact Hdb | ].
    rewrite Htoken. reflexivity.
Defined.

(** A fresh taxpayer without an OTP: the call ends as the authentication
    does. *)
Lemma request_without_token_never_returns_witness :
  snd (TaxpayerBaseAPI._request "get" (VStr "RETSUM") VNone VNone None "returns"
         None VNone fresh)
  = snd (TaxpayerBaseAPI.autheticate_with_otp VNone fresh).
Proof.
  pose proof (request_without_token_never_returns (H := collaborators) "get"
                (VStr "RETSUM") VNone VNone None "returns" None VNone fresh) as T.
  cbv zeta in T. do 2 by_evaluation T. destruct T as (_ & _ & T & _). exact T.
Defined.

(** The request for an OTP, decorated, returns the acknowledgement. *)
Lemma otp_handler_absorbs_witness :
  fst (otp_handler TaxpayerBaseAPI.request_otp fresh)
  = Ok (VDict (<["gstin" := VStr "24AAAAA0000A1Z5"]>
                 (<["error_type" := VStr "otp_requested"]>
                    {["status_cd" := VInt 1]}))).
Proof.
  pose proof (otp_handler_absorbs TaxpayerBaseAPI.request_otp fresh) as T.
  destruct T as (_ & _ & T & _). apply T. left. vm_compute. reflexivity.
Defined.

(** February 2024 belongs to the financial year 2023-24. *)
Lemma get_fy_april_to_march_witness :
  TaxpayerBaseAPI.get_fy (TaxpayerBaseAPI.Date (2023 + 1) 2 15) = "2023-24".
Proof.
  pose proof (get_fy_april_to_march 2023 2 15) as [T _].
  rewrite (T 4 1); [ | lia | lia].
  pose proof (get_fy_april_to_march 2023 4 1) as [_ T2].
  destruct T2 as [T2 _]; [lia | lia | ]. rewrite T2. reflexivity.
Defined.

(** A file whose hash is not the one of the row is not decrypted. *)
Lemma file_hash_is_checked_first_witness :
  FilesAPI.process_response (VBytes "EK") (VStr "tampered") (VStr "file-2")
    file_one live
  = (Raise (ValidationError
              (VStr "Hash of file doesn't match for file-2. File may be corrupted or tampered.")
              None),
     live).
Proof.
  pose proof (file_hash_is_checked_first (H := collaborators)
                (H0 := file_collaborators) (VBytes "EK") (VStr "tampered")
                (VStr "file-2") file_one (sha256 file_one) live) as T.
  by_evaluation T. destruct T as [T _]. by_evaluation T. rewrite T. reflexivity.
Defined.

(** The first of two files has another hash: one request is sent. *)
Lemma get_all_fetches_in_order_witness :
  (exists e, fst (FilesAPI.get_all (VDict tampered_details) live) = Raise e) /\
  sent (snd (FilesAPI.get_all (VDict tampered_details) live))
  = [Request FilesAPI.BASE_PATH "get" "file-2" None None None].
Proof.
  pose proof (get_all_fetches_in_order (H := collaborators)
                (H0 := file_collaborators) tampered_details
                [VDict (bad_row "file-2"); VDict (good_row "file-3")] live) as T.
  cbv zeta in T. by_evaluation T. destruct T as [_ T].
  specialize (T (VBytes "EK")). by_evaluation T. destruct T as [_ T].
  specialize (T (bad_row "file-2") "file-2" [VDict (good_row "file-3")]
                file_one (sha256 file_one) eq_refl).
  do 4 by_evaluation T. exact T.
Defined.

(** The stored row gives the object its token and its session key. *)
Lemma fetch_credentials_loads_row_witness :
  fst (TaxpayerBaseAPI._fetch_credentials stored_row fresh) = Ok tt /\
  auth_token (snd (TaxpayerBaseAPI._fetch_credentials stored_row fresh))
  = VStr "TOKEN-1" /\
  session_key (snd (TaxpayerBaseAPI._fetch_credentials stored_row fresh))
  = VBytes "SESSION-1".
Proof.
  pose proof (fetch_credentials_loads_row (H := collaborators)
                (H0 := file_collaborators) stored_row fresh
                (VBytes "SESSION-1")) as T.
  by_evaluation T. cbv zeta in T. destruct T as (E & Htoken & Hkey & _).
  split; [exact E | ]. split; [rewrite Htoken; reflexivity | exact Hkey].
Defined.

(** The grant stored by a fresh taxpayer is loaded again. *)
Lemma rotation_round_trip_witness :
  exists w1 row',
    TaxpayerAuthenticate.decrypt_response token_grant fresh = (Ok token_grant, w1) /\
    db w1 !! 0%nat = Some row' /\
    auth_token (snd (TaxpayerBaseAPI._fetch_credentials row' live)) = auth_token w1 /\
    session_key (snd (TaxpayerBaseAPI._fetch_credentials row' live)) = session_key w1.
Proof.
  pose proof (rotation_round_trip (H := collaborators) (H0 := file_collaborators)
                token_grant fresh live (1000 + 60 * 360) (VBytes "SESSION-2")
                "b64:SESSION-2" 0%nat (credential VNone)) as T.
  do 9 by_evaluation T. destruct T as (w1 & row' & E & Hrow & T).
  cbv zeta in T. destruct T as (_ & Htoken & Hkey & _).
  exists w1, row'. repeat split; assumption.
Defined.

(** The OTP 123456 of a fresh taxpayer is posted encrypted and brings the
    grant of the gateway. *)
Lemma autheticate_with_otp_request_witness :
  fst (TaxpayerBaseAPI.autheticate_with_otp (VStr "123456") fresh)
  = Ok (VDict token_grant).
Proof.
  pose proof (autheticate_with_otp_request (H := collaborators) fresh fresh
                (VStr "123456") (VBytes "PEM-1")
                (sealed "rsa" (VStr "APPKEY") (VBytes "PEM-1"))
                (sealed "aes" (VStr "123456") (VStr "APPKEY"))) as T.
  cbv zeta in T. do 5 by_evaluation T. rewrite T. vm_compute. reflexivity.
Defined.

End Witnesses.
